(** * SessionHog: the session run loop, the batch runner and the service shell

    A shallow embedding of
      - [app/session_helpers.js]  (the run loop [runSession] and the fixture
        generators),
      - [app/sessions_server.js]  (the batch runner [runScheduledSessions],
        the run lock, the job statistics and the HTTP handlers),
      - the older single-file server, which carries its own copy of the run
        loop, of the batch runner and a handler of [SIGTERM],
      - the one-shot script, which runs one batch and exits,
      - the serverless handler, for its copies of the pacing and device
        tools.

    JavaScript code is embedded as a tree of effects ([Prog]): every call to
    an external collaborator (session provider, browser driver, pacing
    helpers, timers) is a node answered by the environment with a value or
    with a thrown value, which may be [null] or [undefined];
    [try]/[catch]/[finally] are tree transformers. A program is run either
    to completion ([exec]) or, for the event loop of the service, up to its
    next [await] of a collaborator or of a timer ([sync_run]). Numbers are
    binary64: a product with [Math.random()] is rounded before
    [Math.floor] is taken ([round53]). *)

From Stdlib Require Import ZArith String Ascii List Lia.
From stdpp Require Import base option list strings gmap pretty.


(** ** JavaScript values used by the code *)

(** A thrown value other than [null] and [undefined]: an [Error] object, as
    a rule. [message] is what [error.message] reads, as a log line shows
    it. *)
Record Error := mkError { message : string }.

Variant Nullish := null | undefined.

(** Whatever is thrown, or is the reason of a rejected promise: JavaScript
    lets any value be thrown. *)
Variant Thrown :=
| Raised (e : Error)
| RaisedNullish (n : Nullish).

(** The outcome of a call: a value, or a thrown value. *)
Inductive Res (T : Type) : Type :=
| Ok (v : T)
| Err (e : Thrown).
Arguments Ok {T} v.
Arguments Err {T} e.

(** How a log line shows [null] and [undefined]. *)
Definition nullish_text (n : Nullish) : string :=
  match n with null => "null" | undefined => "undefined" end.

(** A thrown value handed to [console.error] as it is. An [Error] object is
    shown by its message. *)
Definition shown (thrown : Thrown) : string :=
  match thrown with
  | Raised e => message e
  | RaisedNullish n => nullish_text n
  end.

(** Truthiness of a string ([""] is falsy) and of a number ([0] is falsy);
    [undefined] is falsy. *)
Definition truthy_string (s : string) : bool := negb (String.eqb s "").
Definition truthy_number (z : Z) : bool := negb (Z.eqb z 0).
Definition truthy_opt {T} (t : T -> bool) (o : option T) : bool :=
  match o with Some v => t v | None => false end.

(** Numbers are IEEE 754 binary64 values. [round53 x] is the integer [x]
    rounded to 53 significant bits, to the nearest and on a tie to the even
    significand: the double nearest to [x], and also, scaled, the numerator
    over [2^k] of the double nearest to [x / 2^k] (the values that the code
    computes are neither subnormal nor do they overflow). Sums, differences
    and products of doubles are the exact results rounded so. *)
Definition round53 (x : Z) : Z :=
  let e := (Z.log2 (Z.abs x) - 52)%Z in
  if (e <=? 0)%Z then x
  else
    let q := (Z.abs x / 2 ^ e)%Z in
    let rest := (Z.abs x mod 2 ^ e)%Z in
    let half := (2 ^ (e - 1))%Z in
    let up := (half <? rest)%Z || ((rest =? half)%Z && Z.odd q) in
    (Z.sgn x * ((if up then q + 1 else q) * 2 ^ e))%Z.

(** The characters that a string literal cannot hold. *)
Definition dq : string := String "034" "".
Definition nl : string := String "010" "".

(** Template literal interpolation of a possibly [undefined] string. *)
Definition interp (o : option string) : string := default "undefined" o.

(** ** Data model *)

(** The result of [randomizeGeolocation()]. *)
Record GeoLocation := mkGeo {
  city : string;
  country : string;
  state : option string }.

(** RemoteSession: what [bb.sessions.create] resolves to. *)
Record Session := mkSession {
  id : string;
  connectUrl : string }.

Record Viewport := mkViewport { width : Z; height : Z }.

(** DeviceProfile: [deviceConfig] of [randomizeBrowser()]. *)
Record DeviceConfig := mkDeviceConfig {
  viewport : Viewport;
  userAgent : option string;
  deviceScaleFactor : Z;
  isMobile : bool;
  hasTouch : bool }.

Record BrowserChoice := mkBrowserChoice {
  browserType : string;
  deviceType : string;
  deviceConfig : DeviceConfig }.

(** UserFixture, as [generateUser] builds it. The UTM object is a
    JavaScript object used as a map from field names to strings. *)
Record User := mkUser {
  username : string;
  email : string;
  password : string;
  utmParams : gmap string string }.

(** One entry of the plan table. Amounts are in cents. *)
Record Plan := mkPlan { name : string; amount : Z }.

(** Opaque handles of the driver and of the provider. *)
Variant Provider := ProviderH (h : nat).
Variant Browser := BrowserH (h : nat).
Variant BrowserContext := ContextH (h : nat).
Variant Page := PageH (h : nat).
Variant ElementHandle := ElementH (h : nat).

(** Named pause bands of [humanPause]. *)
Variant Band := SHORT | MEDIUM | LONG.

(** The geolocation object sent to the provider:
    [{city, country, ...(geoLocation.state && {state: geoLocation.state})}]. *)
Definition proxy_geolocation (g : GeoLocation) : GeoLocation :=
  {| city := city g;
     country := country g;
     state := if truthy_opt truthy_string (state g) then state g else None |}.

(** JobStats. [session] of an error record is a run index or ['global']. *)
Variant SessionRef := RunIndex (i : Z) | GlobalRef.

Record ErrorRecord := mkErrorRecord {
  session : SessionRef;
  error : string }.

Record JobStats := mkJobStats {
  startTime : option string;
  completedSessions : Z;
  totalSessions : Z;
  errors : list ErrorRecord }.

(** ** Calls to external collaborators

    [Call T] is a call whose normal outcome has type [T]. *)
Inductive Call : Type -> Type :=
(* tools/randomGeolocation.js, tools/randomBrowser.js, tools/mouseMove.js *)
| RandomizeGeolocation : Call GeoLocation
| RandomizeBrowser : Call BrowserChoice
| HumanPause (p : option Page) (band : Band) : Call unit
| NaturalClick (p : option Page) (selector : string) : Call unit
(* the session provider *)
| SessionsCreate (bb : Provider) (projectId : option string) (region : string)
    (proxyType : string) (geolocation : GeoLocation) : Call (option Session)
| SessionsUpdate (bb : Provider) (sessionId : string) (status : string)
    (projectId : option string) : Call unit
(* the browser driver *)
| ConnectOverCDP (url : string) : Call Browser
| Contexts (b : Browser) : Call (list BrowserContext)
| Pages (c : BrowserContext) : Call (list Page)
| SetViewportSize (p : Page) (v : Viewport) : Call unit
| SetExtraHTTPHeaders (p : Page) (header value : string) : Call unit
| SetDefaultTimeout (p : Page) (ms : Z) : Call unit
| SetDefaultNavigationTimeout (p : Page) (ms : Z) : Call unit
| EvaluateUserAgent (p : Page) : Call string
| Goto (p : Page) (url : string) (waitUntil : option string)
    (timeout : option Z) : Call unit
| WaitForSelector (p : Page) (selector : string) (st : option string)
    (timeout : option Z) : Call (option ElementHandle)
| ElementClick (e : ElementHandle) : Call unit
| WaitForLoadState (p : Page) (st : string) : Call unit
| LabelFill (p : Page) (label text : string) : Call unit
| LocatorFill (p : Page) (selector text : string) : Call unit
| KeyboardPress (p : Page) (key : string) : Call unit
| EvaluateScrollToBottom (p : Page) : Call unit
| EvaluateCsrfToken (p : Page) : Call (option string)
| Fill (p : Page) (selector text : string) : Call unit
| Click (p : Page) (selector : string) : Call unit
| EvaluateLoginError (p : Page) : Call (option string)
| EvaluateModalVisible (p : Page) : Call bool
| EvaluateRemoveModal (p : Page) : Call unit
| GetByLabelWelcome (p : Page) : Call unit
| ClosePage (p : Page) : Call unit
| CloseBrowser (b : Browser) : Call unit
(* the checks at startup *)
| NewURL (url : string) : Call unit
| SessionsList (bb : Provider) (projectId : string) : Call unit
(* promise combinator *)
| PromiseAll {A B : Type} (c1 : Call A) (c2 : Call B) : Call (A * B).

Variant Level := LOG | WARN | ERROR.

(** ** Programs *)

Inductive Prog (A : Type) : Type :=
| Ret (a : A)
| Throw (e : Thrown)
| Await {T : Type} (c : Call T) (k : Res T -> Prog A)
| Invoke {T : Type} (c : Call T) (k : Res T -> Prog A)
| Sleep (ms : Z) (k : Prog A)
| Random (k : Z -> Prog A)
| Now (k : string -> Prog A)
| Console (lvl : Level) (msg : string) (k : Prog A)
| GetFlag (k : bool -> Prog A)
| SetFlag (b : bool) (k : Prog A)
| GetStats (k : JobStats -> Prog A)
| SetStats (s : JobStats) (k : Prog A)
| GetSession (k : option Session -> Prog A)
| SetSession (s : option Session) (k : Prog A).
Arguments Ret {A} a.
Arguments Throw {A} e.
Arguments Await {A T} c k.
Arguments Invoke {A T} c k.
Arguments Sleep {A} ms k.
Arguments Random {A} k.
Arguments Now {A} k.
Arguments Console {A} lvl msg k.
Arguments GetFlag {A} k.
Arguments SetFlag {A} b k.
Arguments GetStats {A} k.
Arguments SetStats {A} s k.
Arguments GetSession {A} k.
Arguments SetSession {A} s k.

(** Sequencing: an exception skips the rest. *)
Fixpoint bind {A B : Type} (p : Prog A) (f : A -> Prog B) : Prog B :=
  match p with
  | Ret a => f a
  | Throw e => Throw e
  | Await c k => Await c (fun r => bind (k r) f)
  | Invoke c k => Invoke c (fun r => bind (k r) f)
  | Sleep ms k => Sleep ms (bind k f)
  | Random k => Random (fun z => bind (k z) f)
  | Now k => Now (fun s => bind (k s) f)
  | Console l s k => Console l s (bind k f)
  | GetFlag k => GetFlag (fun b => bind (k b) f)
  | SetFlag b k => SetFlag b (bind k f)
  | GetStats k => GetStats (fun s => bind (k s) f)
  | SetStats s k => SetStats s (bind k f)
  | GetSession k => GetSession (fun s => bind (k s) f)
  | SetSession s k => SetSession s (bind k f)
  end.

#[global] Instance prog_ret : MRet Prog := @Ret.
#[global] Instance prog_bind : MBind Prog := fun A B f p => bind p f.
#[global] Instance prog_throw : MThrow Thrown Prog := @Throw.

(** [try { p } catch (e) { h e }] *)
Fixpoint try_catch {A : Type} (p : Prog A) (h : Thrown -> Prog A) : Prog A :=
  match p with
  | Ret a => Ret a
  | Throw e => h e
  | Await c k => Await c (fun r => try_catch (k r) h)
  | Invoke c k => Invoke c (fun r => try_catch (k r) h)
  | Sleep ms k => Sleep ms (try_catch k h)
  | Random k => Random (fun z => try_catch (k z) h)
  | Now k => Now (fun s => try_catch (k s) h)
  | Console l s k => Console l s (try_catch k h)
  | GetFlag k => GetFlag (fun b => try_catch (k b) h)
  | SetFlag b k => SetFlag b (try_catch k h)
  | GetStats k => GetStats (fun s => try_catch (k s) h)
  | SetStats s k => SetStats s (try_catch k h)
  | GetSession k => GetSession (fun s => try_catch (k s) h)
  | SetSession s k => SetSession s (try_catch k h)
  end.

(** [try { p } finally { f }]: [f] runs on both exits of [p]; the completion
    of [p] is resumed unless [f] itself throws. *)
Fixpoint try_finally {A : Type} (p : Prog A) (f : Prog unit) : Prog A :=
  match p with
  | Ret a => bind f (fun _ => Ret a)
  | Throw e => bind f (fun _ => Throw e)
  | Await c k => Await c (fun r => try_finally (k r) f)
  | Invoke c k => Invoke c (fun r => try_finally (k r) f)
  | Sleep ms k => Sleep ms (try_finally k f)
  | Random k => Random (fun z => try_finally (k z) f)
  | Now k => Now (fun s => try_finally (k s) f)
  | Console l s k => Console l s (try_finally k f)
  | GetFlag k => GetFlag (fun b => try_finally (k b) f)
  | SetFlag b k => SetFlag b (try_finally k f)
  | GetStats k => GetStats (fun s => try_finally (k s) f)
  | SetStats s k => SetStats s (try_finally k f)
  | GetSession k => GetSession (fun s => try_finally (k s) f)
  | SetSession s k => SetSession s (try_finally k f)
  end.

(** [try { p } catch (e) { h e } finally { f }] *)
Definition try_catch_finally {A : Type}
    (p : Prog A) (h : Thrown -> Prog A) (f : Prog unit) : Prog A :=
  try_finally (try_catch p h) f.

(** Primitive statements. *)
Definition settle {T : Type} (r : Res T) : Prog T :=
  match r with Ok v => Ret v | Err e => Throw e end.

Definition await {T : Type} (c : Call T) : Prog T := Await c settle.
Definition invoke {T : Type} (c : Call T) : Prog T := Invoke c settle.
Definition console_log (msg : string) : Prog unit := Console LOG msg (Ret tt).
Definition console_warn (msg : string) : Prog unit := Console WARN msg (Ret tt).
Definition console_error (msg : string) : Prog unit := Console ERROR msg (Ret tt).
Definition Math_random : Prog Z := Random Ret.
Definition Date_now_ISO : Prog string := Now Ret.
(** [await new Promise(resolve => setTimeout(resolve, ms))]: the promise
    of a timer is never rejected. *)
Definition sleep (ms : Z) : Prog unit := Sleep ms (Ret tt).
Definition when (b : bool) (p : Prog unit) : Prog unit :=
  if b then p else Ret tt.

(** A method call on [page], which is [undefined] when the browser has no
    context or no page: the member access then throws a [TypeError]. *)
Definition TypeError_undefined (member : string) : Error :=
  mkError ("Cannot read properties of undefined (reading '" +:+ member +:+ "')").

Definition TypeError_null (member : string) : Error :=
  mkError ("Cannot read properties of null (reading '" +:+ member +:+ "')").

Definition TypeError_nullish (n : Nullish) (member : string) : Error :=
  match n with
  | null => TypeError_null member
  | undefined => TypeError_undefined member
  end.

Definition on {H T : Type} (member : string) (target : option H)
    (call : H -> Prog T) : Prog T :=
  match target with
  | Some h => call h
  | None => Throw (Raised (TypeError_undefined member))
  end.

(** [error.message] in a handler: the member access throws a [TypeError]
    when what was thrown is [null] or [undefined]. *)
Definition message_of (thrown : Thrown) : Prog string :=
  match thrown with
  | Raised e => mret (message e)
  | RaisedNullish n => Throw (Raised (TypeError_nullish n "message"))
  end.

(** ** [app/session_helpers.js] *)

Module Helpers.

(** [Math.random()] is a double in [[0,1)]: [r / 2^53] for an integer
    [0 <= r < 2^53]. A program receives the numerator [r]. *)
Definition RANDOM_DENOM : Z := 2 ^ 53.

(** [Math.floor(Math.random() * n)] for an integer [n]: the product of the
    doubles [r / 2^53] and [n] is the double nearest to [r * n / 2^53],
    with numerator [round53 (r * n)]; [Math.floor] is taken of that double.
    At a draw just below a multiple of [1/n] the rounded product is the
    next integer, and the index is one more than the floor of the exact
    product. *)
Definition random_index (n : Z) : Prog Z :=
  r ← Math_random; mret (round53 (r * n) / RANDOM_DENOM)%Z.

(** [Math.random() < num/den], for the two thresholds of the code, [0.1]
    and [0.55]: the literal is the double nearest to the fraction, and a
    double [r / 2^53] is below the one exactly when it is below the
    other. *)
Definition random_below (num den : Z) : Prog bool :=
  r ← Math_random; mret (r * den <? num * RANDOM_DENOM)%Z.

(** [arr[Math.floor(Math.random() * arr.length)]]. The index is always
    below [arr.length]; [undef] stands for the [undefined] that an empty
    array would give. *)
Definition pick {T : Type} (undef : T) (arr : list T) : Prog T :=
  i ← random_index (Z.of_nat (length arr)); mret (nth (Z.to_nat i) arr undef).

(** [s.charAt(i)] *)
Definition charAt (i : Z) (s : string) : string :=
  if (i <? 0)%Z then "" else substring (Z.to_nat i) 1 s.

Definition upper_ascii (c : ascii) : ascii :=
  let n := nat_of_ascii c in
  if (97 <=? n)%nat && (n <=? 122)%nat then ascii_of_nat (n - 32) else c.

(** [s.toUpperCase()], on the characters the tables use. *)
Fixpoint toUpperCase (s : string) : string :=
  match s with
  | EmptyString => EmptyString
  | String c s' => String (upper_ascii c) (toUpperCase s')
  end.

(** [Array.from({length: n}, () => chars.charAt(...)).join('')] *)
Fixpoint random_chars (n : nat) (chars : string) : Prog string :=
  match n with
  | O => mret ""
  | S n' =>
      i ← random_index (Z.of_nat (String.length chars));
      rest ← random_chars n' chars;
      mret (charAt i chars +:+ rest)
  end.

Definition plans : list Plan :=
  [ mkPlan "FREE" 0; mkPlan "PREMIUM" 999; mkPlan "MAX-IMAL" 1999 ].

Definition generatePlanSelection : Prog Plan :=
  pick (mkPlan "undefined" 0) plans.

Definition sources : list string :=
  ["google"; "chatgpt"; "facebook"; "twitter"; "direct"; "email"].
Definition campaigns : list string :=
  ["winter2024"; "socialads"; "emailblast"; "organic"].
Definition mediums : list string :=
  ["search"; "social"; "cpc"; "email"; "organic"].
Definition searchTerms : list string :=
  ["movie streaming"; "watch movies online"; "best streaming service";
   "new movies"].

Definition generateUtm : Prog (gmap string string) :=
  utm_medium ← pick "undefined" mediums;
  utm_source ← pick "undefined" sources;
  utm_campaign ← pick "undefined" campaigns;
  let params : gmap string string :=
    <["utm_campaign" := utm_campaign]>
      (<["utm_medium" := utm_medium]>
        (<["utm_source" := utm_source]> ∅)) in
  (* Add utm_term only if medium is search *)
  if String.eqb utm_medium "search" then
    utm_term ← pick "undefined" searchTerms;
    mret (<["utm_term" := utm_term]> params)
  else
    mret params.

Definition regularDomains : list string :=
  ["hogmail.com"; "squeak.com"; "furryfamilies.com"; "quillpost.net";
   "spikeymail.org"; "hedgehoghaven.com"; "pricklypal.net";
   "snufflemail.com"; "spinyspace.org"; "hedgenet.com"].

Definition industryDomains : list string :=
  ["pixhog.biz"; "imaginhog.ai"; "marvelhogstudios.io"; "hannahogbera.com";
   "dreamhogs.biz"; "bluespiky.com"; "illuminhogion.tech";
   "hogartsentertainment.tech"; "pricklypictures.app"; "spinemation.io"].

Definition adjectives : list string :=
  ["spiky"; "sleepy"; "speedy"; "grumpy"; "happy"; "snuggly"; "tiny";
   "rolly"; "fuzzy"; "cozy"; "sniffing"; "curious"; "hungry";
   "adventurou$"; "bouncy"; "wiggly"; "giggly";
   "binging"; "watching"; "streaming"; "viewing"; "chilling"; "relaxing";
   "comfy"; "snacking"; "moviegoing"; "cinematic";
   "silli"; "jumpy"; "sparkly"; "magical"; "dancing"; "singing"; "laffy";
   "debugging"; "coding"; "hacking"; "building"; "shipping"; "testing";
   "deploying"; "scaling"; "optimizing"; "refactoring";
   "GrowinG"; "launching"; "iterating"; "mea$uring"; "analy$ing";
   "convert|ng"].

Definition names : list string :=
  ["sonic"; "spike"; "prickles"; "hoglet"; "nibbles"; "waddles"; "pokey";
   "ziggy"; "quills"; "bramble"; "thistle";
   "moviebuff"; "cinephile"; "filmfan"; "bingewatcher"; "couchpotato";
   "streammaster"; "flickpicker"; "showtime"; "cinema";
   "princess"; "superhero"; "dragon"; "unicorn"; "wizard"; "fairy";
   "pirate"; "ninja"; "astronaut"; "dinosaur"; "mermaid";
   "dev"; "sre"; "backend"; "frontend"; "fullstack"; "devops"; "ai_ops";
   "architect"; "llm_ops";
   "product"; "growth"; "metrics"; "funnel"; "journey"; "northstar"; "pmf";
   "mvp"].

Definition alphanumeric : string :=
  "ABCDEFGHIJKLMNOPQRSTUVWXYZabcdefghijklmnopqrstuvwxyz0123456789".

Definition generateUser : Prog User :=
  useIndustryDomain ← random_below 1 10;
  let domainList :=
    if (useIndustryDomain : bool) then industryDomains else regularDomains in
  randomDomain ← pick "undefined" domainList;
  randomAdjective ← pick "undefined" adjectives;
  first ← pick "undefined" names;
  second ← pick "undefined" names;
  let randomName := toUpperCase (charAt 0%Z first) +:+ second in
  suffix ← random_chars 3 alphanumeric;
  let username := randomAdjective +:+ randomName +:+ suffix in
  utmParams ← generateUtm;
  password ← random_chars 9 alphanumeric;
  mret {| username := username;
          email := username +:+ "@" +:+ randomDomain;
          password := password;
          utmParams := utmParams |}.

Definition generateMovieNumber : Prog Z :=
  i ← random_index 3; mret (i + 1)%Z.


(** *** [runSession] *)

Section RunSession.

(** [process.env]. *)
Variable process_env : gmap string string.

Definition quoted (s : string) : string := dq +:+ s +:+ dq.

Definition continue_selector : string :=
  String.concat ","
    [ "button.btn-primary.btn.js-toggle-hidden";
      "button:has-text(" +:+ quoted "Continue" +:+ ")";
      "[onclick*=" +:+ quoted "tunnel_phishing_protection" +:+ "]" ].

Definition landing_url (BASE_DOMAIN : string) (utmParams : gmap string string) : string :=
  BASE_DOMAIN +:+ "?utm_source=" +:+ interp (utmParams !! "utm_source")
    +:+ "&utm_medium=" +:+ interp (utmParams !! "utm_medium")
    +:+ "&utm_campaign=" +:+ interp (utmParams !! "utm_campaign").

Definition fullUrl (BASE_DOMAIN : string) (utmParams : gmap string string) : string :=
  landing_url BASE_DOMAIN utmParams +:+
  (if truthy_opt truthy_string (utmParams !! "utm_term")
   then "&utm_term=" +:+ interp (utmParams !! "utm_term") else "").

(** Lines 16-29: the remote session is acquired and assigned to [session].
    [projectId] is the project identifier the copy at hand passes to the
    provider. *)
Definition acquire (projectId : option string) (bb : Provider) : Prog (option Session) :=
  geoLocation ← invoke RandomizeGeolocation;
  created ← await (SessionsCreate bb projectId "us-east-1" "browserbase"
                     (proxy_geolocation geoLocation));
  SetSession created (Ret tt);;
  mret created.

(** Lines 31-279: the scripted journey on the acquired [session], up to
    [return true]. *)
Definition drive (created : option Session) (sessionNumber : Z)
    (BASE_DOMAIN : string) : Prog bool :=
  (* look at Browserbase.js fingerprint for viewports *)
  choice ← await RandomizeBrowser;
  let deviceConfig := deviceConfig choice in
  console_log ("Using " +:+ browserType choice +:+ " browser in "
               +:+ deviceType choice +:+ " mode");;
  browser ← on "connectUrl" created (λ s, await (ConnectOverCDP (connectUrl s)));
  contexts ← invoke (Contexts browser);
  let defaultContext := head contexts in
  page ← match defaultContext with
         | Some c => pages ← invoke (Pages c); mret (head pages)
         | None => mret None
         end;
  (* Set viewport first *)
  on "setViewportSize" page (λ p, await (SetViewportSize p (viewport deviceConfig)));;
  (* Try/catch block for user agent setting *)
  try_catch
    (when (truthy_opt truthy_string (userAgent deviceConfig))
       (on "setExtraHTTPHeaders" page
          (λ p, await (SetExtraHTTPHeaders p "User-Agent"
                         (interp (userAgent deviceConfig))))))
    (λ e,
       msg ← message_of e;
       console_warn ("Could not set user agent, continuing anyway: " +:+ msg));;
  (* Increased timeouts for page operations *)
  on "setDefaultTimeout" page (λ p, invoke (SetDefaultTimeout p 120000));;
  on "setDefaultNavigationTimeout" page
    (λ p, invoke (SetDefaultNavigationTimeout p 120000));;
  (* Generate random data *)
  user ← generateUser;
  utmParams ← generateUtm;
  planSelection ← generatePlanSelection;
  movieNumber ← generateMovieNumber;
  (* Navigate and interact with the page *)
  console_log "Navigating to page...";;
  userAgent ← on "evaluate" page (λ p, await (EvaluateUserAgent p));
  console_log ("User agent: " +:+ userAgent);;
  try_catch
    ((* Initial page load *)
     on "goto" page
       (λ p, await (Goto p (landing_url BASE_DOMAIN utmParams)
                      (Some "networkidle") (Some 60000%Z)));;
     (* Handle GitHub Codespaces Continue button *)
     try_catch
       (continueButton ← on "waitForSelector" page
          (λ p, await (WaitForSelector p continue_selector None (Some 5000%Z)));
        match continueButton with
        | Some button =>
            await (ElementClick button);;
            (* Wait for the cookie to be set and page to settle *)
            on "waitForLoadState" page (λ p, await (WaitForLoadState p "networkidle"))
        | None => mret tt
        end)
       (λ buttonError,
          console_log "No CodeSpaces continue button found, proceeding with normal flow");;
     await (HumanPause page MEDIUM);;
     (* Navigate to signup with Promise.all to handle navigation *)
     on "waitForLoadState" page
       (λ p, await (PromiseAll (WaitForLoadState p "networkidle")
                               (Goto p (BASE_DOMAIN +:+ "signup") None None)));;
     (* Wait for form to be interactive *)
     on "waitForSelector" page
       (λ p, await (WaitForSelector p ".form-control" (Some "visible") None));;
     await (HumanPause page SHORT))
    (λ error,
       console_error ("Navigation error: " +:+ shown error);;
       Throw error);;
  on "getByLabel" page (λ p, await (LabelFill p "Username" (username user)));;
  on "keyboard" page (λ p, await (KeyboardPress p "Tab"));;
  await (HumanPause page MEDIUM);;
  on "getByLabel" page (λ p, await (LabelFill p "Email" (email user)));;
  on "keyboard" page (λ p, await (KeyboardPress p "Tab"));;
  await (HumanPause page MEDIUM);;
  on "locator" page (λ p, await (LocatorFill p "input#password" (password user)));;
  on "keyboard" page (λ p, await (KeyboardPress p "Tab"));;
  await (HumanPause page MEDIUM);;
  on "locator" page (λ p, await (LocatorFill p "input#password2" (password user)));;
  on "keyboard" page (λ p, await (KeyboardPress p "Tab"));;
  (* 55% chance to check the adult checkbox *)
  adult ← random_below 55 100;
  when adult
    (on "keyboard" page (λ p, await (KeyboardPress p "Tab"));;
     await (NaturalClick page ".form-check-input"));;
  (* Scroll to bottom for plan selection *)
  await (HumanPause page MEDIUM);;
  on "evaluate" page (λ p, await (EvaluateScrollToBottom p));;
  (* Plan selection *)
  await (HumanPause page MEDIUM);;
  await (NaturalClick page
           ("button:has-text(" +:+ quoted ("SELECT " +:+ name planSelection) +:+ ")"));;
  (* Continue with form submission and navigation *)
  await (HumanPause page MEDIUM);;
  await (NaturalClick page ("[accesskey=" +:+ quoted "e" +:+ "]"));;
  await (HumanPause page MEDIUM);;
  console_log "Navigating to login page after signup...";;
  console_log ("username: " +:+ username user);;
  console_log ("password: " +:+ password user);;
  (* Login section *)
  on "goto" page
    (λ p, await (Goto p (BASE_DOMAIN +:+ "login") (Some "domcontentloaded") None));;
  try_catch
    (await (HumanPause page MEDIUM);;
     (* Get CSRF token with better error handling and fallbacks *)
     try_catch
       (csrfToken ← on "evaluate" page (λ p, await (EvaluateCsrfToken p));
        when (negb (truthy_opt truthy_string csrfToken))
          (console_warn "CSRF token not found, proceeding without it"))
       (λ error,
          msg ← message_of error;
          console_warn ("Error getting CSRF token: " +:+ msg));;
     (* Fill form *)
     on "fill" page (λ p, await (Fill p "#username" (username user)));;
     await (HumanPause page MEDIUM);;
     on "fill" page (λ p, await (Fill p "#password" (password user)));;
     await (HumanPause page MEDIUM);;
     console_log "Filled password";;
     console_log ("username: " +:+ username user);;
     console_log ("password: " +:+ password user);;
     (* Submit form and wait for navigation *)
     on "click" page
       (λ p, await (Click p ("input[type=" +:+ quoted "submit" +:+ "]")));;
     await (HumanPause page MEDIUM);;
     (* Check for error message *)
     hasError ← on "evaluate" page (λ p, await (EvaluateLoginError p));
     when (truthy_opt truthy_string hasError)
       (console_error ("Login error: " +:+ interp hasError);;
        Throw (Raised (mkError ("Login failed: " +:+ interp hasError)))))
    (λ error,
       console_error ("Login process failed: " +:+ shown error);;
       Throw error);;
  (* Movie selection and playback *)
  await (HumanPause page MEDIUM);;
  (* Wait for DOM to load *)
  on "goto" page (λ p, await (Goto p BASE_DOMAIN (Some "domcontentloaded") None));;
  (* First check and handle any modal *)
  modalVisible ← on "evaluate" page (λ p, await (EvaluateModalVisible p));
  when modalVisible
    (console_log "Modal detected, attempting to close...";;
     try_catch
       (on "click" page (λ p, await (Click p "#close-modal"));;
        await (HumanPause page SHORT))
       (λ e,
          console_log "Could not find close button, removing modal programmatically";;
          on "evaluate" page (λ p, await (EvaluateRemoveModal p))));;
  (* Click movie link with navigation handling *)
  try_catch
    (console_log "Attempting to click movie link...";;
     await (NaturalClick page
              ("a[accesskey=" +:+ quoted (pretty movieNumber) +:+ "]"));;
     console_log "Movie link clicked, waiting for network idle...";;
     on "waitForLoadState" page (λ p, await (WaitForLoadState p "networkidle"));;
     console_log "Video should be playing now";;
     await (HumanPause page LONG);;
     console_log "Waiting for userDropdown to be visible...";;
     on "getByLabel" page (λ p, invoke (GetByLabelWelcome p));;
     console_log "Clicking userDropdown...";;
     await (NaturalClick page
              (":text-matches(" +:+ quoted "Welcome back to Hogflix" +:+ ")"));;
     await (HumanPause page MEDIUM);;
     console_log "Attempting logout...";;
     on "waitForLoadState" page
       (λ p, await (PromiseAll (WaitForLoadState p "networkidle")
                               (NaturalClick page ("a[accesskey=" +:+ quoted "o" +:+ "]"))));;
     console_log "Logout successful")
    (λ error,
       console_error ("Error during movie playback or logout: " +:+ shown error);;
       Throw error);;
  (* Cleanup *)
  await (HumanPause page LONG);;
  on "close" page (λ p, await (ClosePage p));;
  await (CloseBrowser browser);;
  replay ← on "id" created (λ s, mret (id s));
  console_log
    ("Session " +:+ pretty sessionNumber +:+ " complete!" +:+ nl +:+
     "- Replay: https://browserbase.com/sessions/" +:+ replay +:+ nl +:+
     "- Username: " +:+ username user +:+ nl +:+
     "- Password: " +:+ password user +:+ nl +:+
     "- Browser: " +:+ browserType choice +:+ nl +:+
     "- Screen: " +:+ pretty (width (viewport deviceConfig)) +:+ "x"
                  +:+ pretty (height (viewport deviceConfig)) +:+ nl +:+
     "- Device: " +:+ deviceType choice +:+ nl +:+
     "- URL: " +:+ fullUrl BASE_DOMAIN utmParams);;
  mret true.

Definition journey (projectId : option string) (sessionNumber : Z)
    (bb : Provider) (BASE_DOMAIN : string) : Prog bool :=
  created ← acquire projectId bb;
  drive created sessionNumber BASE_DOMAIN.

(** The [try] block. *)
Definition runSession_try (sessionNumber totalSessions : Z)
    (bb : Provider) (BASE_DOMAIN : string) : Prog bool :=
  console_log ("Starting session " +:+ pretty sessionNumber +:+ "/"
               +:+ pretty totalSessions +:+ "...");;
  journey (process_env !! "BROWSERBASE_PROJECT_ID") sessionNumber bb BASE_DOMAIN.

(** The [catch (error)] block. The arguments of [console.error] are
    evaluated first: when [error.message] throws, nothing is logged. *)
Definition runSession_catch (sessionNumber : Z) (error : Thrown) : Prog bool :=
  msg ← message_of error;
  console_error ("Error in session " +:+ pretty sessionNumber +:+ ": " +:+ msg);;
  mret false.

(** The [finally] block: cleanup if the session was created. *)
Definition runSession_finally (projectId : option string) (bb : Provider) : Prog unit :=
  GetSession (λ session,
    match session with
    | Some s =>
        when (truthy_string (id s))
          (try_catch
             (await (SessionsUpdate bb (id s) "REQUEST_RELEASE" projectId))
             (λ cleanupError,
                msg ← message_of cleanupError;
                console_warn ("Failed to cleanup session " +:+ id s +:+ ": "
                              +:+ msg)))
    | None => mret tt
    end).

Definition runSession (sessionNumber totalSessions : Z)
    (bb : Provider) (BASE_DOMAIN : string) : Prog bool :=
  (* let session; *)
  SetSession None
    (try_catch_finally
       (runSession_try sessionNumber totalSessions bb BASE_DOMAIN)
       (runSession_catch sessionNumber)
       (runSession_finally (process_env !! "BROWSERBASE_PROJECT_ID") bb)).

End RunSession.

End Helpers.

(** ** Running programs *)

(** What a run leaves behind, in order. *)
Inductive Event : Type :=
| EvCall {T : Type} (c : Call T) (r : Res T)
| EvSleep (ms : Z)
| EvLog (lvl : Level) (msg : string)
| EvFlag (b : bool)
| EvStats (s : JobStats)
| EvSession (s : option Session).

(** The environment: it answers every external call with a value or a
    thrown error, and it supplies random numbers and the clock. *)
Class World (W : Type) := {
  answer : ∀ {T : Type}, Call T → W → W * Res T;
  draw : W → W * Z;
  clock : W → W * string }.

(** The process-wide state of the server, and the environment. *)
Record Machine (W : Type) := mkMachine {
  isJobRunning : bool;
  currentJobStats : JobStats;
  world : W }.
Arguments mkMachine {W} _ _ _.
Arguments isJobRunning {W} _.
Arguments currentJobStats {W} _.
Arguments world {W} _.

Definition set_world {W} (m : Machine W) (w : W) : Machine W :=
  mkMachine (isJobRunning m) (currentJobStats m) w.
Definition set_flag {W} (m : Machine W) (b : bool) : Machine W :=
  mkMachine b (currentJobStats m) (world m).
Definition set_stats {W} (m : Machine W) (s : JobStats) : Machine W :=
  mkMachine (isJobRunning m) s (world m).

(** The local variable [session] of the running [runSession]. *)
Definition Frame := option Session.

Record Run (W A : Type) := mkRun {
  emitted : list Event;
  frame : Frame;
  machine : Machine W;
  result : Res A }.
Arguments mkRun {W A} _ _ _ _.
Arguments emitted {W A} _.
Arguments frame {W A} _.
Arguments machine {W A} _.
Arguments result {W A} _.

Definition emit {W A} (evs : list Event) (o : Run W A) : Run W A :=
  mkRun (evs ++ emitted o) (frame o) (machine o) (result o).

(** A suspended or finished computation, with the frame and the machine
    it stopped in. *)
Record Task (W A : Type) := mkTask {
  task_events : list Event;
  task_frame : Frame;
  task_machine : Machine W;
  task_code : Prog A }.
Arguments mkTask {W A} _ _ _ _.
Arguments task_events {W A} _.
Arguments task_frame {W A} _.
Arguments task_machine {W A} _.
Arguments task_code {W A} _.

Definition task_emit {W A} (evs : list Event) (t : Task W A) : Task W A :=
  mkTask (evs ++ task_events t) (task_frame t) (task_machine t) (task_code t).

(** [Math.random()]: the numerator of a double in [[0,1)]. *)
Definition unit_interval (z : Z) : Z := (z mod Helpers.RANDOM_DENOM)%Z.

Section Exec.
Context {W : Type} `{World W}.

(** Run to completion, without interleaving. *)
Fixpoint exec {A : Type} (p : Prog A) (fr : Frame) (m : Machine W) : Run W A :=
  match p with
  | Ret a => mkRun [] fr m (Ok a)
  | Throw e => mkRun [] fr m (Err e)
  | Await c k | Invoke c k =>
      let '(w, r) := answer c (world m) in
      emit [EvCall c r] (exec (k r) fr (set_world m w))
  | Sleep ms k => emit [EvSleep ms] (exec k fr m)
  | Random k =>
      let '(w, z) := draw (world m) in
      exec (k (unit_interval z)) fr (set_world m w)
  | Now k =>
      let '(w, t) := clock (world m) in
      exec (k t) fr (set_world m w)
  | Console l s k => emit [EvLog l s] (exec k fr m)
  | GetFlag k => exec (k (isJobRunning m)) fr m
  | SetFlag b k => emit [EvFlag b] (exec k fr (set_flag m b))
  | GetStats k => exec (k (currentJobStats m)) fr m
  | SetStats s k => emit [EvStats s] (exec k fr (set_stats m s))
  | GetSession k => exec (k fr) fr m
  | SetSession s k => emit [EvSession s] (exec k s m)
  end.

(** Run synchronously up to the next [await] (or to the end): this is what
    one turn of the event loop executes. *)
Fixpoint sync_run {A : Type} (p : Prog A) (fr : Frame) (m : Machine W) : Task W A :=
  match p with
  | Ret _ | Throw _ | Await _ _ | Sleep _ _ => mkTask [] fr m p
  | Invoke c k =>
      let '(w, r) := answer c (world m) in
      task_emit [EvCall c r] (sync_run (k r) fr (set_world m w))
  | Random k =>
      let '(w, z) := draw (world m) in
      sync_run (k (unit_interval z)) fr (set_world m w)
  | Now k =>
      let '(w, t) := clock (world m) in
      sync_run (k t) fr (set_world m w)
  | Console l s k => task_emit [EvLog l s] (sync_run k fr m)
  | GetFlag k => sync_run (k (isJobRunning m)) fr m
  | SetFlag b k => task_emit [EvFlag b] (sync_run k fr (set_flag m b))
  | GetStats k => sync_run (k (currentJobStats m)) fr m
  | SetStats s k => task_emit [EvStats s] (sync_run k fr (set_stats m s))
  | GetSession k => sync_run (k fr) fr m
  | SetSession s k => task_emit [EvSession s] (sync_run k s m)
  end.

(** The awaited promise settles: the environment answers the call (a timer
    just fires) and the task runs on to its next [await]. A finished task
    stays as it is. *)
Definition resume {A : Type} (p : Prog A) (fr : Frame) (m : Machine W) : Task W A :=
  match p with
  | Await c k =>
      let '(w, r) := answer c (world m) in
      task_emit [EvCall c r] (sync_run (k r) fr (set_world m w))
  | Sleep ms k => task_emit [EvSleep ms] (sync_run k fr m)
  | _ => mkTask [] fr m p
  end.

Definition finished {A : Type} (p : Prog A) : bool :=
  match p with Ret _ | Throw _ => true | _ => false end.

End Exec.

(** ** [app/sessions_server.js] *)

Module Server.

(** [options] of [runScheduledSessions], and the body of a trigger request:
    both fields are optional integers. *)
Record Options := mkOptions {
  sessionCount : option Z;
  maxConcurrent : option Z }.

(** [options = {}] *)
Definition no_options : Options := mkOptions None None.

Record Request := mkRequest {
  headers : gmap string string;
  body : Options }.

(** [config.sessionCount] of the 202 response:
    [sessionCount || 'random(23-52)']. *)
Variant CountOrText := CountValue (n : Z) | CountText (s : string).

Variant Json :=
| ErrorBody (status message : string)
| StatusBody (isJobRunning : bool) (currentJob : option JobStats)
| ConflictBody (status message : string) (currentJob : JobStats)
| AcceptedBody (status message : string) (sessionCount : CountOrText)
    (maxConcurrent : Z).

Record Response := mkResponse {
  status : Z;
  json : Json }.

(** The server process: its globals and environment, and the batches that
    were started and are suspended at an [await] or have finished. *)
Record Process (W : Type) := mkProcess {
  globals : Machine W;
  batches : list (Frame * Prog bool) }.
Arguments mkProcess {W} _ _.
Arguments globals {W} _.
Arguments batches {W} _.

Section Server.

Variable process_env : gmap string string.

(** [process.env.X || fallback] *)
Definition env_or (key fallback : string) : string :=
  if truthy_opt truthy_string (process_env !! key)
  then interp (process_env !! key) else fallback.

Definition BASE_DOMAIN : string :=
  env_or "BASE_DOMAIN" "https://posthog-demo-3000.fly.dev/".
Definition API_KEY : string := env_or "API_KEY" "".

(** [new Browserbase({...})] *)
Variable bb : Provider.

(** The initial value of [currentJobStats]. *)
Definition initial_stats : JobStats := mkJobStats None 0 0 [].

(** [currentJobStats.completedSessions++] *)
Definition increment_completed : Prog unit :=
  GetStats (λ s,
    SetStats (mkJobStats (startTime s) (completedSessions s + 1)
                (totalSessions s) (errors s)) (Ret tt)).

(** [currentJobStats.errors.push({session, error})] *)
Definition push_error (ref : SessionRef) (msg : string) : Prog unit :=
  GetStats (λ s,
    SetStats (mkJobStats (startTime s) (completedSessions s)
                (totalSessions s) (errors s ++ [mkErrorRecord ref msg])) (Ret tt)).

(** One iteration of the [for] loop; [results] is the array so far. *)
Definition iteration (i sessionCount : Z) (results : list bool) : Prog (list bool) :=
  results ← try_catch
    (result ← Helpers.runSession process_env i sessionCount bb BASE_DOMAIN;
     when result increment_completed;;
     mret (results ++ [result]))
    (λ error,
       msg ← message_of error;
       push_error (RunIndex i) msg;;
       mret results);
  (* Add a random delay between sessions (2-5 seconds) *)
  r ← Helpers.random_index (5000 - 2000 + 1);
  let delay := (r + 2000)%Z in
  sleep delay;;
  mret results.

(** [for (let i = 1; i <= sessionCount; i++) { ... }], entered with [i]
    and [remaining = sessionCount + 1 - i] iterations to go. *)
Fixpoint session_loop (remaining : nat) (i sessionCount : Z)
    (results : list bool) : Prog (list bool) :=
  match remaining with
  | O => mret results
  | S remaining' =>
      results ← iteration i sessionCount results;
      session_loop remaining' (i + 1)%Z sessionCount results
  end.

(** [options.sessionCount || Math.floor(Math.random() * (52 - 23 + 1)) + 23] *)
Definition choose_count (options : Options) : Prog Z :=
  if truthy_opt truthy_number (sessionCount options)
  then mret (default 0%Z (sessionCount options))
  else r ← Helpers.random_index (52 - 23 + 1); mret (r + 23)%Z.

(** [results.filter(r => r).length] *)
Definition successCount (results : list bool) : Z :=
  Z.of_nat (length (List.filter (λ r : bool, r) results)).

Definition batch_try (type : string) (options : Options) : Prog bool :=
  SetFlag true (Ret tt);;
  sessionCount ← choose_count options;
  started ← Date_now_ISO;
  SetStats (mkJobStats (Some started) 0 sessionCount []) (Ret tt);;
  stamp ← Date_now_ISO;
  console_log ("[" +:+ stamp +:+ "] Starting " +:+ type
               +:+ " session management logic...");;
  console_log ("Starting " +:+ pretty sessionCount +:+ " random sessions...");;
  results ← session_loop (Z.to_nat sessionCount) 1 sessionCount [];
  (* Final statistics *)
  console_log (nl +:+ "Completed " +:+ pretty (successCount results) +:+ "/"
               +:+ pretty sessionCount +:+ " sessions successfully");;
  mret true.

Definition batch_catch (error : Thrown) : Prog bool :=
  console_error ("Error in scheduled job: " +:+ shown error);;
  msg ← message_of error;
  push_error GlobalRef msg;;
  mret false.

Definition batch_finally : Prog unit := SetFlag false (Ret tt).

(** Unified session running function. *)
Definition runScheduledSessions (type : string) (options : Options) : Prog bool :=
  GetFlag (λ running,
    if running then
      console_log "Another job is already running. Skipping this execution.";;
      mret false
    else
      try_catch_finally (batch_try type options) batch_catch batch_finally).

(** API key middleware: [!apiKey || apiKey !== API_KEY] rejects. *)
Definition apiKeyAuth (req : Request) : bool :=
  match headers req !! "x-api-key" with
  | Some apiKey => truthy_string apiKey && String.eqb apiKey API_KEY
  | None => false
  end.

Definition unauthorized : Response :=
  mkResponse 401 (ErrorBody "error" "Unauthorized").

Section EventLoop.
Context {W : Type} `{World W}.

(** Calling the [async] function without [await]: it runs up to its first
    [await] and is left pending. *)
Definition start (p : Prog bool) (P : Process W) : Process W :=
  let t := sync_run p None (globals P) in
  mkProcess (task_machine t) (batches P ++ [(task_frame t, task_code t)]).

(** [GET /status] *)
Definition get_status (req : Request) (P : Process W) : Process W * Response :=
  if apiKeyAuth req then
    (P, mkResponse 200
          (StatusBody (isJobRunning (globals P))
             (if isJobRunning (globals P)
              then Some (currentJobStats (globals P)) else None)))
  else (P, unauthorized).

(** [POST /trigger-sessions]. The call of [runScheduledSessions] is not
    awaited: an [async] function never throws at its caller, so the [catch]
    around it, which would answer 500, has nothing to catch. *)
Definition post_trigger_sessions (req : Request) (P : Process W) : Process W * Response :=
  if apiKeyAuth req then
    if isJobRunning (globals P) then
      (P, mkResponse 409
            (ConflictBody "error" "Another job is already running"
               (currentJobStats (globals P))))
    else
      let sessionCount := sessionCount (body req) in
      let maxConcurrent := default 1%Z (maxConcurrent (body req)) in
      (* Start the session run asynchronously *)
      (start (runScheduledSessions "on-demand"
                (mkOptions sessionCount (Some maxConcurrent))) P,
       mkResponse 202
         (AcceptedBody "accepted" "Session simulation started"
            (if truthy_opt truthy_number sessionCount
             then CountValue (default 0%Z sessionCount)
             else CountText "random(23-52)")
            maxConcurrent))
  else (P, unauthorized).

(** The awaited call of the [i]-th batch settles. *)
Definition settle_batch (i : nat) (P : Process W) : Process W :=
  match batches P !! i with
  | Some (fr, p) =>
      let t := resume p fr (globals P) in
      mkProcess (task_machine t) (<[i := (task_frame t, task_code t)]> (batches P))
  | None => P
  end.

(** What can happen to the process: a request, a direct invocation of the
    batch runner (a scheduler callback), or the completion of an awaited
    call. *)
Variant Input :=
| GetStatus (req : Request)
| PostTrigger (req : Request)
| Invocation (type : string) (options : Options)
| Settled (i : nat).

Definition react (P : Process W) (i : Input) : Process W :=
  match i with
  | GetStatus req => fst (get_status req P)
  | PostTrigger req => fst (post_trigger_sessions req P)
  | Invocation type options => start (runScheduledSessions type options) P
  | Settled i => settle_batch i P
  end.

(** The process after a sequence of inputs. *)
Definition run_process (P : Process W) (inputs : list Input) : Process W :=
  fold_left react inputs P.

(** The batches that are still executing. *)
Definition executing (P : Process W) : list (Frame * Prog bool) :=
  List.filter (λ b, negb (finished (snd b))) (batches P).

(** Every pending batch runs to completion, one after the other. *)
Definition drain (P : Process W) : Process W :=
  fold_left
    (λ Q b, let o := exec (snd b) (fst b) (globals Q) in
            mkProcess (machine o)
              (batches Q ++ [(frame o, match result o with
                                       | Ok v => Ret v
                                       | Err e => Throw e
                                       end)]))
    (batches P) (mkProcess (globals P) []).

(** The server at startup. *)
Definition boot (w : W) : Process W :=
  mkProcess (mkMachine false initial_stats w) [].

End EventLoop.
End Server.
End Server.

(** ** The older single-file server

    It declares its own [runSession (sessionNumber)], whose body is the one
    of [app/session_helpers.js] with the module constants in place of the
    parameters [bb] and [BASE_DOMAIN] and of [process.env]; its first
    statement reads [sessionCount]. *)

Module Monolith.

Definition ReferenceError (x : string) : Error :=
  mkError (x +:+ " is not defined").

(** The names bound at module level: imports, [const] and [let]
    declarations, and function declarations. *)
Definition module_scope : list string :=
  [ "chromium"; "Browserbase"; "dotenv"; "path"; "cron"; "express";
    "fileURLToPath"; "randomizeBrowser"; "randomizeGeolocation";
    "moveMouseHuman"; "naturalClick"; "naturalScroll"; "naturalType";
    "humanPause"; "__dirname"; "BROWSERBASE_API_KEY";
    "BROWSERBASE_PROJECT_ID"; "BASE_DOMAIN"; "API_KEY"; "bb";
    "isJobRunning"; "currentJobStats"; "apiKeyAuth"; "runScheduledSessions";
    "app"; "port"; "runSession"; "generatePlanSelection"; "generateUser";
    "generateUtm"; "generateMovieNumber" ].

(** The names bound inside [runSession] around its first statement: the
    parameter, [let session] and the declarations of the [try] block. *)
Definition runSession_scope : list string :=
  [ "sessionNumber"; "session"; "geoLocation"; "browserType"; "deviceType";
    "deviceConfig"; "browser"; "defaultContext"; "page"; "user"; "utmParams";
    "planSelection"; "movieNumber"; "userAgent"; "modalVisible"; "fullUrl" ].

(** [sessionCount] is declared twice in the file, each time local to
    another function: in the [try] block of [runScheduledSessions] and in
    the handler of [POST /trigger-sessions]. Scoping is lexical, so
    neither reaches [runSession]. *)
Definition runScheduledSessions_scope : list string :=
  [ "type"; "options"; "sessionCount"; "results"; "i"; "result"; "error";
    "delay"; "successCount" ].

Definition trigger_handler_scope : list string :=
  [ "req"; "res"; "sessionCount"; "maxConcurrent"; "error" ].

Section Monolith.

Variable process_env : gmap string string.
Variable bb : Provider.

(** What each bound name interpolates to in a template literal. *)
Variable interpolated : string → string.

Definition BROWSERBASE_PROJECT_ID : string :=
  Server.env_or process_env "BROWSERBASE_PROJECT_ID" "".
Definition BASE_DOMAIN : string :=
  Server.env_or process_env "BASE_DOMAIN" "https://posthog-demo-3000.fly.dev/".

(** Reading the identifier [x] inside [runSession]. *)
Definition identifier (x : string) : Prog string :=
  if bool_decide (x ∈ runSession_scope ++ module_scope)
  then mret (interpolated x)
  else Throw (Raised (ReferenceError x)).

Definition runSession_try (sessionNumber : Z) : Prog bool :=
  sessionCount ← identifier "sessionCount";
  console_log ("Starting session " +:+ pretty sessionNumber +:+ "/"
               +:+ sessionCount +:+ "...");;
  Helpers.journey (Some BROWSERBASE_PROJECT_ID) sessionNumber bb BASE_DOMAIN.

Definition runSession (sessionNumber : Z) : Prog bool :=
  (* let session; *)
  SetSession None
    (try_catch_finally
       (runSession_try sessionNumber)
       (Helpers.runSession_catch sessionNumber)
       (Helpers.runSession_finally (Some BROWSERBASE_PROJECT_ID) bb)).

End Monolith.
End Monolith.

(** ** Observations on a run *)

(** The session whose release an event requests, if it is a release
    attempt. *)
Fixpoint released_by_call {T : Type} (c : Call T) : list string :=
  match c with
  | SessionsUpdate _ sid _ _ => [sid]
  | PromiseAll c1 c2 => released_by_call c1 ++ released_by_call c2
  | _ => []
  end.

Definition released (ev : Event) : list string :=
  match ev with
  | EvCall c _ => released_by_call c
  | _ => []
  end.

(** All release attempts of a run, in order. *)
Definition release_attempts (evs : list Event) : list string :=
  flat_map released evs.

(** The session an event acquires: a successful [bb.sessions.create]. *)
Definition acquired (ev : Event) : option Session :=
  match ev with
  | EvCall c r =>
      match c in Call T return Res T → option Session with
      | SessionsCreate _ _ _ _ _ =>
          λ r, match r with Ok s => s | Err _ => None end
      | _ => λ _, None
      end r
  | _ => None
  end.

(** What the [finally] block of [runSession] leaves in the log after the
    release attempt with outcome [r]: a warning with the message of the
    error, unless the release was rejected with [null] or [undefined]. *)
Definition cleanup_log (sid : string) (r : Res unit) : list Event :=
  match r with
  | Ok _ => []
  | Err (Raised e) =>
      [EvLog WARN ("Failed to cleanup session " +:+ sid +:+ ": " +:+ message e)]
  | Err (RaisedNullish _) => []
  end.

(** What the handler of the [finally] block throws after the release
    attempt with outcome [r]. *)
Definition cleanup_escape (r : Res unit) : option Error :=
  match r with
  | Err (RaisedNullish n) => Some (TypeError_nullish n "message")
  | _ => None
  end.

(** What the [catch] block of [runSession] makes of the completion of the
    [try] block. *)
Definition caught (r : Res bool) : Res bool :=
  match r with
  | Ok v => Ok v
  | Err (Raised _) => Ok false
  | Err (RaisedNullish n) => Err (Raised (TypeError_nullish n "message"))
  end.

(** A call that the environment answered by throwing [null] or
    [undefined]. *)
Definition nullish_answer (ev : Event) : option Nullish :=
  match ev with
  | EvCall _ (Err (RaisedNullish n)) => Some n
  | _ => None
  end.

(** A trace in which nothing thrown is [null] or [undefined]. *)
Definition civil (evs : list Event) : Prop := omap nullish_answer evs = [].

(** The boundaries of a run in the log: its first line, and the line of its
    [return true] or of its [catch] block. *)
Variant Mark := Started (line : string) | Ended (ok : bool).

Definition mark (ev : Event) : option Mark :=
  match ev with
  | EvLog LOG msg =>
      if String.prefix "Starting session " msg then Some (Started msg)
      else if String.prefix "Session " msg then Some (Ended true)
      else None
  | EvLog ERROR msg =>
      if String.prefix "Error in session " msg then Some (Ended false)
      else None
  | _ => None
  end.

Definition marks (evs : list Event) : list Mark := omap mark evs.

(** Writes to the run lock. *)
Definition flag_write (ev : Event) : option bool :=
  match ev with EvFlag b => Some b | _ => None end.

(** ** Properties of all the events a program can leave *)

(** [Emits Q p]: whatever the environment answers, every event of [p]
    satisfies [Q]. *)
Inductive Emits (Q : Event → Prop) {A : Type} : Prog A → Prop :=
| Emits_Ret a : Emits Q (Ret a)
| Emits_Throw e : Emits Q (Throw e)
| Emits_Await {T} (c : Call T) k :
    (∀ r, Q (EvCall c r)) → (∀ r, Emits Q (k r)) → Emits Q (Await c k)
| Emits_Invoke {T} (c : Call T) k :
    (∀ r, Q (EvCall c r)) → (∀ r, Emits Q (k r)) → Emits Q (Invoke c k)
| Emits_Sleep ms k : Q (EvSleep ms) → Emits Q k → Emits Q (Sleep ms k)
| Emits_Random k : (∀ z, Emits Q (k z)) → Emits Q (Random k)
| Emits_Now k : (∀ t, Emits Q (k t)) → Emits Q (Now k)
| Emits_Console l s k : Q (EvLog l s) → Emits Q k → Emits Q (Console l s k)
| Emits_GetFlag k : (∀ b, Emits Q (k b)) → Emits Q (GetFlag k)
| Emits_SetFlag b k : Q (EvFlag b) → Emits Q k → Emits Q (SetFlag b k)
| Emits_GetStats k : (∀ s, Emits Q (k s)) → Emits Q (GetStats k)
| Emits_SetStats s k : Q (EvStats s) → Emits Q k → Emits Q (SetStats s k)
| Emits_GetSession k : (∀ s, Emits Q (k s)) → Emits Q (GetSession k)
| Emits_SetSession s k : Q (EvSession s) → Emits Q k → Emits Q (SetSession s k).

(** [Closing Q B R R p]: whatever the environment answers, [p] returns only
    right after a log line satisfying [B], with a value satisfying [R], and
    everything [p] leaves before that line, or before it throws, satisfies
    [Q]. *)
Inductive Closing (Q B : Event → Prop) {A : Type} (R : A → Prop) : Prog A → Prop :=
| Closing_Throw e : Closing Q B R (Throw e)
| Closing_last l s a :
    B (EvLog l s) → R a → Closing Q B R (Console l s (Ret a))
| Closing_Await {T} (c : Call T) k :
    (∀ r, Q (EvCall c r)) → (∀ r, Closing Q B R (k r)) → Closing Q B R (Await c k)
| Closing_Invoke {T} (c : Call T) k :
    (∀ r, Q (EvCall c r)) → (∀ r, Closing Q B R (k r)) → Closing Q B R (Invoke c k)
| Closing_Sleep ms k : Q (EvSleep ms) → Closing Q B R k → Closing Q B R (Sleep ms k)
| Closing_Random k : (∀ z, Closing Q B R (k z)) → Closing Q B R (Random k)
| Closing_Now k : (∀ t, Closing Q B R (k t)) → Closing Q B R (Now k)
| Closing_Console l s k :
    Q (EvLog l s) → Closing Q B R k → Closing Q B R (Console l s k)
| Closing_GetFlag k : (∀ b, Closing Q B R (k b)) → Closing Q B R (GetFlag k)
| Closing_SetFlag b k : Q (EvFlag b) → Closing Q B R k → Closing Q B R (SetFlag b k)
| Closing_GetStats k : (∀ s, Closing Q B R (k s)) → Closing Q B R (GetStats k)
| Closing_SetStats s k :
    Q (EvStats s) → Closing Q B R k → Closing Q B R (SetStats s k)
| Closing_GetSession k : (∀ s, Closing Q B R (k s)) → Closing Q B R (GetSession k)
| Closing_SetSession s k :
    Q (EvSession s) → Closing Q B R k → Closing Q B R (SetSession s k).

(** An event of the scripted journey: a call to the driver or to a pacing
    helper, or a log line that is not the boundary of a run. *)
Definition journey_event (ev : Event) : Prop :=
  released ev = [] ∧ acquired ev = None ∧ mark ev = None ∧
  match ev with
  | EvCall _ _ | EvLog _ _ => True
  | _ => False
  end.

(** The line of [return true]. *)
Definition completion_line (ev : Event) : Prop :=
  released ev = [] ∧ acquired ev = None ∧ mark ev = Some (Ended true).


(** What the [finally] block of [runSession] leaves, given the value of
    [session] it finds, and what it throws. *)
Definition release_phase (projectId : option string) (bb : Provider)
    (session : option Session) (fin : list Event) (escaped : option Error) : Prop :=
  match session with
  | Some s =>
      if truthy_string (id s)
      then ∃ r, fin = EvCall (SessionsUpdate bb (id s) "REQUEST_RELEASE" projectId) r
                        :: cleanup_log (id s) r ∧
                escaped = cleanup_escape r
      else fin = [] ∧ escaped = None
  | None => fin = [] ∧ escaped = None
  end.

(** The line of the [catch] block of [runSession]. *)
Definition error_line (sessionNumber : Z) (e : Error) : Event :=
  EvLog ERROR ("Error in session " +:+ pretty sessionNumber +:+ ": " +:+ message e).

(** What the [catch] block of [runSession] leaves in the log, given the
    completion of the [try] block: nothing after the completion line of a
    run that went through, the error line for a thrown object, and nothing
    at all when [null] or [undefined] was thrown. *)
Definition verdict_phase (sessionNumber : Z) (r : Res bool)
    (lines : list Event) : Prop :=
  match r with
  | Ok v => v = true ∧ ∃ line, lines = [line] ∧ completion_line line
  | Err (Raised e) => lines = [error_line sessionNumber e]
  | Err (RaisedNullish _) => lines = []
  end.

(** The first line of [runSession]. *)
Definition start_text (sessionNumber totalSessions : Z) : string :=
  "Starting session " +:+ pretty sessionNumber +:+ "/"
  +:+ pretty totalSessions +:+ "...".

Definition start_line (sessionNumber totalSessions : Z) : Event :=
  EvLog LOG (start_text sessionNumber totalSessions).

(** How a run ends for its caller. It returns its verdict; or it rejects,
    with the [TypeError] of a handler that read the message of a thrown
    [null] or [undefined]: the [catch] block, before any verdict is logged
    ([None]), or the handler of the [finally] block, after the verdict. *)
Variant Outcome :=
| Returned (ok : bool)
| Rejected (verdict : option bool) (e : Error).

(** The verdict that a run logs. *)
Definition verdict (outcome : Outcome) : option bool :=
  match outcome with
  | Returned ok => Some ok
  | Rejected verdict _ => verdict
  end.

(** The value that a run returns. *)
Definition returned (outcome : Outcome) : option bool :=
  match outcome with
  | Returned ok => Some ok
  | Rejected _ _ => None
  end.

(** The completion of a run. *)
Definition completion (outcome : Outcome) : Res bool :=
  match outcome with
  | Returned ok => Ok ok
  | Rejected _ e => Err (Raised e)
  end.

(** A run rejects in one way only: its handler reads [.message] of a
    thrown [null] or [undefined]. *)
Definition nullish_rejection (outcome : Outcome) : Prop :=
  match outcome with
  | Returned _ => True
  | Rejected _ e => ∃ k, e = TypeError_nullish k "message"
  end.

(** The array [results] of a batch: the values that its runs returned. *)
Definition results_of (outcomes : list Outcome) : list bool :=
  omap returned outcomes.

(** The boundaries of consecutive runs numbered from [i], with outcomes
    [outcomes]: each run ends before the next one starts. *)
Fixpoint run_marks (i totalSessions : Z) (outcomes : list Outcome) : list Mark :=
  match outcomes with
  | [] => []
  | outcome :: outcomes' =>
      Started (start_text i totalSessions)
        :: from_option (λ ok, [Ended ok]) [] (verdict outcome)
        ++ run_marks (i + 1) totalSessions outcomes'
  end.

(** The boundaries of consecutive runs in the log of the one-shot script,
    whose loop reports a rejected run by an error line of its own. *)
Fixpoint script_marks (i totalSessions : Z) (outcomes : list Outcome) : list Mark :=
  match outcomes with
  | [] => []
  | outcome :: outcomes' =>
      Started (start_text i totalSessions)
        :: from_option (λ ok, [Ended ok]) [] (verdict outcome)
        ++ match outcome with
           | Returned _ => []
           | Rejected _ _ => [Ended false]
           end
        ++ script_marks (i + 1) totalSessions outcomes'
  end.

(** [currentJobStats] after the run number [i] with outcome [outcome]: a
    run that returned [true] is counted, a run that rejected is recorded
    with the message of the error. *)
Definition credit (i : Z) (outcome : Outcome) (s : JobStats) : JobStats :=
  match outcome with
  | Returned true =>
      mkJobStats (startTime s) (completedSessions s + 1) (totalSessions s)
        (errors s)
  | Returned false => s
  | Rejected _ e =>
      mkJobStats (startTime s) (completedSessions s) (totalSessions s)
        (errors s ++ [mkErrorRecord (RunIndex i) (message e)])
  end.

(** The job statistics [s] with the records [errs] pushed to [errors]. *)
Definition with_errors (errs : list ErrorRecord) (s : JobStats) : JobStats :=
  mkJobStats (startTime s) (completedSessions s) (totalSessions s)
    (errors s ++ errs).

(** An event that leaves the variables of the program alone. *)
Definition quiet (ev : Event) : Prop :=
  match ev with
  | EvFlag _ | EvStats _ | EvSession _ => False
  | _ => True
  end.

(** ** Concrete environments *)

Module Worlds.

Definition session1 : Session :=
  mkSession "5f1c2d9e" "wss://connect.browserbase.com/5f1c2d9e".

Definition desktop : BrowserChoice :=
  mkBrowserChoice "chrome" "desktop"
    (mkDeviceConfig (mkViewport 1920 1080) None 1 false false).

(** Every call succeeds: the provider hands out [session1], the browser
    has one context with one page, no interstitial, no login error, no
    modal. *)
Fixpoint comply {T : Type} (c : Call T) : T :=
  match c in Call T return T with
  | RandomizeGeolocation => mkGeo "Austin" "US" (Some "TX")
  | RandomizeBrowser => desktop
  | HumanPause _ _ => tt
  | NaturalClick _ _ => tt
  | SessionsCreate _ _ _ _ _ => Some session1
  | SessionsUpdate _ _ _ _ => tt
  | ConnectOverCDP _ => BrowserH 0
  | Contexts _ => [ContextH 0]
  | Pages _ => [PageH 0]
  | SetViewportSize _ _ => tt
  | SetExtraHTTPHeaders _ _ _ => tt
  | SetDefaultTimeout _ _ => tt
  | SetDefaultNavigationTimeout _ _ => tt
  | EvaluateUserAgent _ => "Mozilla/5.0"
  | Goto _ _ _ _ => tt
  | WaitForSelector _ _ _ _ => None
  | ElementClick _ => tt
  | WaitForLoadState _ _ => tt
  | LabelFill _ _ _ => tt
  | LocatorFill _ _ _ => tt
  | KeyboardPress _ _ => tt
  | EvaluateScrollToBottom _ => tt
  | EvaluateCsrfToken _ => Some "token"
  | Fill _ _ _ => tt
  | Click _ _ => tt
  | EvaluateLoginError _ => None
  | EvaluateModalVisible _ => false
  | EvaluateRemoveModal _ => tt
  | GetByLabelWelcome _ => tt
  | ClosePage _ => tt
  | CloseBrowser _ => tt
  | NewURL _ => tt
  | SessionsList _ _ => tt
  | PromiseAll c1 c2 => (comply c1, comply c2)
  end.

(** The state of these environments is the number of calls answered so
    far. The call number [k] (from 0) throws when [fails k]; the others
    succeed. Random draws are [0]; the clock is stopped. *)
Definition scripted (fails : nat → bool) : World nat := {|
  answer T c k :=
    (S k, if fails k then Err (Raised (mkError "Target closed"))
          else Ok (comply c));
  draw k := (k, 0%Z);
  clock k := (k, "2025-01-23T08:00:00.000Z") |}.

(** The call number [k] is rejected with [null]; the others succeed. *)
Definition null_at (k : nat) : World nat := {|
  answer T c j :=
    (S j, if Nat.eqb k j then Err (RaisedNullish null) else Ok (comply c));
  draw j := (j, 0%Z);
  clock j := (j, "2025-01-23T08:00:00.000Z") |}.

(** No call fails. *)
Definition cooperative : World nat := scripted (λ _, false).

(** Only the call number [k] fails. *)
Definition failing_at (k : nat) : World nat := scripted (Nat.eqb k).

(** Every call fails. *)
Definition hostile : World nat := scripted (λ _, true).

(** Every call fails, and every random number is [z]. *)
Definition drawing (z : Z) : World nat := {|
  answer T c k := (S k, Err (Raised (mkError "Target closed")));
  draw k := (k, z);
  clock k := (k, "2025-01-23T08:00:00.000Z") |}.

(** The server at rest. *)
Definition idle : Machine nat := mkMachine false (mkJobStats None 0 0 []) 0%nat.

(** A batch of 3 is in flight, one session done. *)
Definition busy : Machine nat :=
  mkMachine true
    (mkJobStats (Some "2025-01-23T08:00:00.000Z") 1 3 []) 7%nat.

(** A deployment with its service API key, and requests that carry it. *)
Definition deployment : gmap string string := {[ "API_KEY" := "s3cret" ]}.

Definition with_key (body : Server.Options) : Server.Request :=
  Server.mkRequest {[ "x-api-key" := "s3cret" ]} body.

End Worlds.

(** A decimal numeral does not start with the letter s. *)
Definition numeral_like (s : string) : Prop :=
  ∃ c tl, s = String c tl ∧ c ≠ "s"%char.

(** The count that [runScheduledSessions] draws from the random number
    [z]: [Math.floor(Math.random() * (52 - 23 + 1)) + 23], the product
    being rounded to the nearest double. *)
Definition drawn_count (z : Z) : Z :=
  (round53 (unit_interval z * (52 - 23 + 1)) / Helpers.RANDOM_DENOM + 23)%Z.

(** [currentJobStats] after the runs numbered from [i] with the outcomes
    [outcomes]. *)
Fixpoint credit_all (i : Z) (outcomes : list Outcome) (s : JobStats) : JobStats :=
  match outcomes with
  | [] => s
  | outcome :: outcomes' => credit_all (i + 1) outcomes' (credit i outcome s)
  end.

(** The error records of the runs numbered from [i] that rejected. *)
Fixpoint rejections (i : Z) (outcomes : list Outcome) : list ErrorRecord :=
  match outcomes with
  | [] => []
  | outcome :: outcomes' =>
      match outcome with
      | Returned _ => []
      | Rejected _ e => [mkErrorRecord (RunIndex i) (message e)]
      end ++ rejections (i + 1) outcomes'
  end.

(** The number of runs a batch settles on, when the next random number is
    [z]. *)
Definition effective_count (options : Server.Options) (z : Z) : Z :=
  if truthy_opt truthy_number (Server.sessionCount options)
  then default 0%Z (Server.sessionCount options)
  else drawn_count z.

(** The last line of a batch. *)
Definition summary_line (succeeded total : Z) : Event :=
  EvLog LOG (nl +:+ "Completed " +:+ pretty succeeded +:+ "/"
             +:+ pretty total +:+ " sessions successfully").

(** ** The run lock as a discipline on programs *)

(** [Holding p]: [p] holds the run lock. Whatever the environment answers,
    [p] does not write the lock until it clears it, and it finishes right
    after clearing it, without another [await]. *)
Inductive Holding {A : Type} : Prog A → Prop :=
| Holding_release k : finished k = true → Holding (SetFlag false k)
| Holding_Await {T} (c : Call T) k :
    (∀ r, Holding (k r)) → Holding (Await c k)
| Holding_Invoke {T} (c : Call T) k :
    (∀ r, Holding (k r)) → Holding (Invoke c k)
| Holding_Sleep ms k : Holding k → Holding (Sleep ms k)
| Holding_Random k : (∀ z, Holding (k z)) → Holding (Random k)
| Holding_Now k : (∀ t, Holding (k t)) → Holding (Now k)
| Holding_Console l s k : Holding k → Holding (Console l s k)
| Holding_GetFlag k : (∀ b, Holding (k b)) → Holding (GetFlag k)
| Holding_GetStats k : (∀ s, Holding (k s)) → Holding (GetStats k)
| Holding_SetStats s k : Holding k → Holding (SetStats s k)
| Holding_GetSession k : (∀ s, Holding (k s)) → Holding (GetSession k)
| Holding_SetSession s k : Holding k → Holding (SetSession s k).

(** A batch that has finished. *)
Definition settled (b : Frame * Prog bool) : Prop := finished b.2 = true.

(** The state of the process is consistent with the run lock: either the
    lock is free and every batch has finished, or the lock is taken and
    exactly one batch is executing, which holds it. *)
Definition single_flight {W : Type} (P : Server.Process W) : Prop :=
  (isJobRunning (Server.globals P) = false ∧
   Forall settled (Server.batches P)) ∨
  (isJobRunning (Server.globals P) = true ∧
   ∃ before fr p after,
     Server.batches P = before ++ (fr, p) :: after ∧
     Holding p ∧ Forall settled before ∧ Forall settled after).

(** No statement of the run loop writes the run lock. *)
Definition leaves_lock (ev : Event) : Prop := flag_write ev = None.

(** ** Where a thrown [null] or [undefined] comes from *)

(** [Blameless p]: [p] throws [null] or [undefined] only if a call that it
    made was answered so. *)
Inductive Blameless {A : Type} : Prog A → Prop :=
| Blameless_Ret a : Blameless (Ret a)
| Blameless_Throw e : Blameless (Throw (Raised e))
| Blameless_Await {T} (c : Call T) k :
    (∀ r, nullish_answer (EvCall c r) = None → Blameless (k r)) →
    Blameless (Await c k)
| Blameless_Invoke {T} (c : Call T) k :
    (∀ r, nullish_answer (EvCall c r) = None → Blameless (k r)) →
    Blameless (Invoke c k)
| Blameless_Sleep ms k : Blameless k → Blameless (Sleep ms k)
| Blameless_Random k : (∀ z, Blameless (k z)) → Blameless (Random k)
| Blameless_Now k : (∀ t, Blameless (k t)) → Blameless (Now k)
| Blameless_Console l s k : Blameless k → Blameless (Console l s k)
| Blameless_GetFlag k : (∀ b, Blameless (k b)) → Blameless (GetFlag k)
| Blameless_SetFlag b k : Blameless k → Blameless (SetFlag b k)
| Blameless_GetStats k : (∀ s, Blameless (k s)) → Blameless (GetStats k)
| Blameless_SetStats s k : Blameless k → Blameless (SetStats s k)
| Blameless_GetSession k : (∀ s, Blameless (k s)) → Blameless (GetSession k)
| Blameless_SetSession s k : Blameless k → Blameless (SetSession s k).

(** An environment that never answers a call by throwing [null] or
    [undefined]. *)
Definition polite (W : Type) `{World W} : Prop :=
  ∀ (T : Type) (c : Call T) (w : W) (n : Nullish),
    (answer c w).2 ≠ Err (RaisedNullish n).


(** ** The one-shot script

    The script that the scheduler of the platform starts: it checks its
    environment and the connection to the provider, runs one batch and
    exits. It imports [runSession] from [app/session_helpers.js]; it has
    no run lock and no job statistics. *)

Module Cron.
Section Cron.

Variable process_env : gmap string string.
Variable bb : Provider.

Definition BROWSERBASE_API_KEY : string :=
  Server.env_or process_env "BROWSERBASE_API_KEY" "".
Definition BROWSERBASE_PROJECT_ID : string :=
  Server.env_or process_env "BROWSERBASE_PROJECT_ID" "".
Definition BASE_DOMAIN : string :=
  Server.env_or process_env "BASE_DOMAIN" "https://posthog-demo-3000.fly.dev/".

(** The checks that the script makes before anything else: [Some code] when
    the process exits with [code], [None] when the script goes on. *)
Definition startup : Prog (option Z) :=
  (* Validate required environment variables *)
  if negb (truthy_string BROWSERBASE_API_KEY) then
    console_error "Error: BROWSERBASE_API_KEY is required but not set";;
    mret (Some 1%Z)
  else if negb (truthy_string BROWSERBASE_PROJECT_ID) then
    console_error "Error: BROWSERBASE_PROJECT_ID is required but not set";;
    mret (Some 1%Z)
  else
    (* Validate BASE_DOMAIN format *)
    exited ← try_catch
      (invoke (NewURL BASE_DOMAIN);;
       mret None)
      (λ error,
         console_error "Error: BASE_DOMAIN must be a valid URL";;
         mret (Some 1%Z));
    match exited with
    | Some code => mret (Some code)
    | None =>
        (* Add validation for Browserbase connection *)
        try_catch
          ((* Test the connection by attempting to list sessions *)
           await (SessionsList bb BROWSERBASE_PROJECT_ID);;
           console_log "Successfully connected to Browserbase";;
           mret None)
          (λ error,
             msg ← message_of error;
             console_error ("Failed to connect to Browserbase: " +:+ msg);;
             mret (Some 1%Z))
    end.

(** One iteration of the [for] loop. *)
Definition iteration (i sessionCount : Z) (results : list bool) : Prog (list bool) :=
  results ← try_catch
    (result ← Helpers.runSession process_env i sessionCount bb BASE_DOMAIN;
     mret (results ++ [result]))
    (λ error,
       msg ← message_of error;
       console_error ("Error in session " +:+ pretty i +:+ ": " +:+ msg);;
       mret results);
  (* Add a random delay between sessions (2-5 seconds) *)
  r ← Helpers.random_index (5000 - 2000 + 1);
  let delay := (r + 2000)%Z in
  sleep delay;;
  mret results.

(** [for (let i = 1; i <= sessionCount; i++) { ... }], entered with [i]
    and [remaining = sessionCount + 1 - i] iterations to go. *)
Fixpoint session_loop (remaining : nat) (i sessionCount : Z)
    (results : list bool) : Prog (list bool) :=
  match remaining with
  | O => mret results
  | S remaining' =>
      results ← iteration i sessionCount results;
      session_loop remaining' (i + 1)%Z sessionCount results
  end.

Definition runScheduledSessions_try : Prog bool :=
  (* Generate a random number of sessions between 23 and 52 *)
  r ← Helpers.random_index (52 - 23 + 1);
  let sessionCount := (r + 23)%Z in
  stamp ← Date_now_ISO;
  console_log ("[" +:+ stamp +:+ "] Starting scheduled session run...");;
  console_log ("Starting " +:+ pretty sessionCount +:+ " random sessions...");;
  results ← session_loop (Z.to_nat sessionCount) 1 sessionCount [];
  (* Final statistics *)
  console_log (nl +:+ "Completed " +:+ pretty (Server.successCount results) +:+ "/"
               +:+ pretty sessionCount +:+ " sessions successfully");;
  mret true.

Definition runScheduledSessions : Prog bool :=
  try_catch runScheduledSessions_try
    (λ error,
       console_error ("Error in scheduled job: " +:+ shown error);;
       mret false).

(** Run the sessions and exit:
    [runScheduledSessions().then(...).catch(...)]. The result is the code
    handed to [process.exit]. *)
Definition main : Prog Z :=
  console_log "Starting cron service...";;
  try_catch
    (runScheduledSessions;;
     console_log "Cron service completed successfully";;
     mret 0%Z)
    (λ error,
       console_error ("Cron service failed: " +:+ shown error);;
       mret 1%Z).

(** The script from its first statement: the checks, which may end the
    process, and then the batch. The result is the code the process exits
    with; a thrown value is an exception that nothing catches. *)
Definition script : Prog Z :=
  exited ← startup;
  match exited with
  | Some code => mret code
  | None => main
  end.

End Cron.
End Cron.

(** ** The older single-file server: orchestration

    Its batch runner is the one of [app/sessions_server.js], calling the
    [runSession] of its own file with the run index (a second argument is
    passed and ignored). *)

Module MonolithServer.
Section MonolithServer.

Variable process_env : gmap string string.
Variable bb : Provider.
Variable interpolated : string → string.

Definition iteration (i : Z) (results : list bool) : Prog (list bool) :=
  results ← try_catch
    (result ← Monolith.runSession process_env bb interpolated i;
     when result Server.increment_completed;;
     mret (results ++ [result]))
    (λ error,
       msg ← message_of error;
       Server.push_error (RunIndex i) msg;;
       mret results);
  (* Add a random delay between sessions (2-5 seconds) *)
  r ← Helpers.random_index (5000 - 2000 + 1);
  let delay := (r + 2000)%Z in
  sleep delay;;
  mret results.

Fixpoint session_loop (remaining : nat) (i : Z) (results : list bool) :
    Prog (list bool) :=
  match remaining with
  | O => mret results
  | S remaining' =>
      results ← iteration i results;
      session_loop remaining' (i + 1)%Z results
  end.

Definition batch_try (type : string) (options : Server.Options) : Prog bool :=
  SetFlag true (Ret tt);;
  sessionCount ← Server.choose_count options;
  started ← Date_now_ISO;
  SetStats (mkJobStats (Some started) 0 sessionCount []) (Ret tt);;
  stamp ← Date_now_ISO;
  console_log ("[" +:+ stamp +:+ "] Starting " +:+ type
               +:+ " session management logic...");;
  console_log ("Starting " +:+ pretty sessionCount +:+ " random sessions...");;
  results ← session_loop (Z.to_nat sessionCount) 1 [];
  (* Final statistics *)
  console_log (nl +:+ "Completed " +:+ pretty (Server.successCount results) +:+ "/"
               +:+ pretty sessionCount +:+ " sessions successfully");;
  mret true.

Definition runScheduledSessions (type : string) (options : Server.Options) :
    Prog bool :=
  GetFlag (λ running,
    if running then
      console_log "Another job is already running. Skipping this execution.";;
      mret false
    else
      try_catch_finally (batch_try type options)
        Server.batch_catch Server.batch_finally).

(** Handle graceful shutdown: the loop
    [while (isJobRunning && waitTime < 300000) { await ...; waitTime += 1000 }].
    A [while] loop has no bound of its own: [fuel] bounds the number of
    iterations that are unfolded, and a loop that would go on beyond it
    ends in [fuel_exhausted]. *)
Definition fuel_exhausted : Error := mkError "the loop has not ended".

Fixpoint wait_for_job (fuel : nat) (waitTime : Z) : Prog unit :=
  GetFlag (λ running,
    if running && (waitTime <? 300000)%Z then
      match fuel with
      | S fuel' =>
          sleep 1000;;
          wait_for_job fuel' (waitTime + 1000)%Z
      | O => Throw (Raised fuel_exhausted)
      end
    else mret tt).

(** The handler of [SIGTERM]. The result is the code handed to
    [process.exit]. *)
Definition on_SIGTERM (fuel : nat) : Prog Z :=
  console_log "SIGTERM received. Performing graceful shutdown...";;
  GetFlag (λ running,
    when running
      (console_log "Waiting for current job to complete...";;
       (* Wait for up to 5 minutes for the current job to complete *)
       wait_for_job fuel 0));;
  mret 0%Z.

End MonolithServer.
End MonolithServer.

(** ** The environment check at startup of [app/sessions_server.js] *)

Module Startup.
Section Startup.

Variable process_env : gmap string string.

Definition BROWSERBASE_API_KEY : string :=
  Server.env_or process_env "BROWSERBASE_API_KEY" "".
Definition BROWSERBASE_PROJECT_ID : string :=
  Server.env_or process_env "BROWSERBASE_PROJECT_ID" "".

(** Validate required environment variables: [Some code] when the process
    exits with [code], [None] when the module goes on (to the check of the
    format of [BASE_DOMAIN] and to the test of the provider connection,
    which are not part of this embedding). *)
Definition validate_environment : Prog (option Z) :=
  if negb (truthy_string BROWSERBASE_API_KEY) then
    console_error "Error: BROWSERBASE_API_KEY is required but not set";;
    mret (Some 1%Z)
  else if negb (truthy_string BROWSERBASE_PROJECT_ID) then
    console_error "Error: BROWSERBASE_PROJECT_ID is required but not set";;
    mret (Some 1%Z)
  else if negb (truthy_string (Server.API_KEY process_env)) then
    console_error "Error: API_KEY is required but not set";;
    mret (Some 1%Z)
  else mret None.

End Startup.
End Startup.

(** ** The serverless handler

    It carries its own copies of the tools that the run loop calls: the
    device table with [randomizeBrowser], [randomNumber] and the pause
    bands of [humanPause]. *)

Module Handler.

(** [Object.values(DEVICE_TYPES)] *)
Definition deviceTypes : list string := ["desktop"; "tablet"; "mobile"].

(** An entry of [deviceConfigs]. The scale factor is in hundredths. *)
Record DeviceProfile := mkDeviceProfile {
  viewport : Viewport;
  userAgent : option string;
  deviceScaleFactor : Z;
  isMobile : bool;
  hasTouch : bool }.

Definition desktop : DeviceProfile :=
  mkDeviceProfile (mkViewport 1920 1080) None 100 false false.
Definition tablet : DeviceProfile :=
  mkDeviceProfile (mkViewport 1024 768) None 200 true true.
Definition iphone : DeviceProfile :=
  mkDeviceProfile (mkViewport 390 844)
    (Some "Mozilla/5.0 (iPhone; CPU iPhone OS 14_4 like Mac OS X)") 300 true true.
Definition android : DeviceProfile :=
  mkDeviceProfile (mkViewport 393 851)
    (Some "Mozilla/5.0 (Linux; Android 12; Pixel 6)") 275 true true.

(** [deviceConfigs], without its [mobile] entry, which is not a profile
    but the object [deviceConfigs.mobile] below. *)
Definition deviceConfigs : gmap string DeviceProfile :=
  {[ "desktop" := desktop; "tablet" := tablet ]}.
Definition deviceConfigs_mobile : gmap string DeviceProfile :=
  {[ "iphone" := iphone; "android" := android ]}.

Record Choice := mkChoice {
  browserType : string;
  deviceType : string;
  deviceConfig : option DeviceProfile }.

Definition randomizeBrowser : Prog Choice :=
  randomDeviceType ← Helpers.pick "undefined" deviceTypes;
  deviceConfig ←
    (if String.eqb randomDeviceType "mobile" then
       let mobileTypes := ["iphone"; "android"] in
       randomMobileType ← Helpers.pick "undefined" mobileTypes;
       mret (deviceConfigs_mobile !! randomMobileType)
     else mret (deviceConfigs !! randomDeviceType));
  mret {| browserType := "chromium";
          deviceType := randomDeviceType;
          deviceConfig := deviceConfig |}.

(** [Math.floor(Math.random() * (max - min + 1)) + min] on integers, in
    binary64 arithmetic: every difference, sum and product is rounded to
    the nearest double. *)
Definition scaled (r min max : Z) : Z :=
  let span := round53 (round53 (max - min) + 1) in
  round53 (round53 (r * span) / Helpers.RANDOM_DENOM + min).

(** [randomNumber(min, max)]. An argument is an integer or [undefined]
    ([None]); so is the result, for which [None] is [NaN]: arithmetic on
    [undefined] gives [NaN]. *)
Definition randomNumber (min max : option Z) : Prog (option Z) :=
  r ← Math_random;
  mret (match min, max with
        | Some min, Some max => Some (scaled r min max)
        | _, _ => None
        end).

Record Range := mkRange { min : Z; max : Z }.

Definition PAUSE_TYPES : gmap string Range :=
  {[ "MICRO" := mkRange 100 300;
     "SHORT" := mkRange 300 800;
     "MEDIUM" := mkRange 1000 2000;
     "LONG" := mkRange 2000 4000;
     "VERY_LONG" := mkRange 4000 8000 ]}.

(** The members that every object literal inherits from
    [Object.prototype]. *)
Definition Object_prototype : list string :=
  [ "constructor"; "__defineGetter__"; "__defineSetter__"; "hasOwnProperty";
    "__lookupGetter__"; "__lookupSetter__"; "isPrototypeOf";
    "propertyIsEnumerable"; "toString"; "valueOf"; "__proto__";
    "toLocaleString" ].

(** [PAUSE_TYPES[pauseType]]: an entry of the table; or an inherited
    member, which is a function or the prototype itself, truthy and
    without [min] and [max]; or [undefined]. *)
Variant Member := Entry (range : Range) | Inherited | Missing.

Definition member (pauseType : string) : Member :=
  match PAUSE_TYPES !! pauseType with
  | Some range => Entry range
  | None =>
      if bool_decide (pauseType ∈ Object_prototype) then Inherited else Missing
  end.

(** [options] of [humanPause]. *)
Record PauseOptions := mkPauseOptions {
  options_min : option Z;
  options_max : option Z }.

(** [a || b] for numbers that may be [undefined]. *)
Definition number_or (a b : option Z) : option Z :=
  if truthy_opt truthy_number a then a else b.

(** [range.min] and [range.max]; [None] is [undefined]. *)
Definition bounds (range : Member) : option Z * option Z :=
  match range with
  | Entry range => (Some (min range), Some (max range))
  | Inherited | Missing => (None, None)
  end.

(** The bounds of [range = PAUSE_TYPES[pauseType] || PAUSE_TYPES.SHORT]. *)
Definition pause_range (pauseType : string) : option Z * option Z :=
  match member pauseType with
  | Missing => bounds (member "SHORT")
  | range => bounds range
  end.

(** The delay that [humanPause] draws and hands to
    [page.waitForTimeout]. *)
Definition humanPause_delay (pauseType : string) (options : PauseOptions) :
    Prog (option Z) :=
  let range := pause_range pauseType in
  randomNumber (number_or (options_min options) range.1)
               (number_or (options_max options) range.2).

End Handler.

(** ** Further observations *)

(** An environment variable that is set, and not to the empty string. *)
Definition configured (env : gmap string string) (key : string) : Prop :=
  ∃ value, value ≠ "" ∧ env !! key = Some value.

(** The line with which the startup check reports a missing variable. *)
Definition missing_line (key : string) : Event :=
  EvLog ERROR ("Error: " +:+ key +:+ " is required but not set").

(** The time an event spends on a timer. *)
Definition delay (ev : Event) : option Z :=
  match ev with EvSleep ms => Some ms | _ => None end.

(** The requests for a remote session that an event sends. *)
Record SessionRequest := mkSessionRequest {
  request_provider : Provider;
  request_projectId : option string;
  request_region : string;
  request_proxyType : string;
  request_geolocation : GeoLocation }.

Fixpoint requested_by_call {T : Type} (c : Call T) : list SessionRequest :=
  match c with
  | SessionsCreate bb projectId region proxyType geolocation =>
      [mkSessionRequest bb projectId region proxyType geolocation]
  | PromiseAll c1 c2 => requested_by_call c1 ++ requested_by_call c2
  | _ => []
  end.

Definition requested (ev : Event) : list SessionRequest :=
  match ev with
  | EvCall c _ => requested_by_call c
  | _ => []
  end.

Definition session_requests (evs : list Event) : list SessionRequest :=
  flat_map requested evs.

(** The location that an event draws: the result of
    [randomizeGeolocation()]. *)
Definition located (ev : Event) : option GeoLocation :=
  match ev with
  | EvCall c r =>
      match c in Call T return Res T → option GeoLocation with
      | RandomizeGeolocation =>
          λ r, match r with Ok g => Some g | Err _ => None end
      | _ => λ _, None
      end r
  | _ => None
  end.

(** The request that [runSession] sends after it has drawn the location
    [g]: to the provider and for the project of the run, with the fixed
    region and proxy type, for the city and the country of [g], and for
    its state when it has one that is not empty. *)
Definition request_of_run (env : gmap string string) (bb : Provider)
    (g : GeoLocation) : SessionRequest :=
  {| request_provider := bb;
     request_projectId := env !! "BROWSERBASE_PROJECT_ID";
     request_region := "us-east-1";
     request_proxyType := "browserbase";
     request_geolocation :=
       {| city := city g;
          country := country g;
          state := match state g with
                   | Some st => if String.eqb st "" then None else Some st
                   | None => None
                   end |} |}.

(** An event that neither draws a location nor requests a session. *)
Definition unlocated (ev : Event) : Prop :=
  requested ev = [] ∧ located ev = None.

(** An event that stays inside the run: a call, a log line or an
    assignment of the local [session]; no write to the run lock or to the
    job statistics, and no timer. *)
Definition run_local (ev : Event) : Prop :=
  match ev with
  | EvFlag _ | EvStats _ | EvSleep _ => False
  | _ => True
  end.

(** What the runs of a batch of the older server leave, numbered from
    [i], with the delays [ds]: each run fails at once. *)
Fixpoint monolith_runs (i : Z) (ds : list Z) : list Event :=
  match ds with
  | [] => []
  | d :: ds' =>
      EvSession None :: error_line i (Monolith.ReferenceError "sessionCount")
        :: EvSleep d :: monolith_runs (i + 1) ds'
  end.

(** The release that the [finally] block of [runSession] attempts for the
    session it finds: none when the identifier is empty. *)
Definition releasable (s : Session) : list string :=
  if truthy_string (id s) then [id s] else [].

(** A trace whose release attempts are those of the sessions it acquired,
    in the order of acquisition. *)
Definition balanced (evs : list Event) : Prop :=
  release_attempts evs = flat_map releasable (omap acquired evs).

(** The object [generateUtm] builds from its four draws. *)
Definition utm_object (source medium campaign : string) (term : option string) :
    gmap string string :=
  let params : gmap string string :=
    <["utm_campaign" := campaign]>
      (<["utm_medium" := medium]>
        (<["utm_source" := source]> ∅)) in
  match term with
  | Some t => <["utm_term" := t]> params
  | None => params
  end.

(** The characters of a string. *)
Definition chars_of (s : string) : list ascii := list_ascii_of_string s.

(** A string over the alphabet of the generated suffixes and passwords. *)
Definition alphanumeric_string (s : string) : Prop :=
  Forall (λ c, c ∈ chars_of Helpers.alphanumeric) (chars_of s).

(** A task of the event loop is woken up once for each state of [states]:
    between two wake-ups the other tasks of the process run and leave the
    globals in the next state. *)
Definition wake_ups {W : Type} `{World W} {A : Type}
    (t : Task W A) (states : list (Machine W)) : Task W A :=
  fold_left
    (λ t m, task_emit (task_events t) (resume (task_code t) (task_frame t) m))
    states t.

(** A request that the API key middleware turns away. *)
Definition rejected (env : gmap string string) (i : Server.Input) : Prop :=
  match i with
  | Server.GetStatus req | Server.PostTrigger req =>
      Server.apiKeyAuth env req = false
  | _ => False
  end.



(** * Proofs *)

(** ** The embedding at work *)

(** Against an environment in which every call succeeds, a run goes through:
    it returns [true], it starts and ends once, and it releases the session
    it acquired. *)
Example cooperative_run :
  let o := @exec nat Worlds.cooperative bool
             (Helpers.runSession ∅ 1 1 (ProviderH 0) "https://demo/")
             None Worlds.idle in
  result o = Ok true ∧
  marks (emitted o) = [Started "Starting session 1/1..."; Ended true] ∧
  omap acquired (emitted o) = [Worlds.session1] ∧
  release_attempts (emitted o) = ["5f1c2d9e"] ∧
  length (emitted o) = 80.
Proof. by vm_compute. Qed.

(** When the provider refuses to create a session, nothing is released. *)
Example refused_session_run :
  let o := @exec nat (Worlds.failing_at 1) bool
             (Helpers.runSession ∅ 4 9 (ProviderH 0) "https://demo/")
             None Worlds.idle in
  result o = Ok false ∧
  omap acquired (emitted o) = [] ∧
  release_attempts (emitted o) = [] ∧
  last (emitted o) = Some (EvLog ERROR "Error in session 4: Target closed").
Proof. by vm_compute. Qed.

(** When the release itself fails, the run still returns its own result. *)
Example failed_release_run :
  let o := @exec nat (Worlds.failing_at 59) bool
             (Helpers.runSession ∅ 1 1 (ProviderH 0) "https://demo/")
             None Worlds.idle in
  result o = Ok true ∧
  release_attempts (emitted o) = ["5f1c2d9e"] ∧
  last (emitted o) =
    Some (EvLog WARN "Failed to cleanup session 5f1c2d9e: Target closed").
Proof. by vm_compute. Qed.

(** When the provider rejects the request for a session with [null], the
    [catch] block throws while it reads the message: the run logs no
    verdict and rejects. *)
Example null_rejection_run :
  let o := @exec nat (Worlds.null_at 1) bool
             (Helpers.runSession ∅ 4 9 (ProviderH 0) "https://demo/")
             None Worlds.idle in
  result o = Err (Raised (TypeError_null "message")) ∧
  marks (emitted o) = [Started "Starting session 4/9..."] ∧
  release_attempts (emitted o) = [].
Proof. by vm_compute. Qed.

(** The batch records such a run and goes on. *)
Example null_rejection_batch :
  let o := @exec nat (Worlds.null_at 1) bool
             (Server.runScheduledSessions ∅ (ProviderH 0) "on-demand"
                (Server.mkOptions (Some 2%Z) None))
             None Worlds.idle in
  result o = Ok true ∧
  marks (emitted o) =
    run_marks 1 2 [Rejected None (TypeError_null "message"); Returned true] ∧
  completedSessions (currentJobStats (machine o)) = 1%Z ∧
  errors (currentJobStats (machine o)) =
    [mkErrorRecord (RunIndex 1)
       "Cannot read properties of null (reading 'message')"].
Proof. by vm_compute. Qed.

(** With all random numbers [0], the fixtures are the first entries of
    their tables; the medium is ["search"], so there is a term. *)
Example first_fixtures :
  let o := @exec nat Worlds.cooperative _ Helpers.generateUtm None Worlds.idle in
  let u := @exec nat Worlds.cooperative _ Helpers.generateUser None Worlds.idle in
  match result o with
  | Ok params =>
      Some (params !! "utm_source", params !! "utm_medium",
            params !! "utm_campaign", params !! "utm_term")
  | Err _ => None
  end = Some (Some "google", Some "search", Some "winter2024",
              Some "movie streaming") ∧
  (username <$> match result u with Ok v => Some v | Err _ => None end)
    = Some "spikySsonicAAA".
Proof. by vm_compute. Qed.

(** A batch of three runs in a hostile environment: three attempts in turn,
    none completed, and the lock is free again. *)
Example hostile_batch :
  let o := @exec nat Worlds.hostile bool
             (Server.runScheduledSessions ∅ (ProviderH 0) "on-demand"
                (Server.mkOptions (Some 3%Z) None))
             None Worlds.idle in
  result o = Ok true ∧
  marks (emitted o) = run_marks 1 3 (replicate 3 (Returned false)) ∧
  omap flag_write (emitted o) = [true; false] ∧
  isJobRunning (machine o) = false ∧
  completedSessions (currentJobStats (machine o)) = 0%Z ∧
  totalSessions (currentJobStats (machine o)) = 3%Z.
Proof. by vm_compute. Qed.

(** Random numbers at which the rounded product is the next integer: the
    batch without a count performs 40 runs, where the floor of the exact
    product would give 39, and the movie number is 3, not 2. *)
Example boundary_draws :
  let o := @exec nat (Worlds.drawing 5104079577686562) bool
             (Server.runScheduledSessions ∅ (ProviderH 0) "on-demand"
                Server.no_options)
             None Worlds.idle in
  let g := @exec nat (Worlds.drawing 6004799503160661) Z
             Helpers.generateMovieNumber None Worlds.idle in
  totalSessions (currentJobStats (machine o)) = 40%Z ∧
  marks (emitted o) = run_marks 1 40 (replicate 40 (Returned false)) ∧
  (5104079577686562 * 30 / 2 ^ 53 + 23 = 39)%Z ∧
  result g = Ok 3%Z ∧
  (6004799503160661 * 3 / 2 ^ 53 + 1 = 2)%Z.
Proof. by vm_compute. Qed.

(** ** Running composed programs *)

(** Name the answer of the environment in the goal. *)
Ltac ask_world :=
  repeat match goal with
         | |- context [let '(_, _) := ?x in _] => destruct x; simpl
         end.

Section ExecFacts.
Context {W : Type} `{World W}.

Lemma emit_nil {A} (o : Run W A) : emit [] o = o.
Proof. by destruct o. Qed.

Lemma emit_emit {A} (a b : list Event) (o : Run W A) :
  emit a (emit b o) = emit (a ++ b) o.
Proof. unfold emit; simpl. by rewrite app_assoc. Qed.

Lemma exec_bind {A B} (p : Prog A) (f : A → Prog B) fr m :
  exec (bind p f) fr m =
  match result (exec p fr m) with
  | Ok v => emit (emitted (exec p fr m))
              (exec (f v) (frame (exec p fr m)) (machine (exec p fr m)))
  | Err e => mkRun (emitted (exec p fr m)) (frame (exec p fr m))
               (machine (exec p fr m)) (Err e)
  end.
Proof.
  revert fr m.
  induction p as [a|e|T c k IH|T c k IH|ms k IH|k IH|k IH|l s k IH|k IH
                 |b k IH|k IH|s k IH|k IH|s k IH]; intros fr m; simpl;
    try (by rewrite emit_nil); try done; ask_world;
    rewrite IH; simpl;
    by destruct (result (exec _ _ _)); rewrite ?emit_emit.
Qed.

Lemma exec_try_catch {A} (p : Prog A) (h : Thrown → Prog A) fr m :
  exec (try_catch p h) fr m =
  match result (exec p fr m) with
  | Ok v => exec p fr m
  | Err e => emit (emitted (exec p fr m))
               (exec (h e) (frame (exec p fr m)) (machine (exec p fr m)))
  end.
Proof.
  revert fr m.
  induction p as [a|e|T c k IH|T c k IH|ms k IH|k IH|k IH|l s k IH|k IH
                 |b k IH|k IH|s k IH|k IH|s k IH]; intros fr m; simpl;
    try (by rewrite emit_nil); try done; ask_world;
    rewrite IH; simpl;
    by destruct (result (exec _ _ _)); rewrite ?emit_emit.
Qed.

Lemma exec_try_finally {A} (p : Prog A) (f : Prog unit) fr m :
  exec (try_finally p f) fr m =
  let o := exec p fr m in
  let c := exec f (frame o) (machine o) in
  mkRun (emitted o ++ emitted c) (frame c) (machine c)
    (match result c with Ok _ => result o | Err e => Err e end).
Proof.
  revert fr m.
  induction p as [a|e|T c k IH|T c k IH|ms k IH|k IH|k IH|l s k IH|k IH
                 |b k IH|k IH|s k IH|k IH|s k IH]; intros fr m; simpl;
    try (rewrite exec_bind; simpl; destruct (result (exec f fr m));
         unfold emit; simpl; by rewrite ?app_nil_r);
    ask_world; rewrite IH; simpl; done.
Qed.

End ExecFacts.

(** ** Events of composed programs *)

Section EmitsFacts.
Context {W : Type} `{World W}.

Lemma Emits_impl (Q Q' : Event → Prop) {A} (p : Prog A) :
  (∀ ev, Q ev → Q' ev) → Emits Q p → Emits Q' p.
Proof. intros HQ. induction 1; constructor; auto. Qed.

Lemma Emits_bind Q {A B} (p : Prog A) (f : A → Prog B) :
  Emits Q p → (∀ a, Emits Q (f a)) → Emits Q (bind p f).
Proof. intros Hp Hf. induction Hp; simpl; try constructor; auto. Qed.

Lemma Emits_try_catch Q {A} (p : Prog A) (h : Thrown → Prog A) :
  Emits Q p → (∀ e, Emits Q (h e)) → Emits Q (try_catch p h).
Proof. intros Hp Hh. induction Hp; simpl; try constructor; auto. Qed.

Lemma Emits_try_finally Q {A} (p : Prog A) (f : Prog unit) :
  Emits Q p → Emits Q f → Emits Q (try_finally p f).
Proof.
  intros Hp Hf.
  induction Hp; simpl; try (constructor; by auto);
    apply Emits_bind; auto; intros; constructor.
Qed.

(** A program that assigns no variable leaves them all as they are. *)
Lemma Emits_quiet {A} (p : Prog A) fr m :
  Emits quiet p →
  frame (exec p fr m) = fr ∧
  isJobRunning (machine (exec p fr m)) = isJobRunning m ∧
  currentJobStats (machine (exec p fr m)) = currentJobStats m.
Proof.
  intros Hp. revert fr m.
  induction Hp; intros fr m; simpl in *; ask_world; auto; try done.
  all: match goal with
       | IH : ∀ r fr m, _ ∧ _ |- context [exec (_ ?r) ?fr ?m] =>
           exact (IH r fr m)
       end.
Qed.

Lemma Closing_Emits Q B {A} (R : A → Prop) (p : Prog A) :
  Closing Q B R p → Emits (λ ev, Q ev ∨ B ev) p.
Proof. induction 1; constructor; auto; constructor. Qed.

Lemma Closing_bind Q B {A C} (R : C → Prop) (p : Prog A) (f : A → Prog C) :
  Emits Q p → (∀ a, Closing Q B R (f a)) → Closing Q B R (bind p f).
Proof. intros Hp Hf. induction Hp; simpl; try constructor; auto. Qed.

Lemma Closing_exec Q B {A} (R : A → Prop) (p : Prog A) fr m :
  Closing Q B R p →
  match result (exec p fr m) with
  | Ok v => R v ∧
      ∃ pre ev, emitted (exec p fr m) = pre ++ [ev] ∧ Forall Q pre ∧ B ev
  | Err _ => Forall Q (emitted (exec p fr m))
  end.
Proof.
  intros Hp. revert fr m.
  induction Hp; intros fr m; simpl; ask_world.
  all: try match goal with
           | IH : ∀ r fr m, match result (exec (?k r) fr m) with _ => _ end
             |- context [exec (?k ?r) ?fr ?m] => specialize (IH r fr m)
           | IH : ∀ fr m, match result (exec ?k fr m) with _ => _ end
             |- context [exec ?k ?fr ?m] => specialize (IH fr m)
           end.
  all: try match goal with
           | IH : match result ?o with _ => _ end |- _ =>
               destruct (result o);
               [ destruct IH as (HR & pre & ev & -> & Hpre & Hev)
               | ]
           end.
  all: try (by constructor).
  all: try (split; [done|]).
  all: try (by eexists [], _).
  all: try (by eexists (_ :: pre), ev; repeat split; [constructor|]).
  all: try (by eexists pre, ev).
  all: done.
Qed.

End EmitsFacts.

(** ** Events of the statements of the run loop *)

Section StatementFacts.
Variable Q : Event → Prop.

Lemma Emits_mbind {A B} (p : Prog A) (f : A → Prog B) :
  Emits Q p → (∀ a, Emits Q (f a)) → Emits Q (p ≫= f).
Proof. apply Emits_bind. Qed.

Lemma Emits_await {T} (c : Call T) : (∀ r, Q (EvCall c r)) → Emits Q (await c).
Proof. intros. constructor; [done|]. intros []; constructor. Qed.

Lemma Emits_invoke {T} (c : Call T) : (∀ r, Q (EvCall c r)) → Emits Q (invoke c).
Proof. intros. constructor; [done|]. intros []; constructor. Qed.

Lemma Emits_sleep ms : Q (EvSleep ms) → Emits Q (sleep ms).
Proof. intros. by repeat constructor. Qed.

Lemma Emits_console_log s : Q (EvLog LOG s) → Emits Q (console_log s).
Proof. intros. by repeat constructor. Qed.

Lemma Emits_console_warn s : Q (EvLog WARN s) → Emits Q (console_warn s).
Proof. intros. by repeat constructor. Qed.

Lemma Emits_console_error s : Q (EvLog ERROR s) → Emits Q (console_error s).
Proof. intros. by repeat constructor. Qed.

Lemma Emits_when b p : Emits Q p → Emits Q (when b p).
Proof. intros. destruct b; simpl; [done|constructor]. Qed.

Lemma Emits_on {H T} member (target : option H) (call : H → Prog T) :
  (∀ h, Emits Q (call h)) → Emits Q (on member target call).
Proof. intros. destruct target; simpl; [done|constructor]. Qed.

Lemma Emits_message_of thrown : Emits Q (message_of thrown).
Proof. destruct thrown; constructor. Qed.

Lemma Emits_Math_random : Emits Q Math_random.
Proof. repeat constructor. Qed.

Lemma Emits_Date_now_ISO : Emits Q Date_now_ISO.
Proof. repeat constructor. Qed.

Lemma Emits_random_index n : Emits Q (Helpers.random_index n).
Proof. repeat constructor. Qed.

Lemma Emits_random_below a b : Emits Q (Helpers.random_below a b).
Proof. repeat constructor. Qed.

Lemma Emits_pick {T} (d : T) arr : Emits Q (Helpers.pick d arr).
Proof. repeat constructor. Qed.

Lemma Emits_random_chars n chars : Emits Q (Helpers.random_chars n chars).
Proof.
  induction n; simpl; [constructor|].
  constructor. intros. apply Emits_mbind; [done|]. intros. constructor.
Qed.

Lemma Emits_generateUtm : Emits Q Helpers.generateUtm.
Proof.
  unfold Helpers.generateUtm.
  repeat (apply Emits_mbind; [apply Emits_pick|]; intros).
  case_match; [|constructor].
  apply Emits_mbind; [apply Emits_pick|]. intros. constructor.
Qed.

Lemma Emits_generateUser : Emits Q Helpers.generateUser.
Proof.
  unfold Helpers.generateUser.
  apply Emits_mbind; [apply Emits_random_below|]. intros industry.
  cbv zeta.
  do 4 (apply Emits_mbind; [apply Emits_pick|]; intros ?).
  apply Emits_mbind; [apply Emits_random_chars|]. intros ?.
  apply Emits_mbind; [apply Emits_generateUtm|]. intros ?.
  apply Emits_mbind; [apply Emits_random_chars|]. intros ?.
  apply Emits_Ret.
Qed.

Lemma Emits_generatePlanSelection : Emits Q Helpers.generatePlanSelection.
Proof. apply Emits_pick. Qed.

Lemma Emits_generateMovieNumber : Emits Q Helpers.generateMovieNumber.
Proof. repeat constructor. Qed.

Lemma Closing_mbind B {A C} (R : C → Prop) (p : Prog A) (f : A → Prog C) :
  Emits Q p → (∀ a, Closing Q B R (f a)) → Closing Q B R (p ≫= f).
Proof. apply Closing_bind. Qed.

Lemma Closing_log_ret B {A} (R : A → Prop) s (a : A) :
  B (EvLog LOG s) → R a → Closing Q B R (console_log s ≫= λ _, mret a).
Proof. intros. by apply Closing_last. Qed.

End StatementFacts.

(** Walk through a program statement by statement. *)
Ltac emits_leaf := intros; first [ done | by repeat split ].

Ltac emits :=
  repeat (intros;
    lazymatch goal with
    | |- Emits _ (_ ≫= _) => apply Emits_mbind
    | |- Emits _ (bind _ _) => apply Emits_bind
    | |- Emits _ (try_catch _ _) => apply Emits_try_catch
    | |- Emits _ (try_finally _ _) => apply Emits_try_finally
    | |- Emits _ (await _) => apply Emits_await; emits_leaf
    | |- Emits _ (invoke _) => apply Emits_invoke; emits_leaf
    | |- Emits _ (sleep _) => apply Emits_sleep; emits_leaf
    | |- Emits _ (console_log _) => apply Emits_console_log; emits_leaf
    | |- Emits _ (console_warn _) => apply Emits_console_warn; emits_leaf
    | |- Emits _ (console_error _) => apply Emits_console_error; emits_leaf
    | |- Emits _ (when _ _) => apply Emits_when
    | |- Emits _ (on _ _ _) => apply Emits_on
    | |- Emits _ (message_of _) => apply Emits_message_of
    | |- Emits _ Math_random => apply Emits_Math_random
    | |- Emits _ Date_now_ISO => apply Emits_Date_now_ISO
    | |- Emits _ (Helpers.random_index _) => apply Emits_random_index
    | |- Emits _ (Helpers.random_below _ _) => apply Emits_random_below
    | |- Emits _ (Helpers.pick _ _) => apply Emits_pick
    | |- Emits _ Helpers.generateUser => apply Emits_generateUser
    | |- Emits _ Helpers.generateUtm => apply Emits_generateUtm
    | |- Emits _ Helpers.generatePlanSelection => apply Emits_generatePlanSelection
    | |- Emits _ Helpers.generateMovieNumber => apply Emits_generateMovieNumber
    | |- Emits _ (SetSession _ _) => constructor; [emits_leaf|]
    | |- Emits _ (GetSession _) => constructor
    | |- Emits _ (SetStats _ _) => constructor; [emits_leaf|]
    | |- Emits _ (GetStats _) => constructor
    | |- Emits _ (SetFlag _ _) => constructor; [emits_leaf|]
    | |- Emits _ (GetFlag _) => constructor
    | |- Emits _ (mret _) => constructor
    | |- Emits _ (Ret _) => constructor
    | |- Emits _ (Throw _) => constructor
    | |- Emits _ (match ?x with _ => _ end) => destruct x
    end).

(** ** The scripted journey *)

Lemma prefix_empty s : String.prefix "" s = true.
Proof. by destruct s. Qed.

Lemma drive_closing created n dom :
  Closing journey_event completion_line (λ b, b = true)
    (Helpers.drive created n dom).
Proof.
  unfold Helpers.drive. cbv zeta.
  repeat first
    [ apply Closing_log_ret
    | apply Closing_mbind; [emits|intros] ].
  all: [> split; [done|split; [done|]] | done].
  unfold mark. simpl. by rewrite prefix_empty.
Qed.

(** ** One run of [runSession] *)

Lemma journey_events_silent (evs : list Event) :
  Forall journey_event evs →
  marks evs = [] ∧ release_attempts evs = [] ∧ omap acquired evs = [] ∧
  omap flag_write evs = [].
Proof.
  induction 1 as [|ev evs (Hr & Ha & Hm & Hk) _ (IH1 & IH2 & IH3 & IH4)]; [done|].
  unfold marks, release_attempts in *; simpl.
  rewrite Hr, Ha, Hm; simpl.
  repeat split; [exact IH1|exact IH2|exact IH3|by destruct ev].
Qed.

Lemma journey_event_quiet ev : journey_event ev ∨ completion_line ev → quiet ev.
Proof.
  intros [(_ & _ & _ & Hk)|(_ & _ & Hm)]; [by destruct ev|].
  by destruct ev.
Qed.

Section RunSessionFacts.
Context {W : Type} `{World W}.

Lemma acquire_spec pid bb fr (m : Machine W) :
  let a := exec (Helpers.acquire pid bb) fr m in
  marks (emitted a) = [] ∧ release_attempts (emitted a) = [] ∧
  omap flag_write (emitted a) = [] ∧
  isJobRunning (machine a) = isJobRunning m ∧
  currentJobStats (machine a) = currentJobStats m ∧
  match result a with
  | Ok created =>
      frame a = created ∧
      omap acquired (emitted a) = from_option (λ s, [s]) [] created
  | Err _ => frame a = fr ∧ omap acquired (emitted a) = []
  end.
Proof.
  unfold Helpers.acquire. simpl. ask_world.
  destruct r as [geo|e]; simpl; [|done]. ask_world.
  destruct r as [[s|]|e]; simpl; done.
Qed.

Lemma drive_spec created n dom fr (m : Machine W) :
  let d := exec (Helpers.drive created n dom) fr m in
  frame d = fr ∧
  isJobRunning (machine d) = isJobRunning m ∧
  currentJobStats (machine d) = currentJobStats m ∧
  match result d with
  | Ok v => v = true ∧
      ∃ pre ev, emitted d = pre ++ [ev] ∧ Forall journey_event pre ∧
                completion_line ev
  | Err _ => Forall journey_event (emitted d)
  end.
Proof.
  intros d.
  pose proof (drive_closing created n dom) as Hc.
  destruct (Emits_quiet (Helpers.drive created n dom) fr m) as (? & ? & ?).
  { eapply Emits_impl; [|by eapply Closing_Emits]. apply journey_event_quiet. }
  repeat split; [done..|].
  apply (Closing_exec _ _ _ _ fr m) in Hc. exact Hc.
Qed.

Lemma finally_spec pid bb fr (m : Machine W) :
  let c := exec (Helpers.runSession_finally pid bb) fr m in
  frame c = fr ∧
  isJobRunning (machine c) = isJobRunning m ∧
  currentJobStats (machine c) = currentJobStats m ∧
  ∃ escaped,
    release_phase pid bb fr (emitted c) escaped ∧
    result c = from_option (λ e, Err (Raised e)) (Ok tt) escaped.
Proof.
  unfold Helpers.runSession_finally, release_phase. simpl.
  destruct fr as [s|]; [|by repeat split; exists None].
  destruct (truthy_string (id s)); [|by repeat split; exists None].
  simpl. ask_world.
  destruct r as [[]|[e|k]]; simpl; (repeat split; [done..|]).
  - exists None. split; [by exists (Ok tt)|done].
  - exists None. split; [by exists (Err (Raised e))|done].
  - exists (Some (TypeError_nullish k "message")).
    split; [by exists (Err (RaisedNullish k))|done].
Qed.

Lemma exec_mbind {A B} (p : Prog A) (f : A → Prog B) fr (m : Machine W) :
  exec (p ≫= f) fr m =
  match result (exec p fr m) with
  | Ok v => emit (emitted (exec p fr m))
              (exec (f v) (frame (exec p fr m)) (machine (exec p fr m)))
  | Err e => mkRun (emitted (exec p fr m)) (frame (exec p fr m))
               (machine (exec p fr m)) (Err e)
  end.
Proof. apply exec_bind. Qed.

Lemma exec_log_then {A} s (f : unit → Prog A) fr (m : Machine W) :
  exec (console_log s ≫= f) fr m = emit [EvLog LOG s] (exec (f tt) fr m).
Proof. done. Qed.

(** The [try] block of [runSession]. *)
Lemma runSession_try_spec env n total bb dom (m : Machine W) :
  let t := exec (Helpers.runSession_try env n total bb dom) None m in
  ∃ pre,
    marks pre = [] ∧ release_attempts pre = [] ∧
    omap flag_write pre = [] ∧
    omap acquired pre = from_option (λ s, [s]) [] (frame t) ∧
    isJobRunning (machine t) = isJobRunning m ∧
    currentJobStats (machine t) = currentJobStats m ∧
    match result t with
    | Ok v => v = true ∧
        ∃ ev, emitted t = start_line n total :: pre ++ [ev] ∧ completion_line ev
    | Err e => emitted t = start_line n total :: pre
    end.
Proof.
  intros t. subst t.
  unfold Helpers.runSession_try. rewrite exec_log_then.
  unfold Helpers.journey. rewrite exec_mbind.
  set (pid := env !! "BROWSERBASE_PROJECT_ID").
  pose proof (acquire_spec pid bb None m) as Ha. cbv zeta in Ha.
  set (a := exec (Helpers.acquire pid bb) None m) in *.
  destruct Ha as (Ham & Har & Haf & Hafl & Hast & Hares). clearbody a.
  destruct (result a) as [created|e] eqn:Hra; cbv beta iota.
  - destruct Hares as [Hfa Hacq].
    pose proof (drive_spec created n dom (frame a) (machine a)) as Hd.
    cbv zeta in Hd.
    set (d := exec (Helpers.drive created n dom) (frame a) (machine a)) in *.
    destruct Hd as (Hdf & Hdfl & Hdst & Hdres). clearbody d. cbn.
    destruct (result d) as [v|e] eqn:Hrd.
    + destruct Hdres as (-> & pre & ev & Hev & Hpre & Hcl).
      apply journey_events_silent in Hpre as (Hp1 & Hp2 & Hp3 & Hp4).
      exists (emitted a ++ pre).
      rewrite Hev, Hdf, Hfa, Hdfl, Hdst. unfold marks, release_attempts in *.
      rewrite !omap_app, flat_map_app, Ham, Har, Haf, Hacq, Hp1, Hp2, Hp3, Hp4.
      rewrite !app_nil_r. repeat split; try done.
      exists ev. by rewrite <-app_assoc.
    + apply journey_events_silent in Hdres as (Hp1 & Hp2 & Hp3 & Hp4).
      exists (emitted a ++ emitted d).
      rewrite Hdf, Hfa, Hdfl, Hdst. unfold marks, release_attempts in *.
      rewrite !omap_app, flat_map_app, Ham, Har, Haf, Hacq, Hp1, Hp2, Hp3, Hp4.
      by rewrite !app_nil_r.
  - destruct Hares as [Hfa Hacq]. cbn.
    exists (emitted a). by rewrite Hfa, Hacq.
Qed.

(** The [try] and [catch] blocks of [runSession]. *)
Lemma runSession_try_catch_spec env n total bb dom (m : Machine W) :
  let body := exec (Helpers.runSession_try env n total bb dom) None m in
  let t := exec (try_catch (Helpers.runSession_try env n total bb dom)
                   (Helpers.runSession_catch n)) None m in
  ∃ pre lines,
    result t = caught (result body) ∧
    emitted t = start_line n total :: pre ++ lines ∧
    marks pre = [] ∧ release_attempts pre = [] ∧
    omap flag_write pre = [] ∧
    omap acquired pre = from_option (λ s, [s]) [] (frame t) ∧
    verdict_phase n (result body) lines ∧
    isJobRunning (machine t) = isJobRunning m ∧
    currentJobStats (machine t) = currentJobStats m.
Proof.
  intros body t. subst t body. rewrite exec_try_catch.
  destruct (runSession_try_spec env n total bb dom m)
    as (pre & Hm & Hrel & Hfw & Hacq & Hfl & Hst & Hres).
  set (t := exec (Helpers.runSession_try env n total bb dom) None m) in *.
  clearbody t.
  destruct (result t) as [v|[e|k]] eqn:Hrt.
  - destruct Hres as (-> & ev & Hev & Hcl).
    exists pre, [ev]. rewrite Hrt. repeat split; try done. by exists ev.
  - exists pre, [error_line n e]. cbn. rewrite Hres. by repeat split.
  - exists pre, []. cbn. rewrite Hres, !app_nil_r. by repeat split.
Qed.

Lemma runSession_spec env n total bb dom fr (m : Machine W) :
  let pid := env !! "BROWSERBASE_PROJECT_ID" in
  let body := exec (Helpers.runSession_try env n total bb dom) None m in
  let o := exec (Helpers.runSession env n total bb dom) fr m in
  ∃ pre lines fin escaped,
    result o = from_option (λ e, Err (Raised e)) (caught (result body)) escaped ∧
    emitted o = EvSession None :: start_line n total :: pre ++ lines ++ fin ∧
    marks pre = [] ∧ release_attempts pre = [] ∧
    omap flag_write pre = [] ∧
    omap acquired pre = from_option (λ s, [s]) [] (frame o) ∧
    verdict_phase n (result body) lines ∧
    release_phase pid bb (frame o) fin escaped ∧
    isJobRunning (machine o) = isJobRunning m ∧
    currentJobStats (machine o) = currentJobStats m.
Proof.
  intros pid body o. subst o pid.
  unfold Helpers.runSession, try_catch_finally. cbn [exec].
  set (pid := env !! "BROWSERBASE_PROJECT_ID").
  rewrite exec_try_finally. cbv zeta.
  destruct (runSession_try_catch_spec env n total bb dom m)
    as (pre & lines & Hr & He & Hm & Hrel & Hfw & Hacq & Hv & Hfl & Hst).
  fold body in Hr, Hv. clearbody body.
  set (t := exec (try_catch _ _) None m) in *. clearbody t.
  destruct (finally_spec pid bb (frame t) (machine t))
    as (Hfc & Hcfl & Hcst & escaped & Hph & Hc).
  set (c := exec (Helpers.runSession_finally pid bb) _ _) in *. clearbody c.
  exists pre, lines, (emitted c), escaped. cbn.
  rewrite Hc, Hfc, Hcfl, Hcst, He, Hr.
  repeat split; try done.
  - by destruct escaped.
  - simpl. by rewrite <-app_assoc.
Qed.

End RunSessionFacts.

(** ** Where a thrown [null] or [undefined] comes from *)

Lemma civil_cons ev evs :
  civil (ev :: evs) ↔ nullish_answer ev = None ∧ civil evs.
Proof.
  unfold civil. simpl. destruct (nullish_answer ev); [|by split; [|intros []]].
  split; [done|]. by intros [? _].
Qed.

Lemma civil_app a b : civil (a ++ b) ↔ civil a ∧ civil b.
Proof.
  unfold civil. rewrite omap_app. split.
  - intros Hab. by apply app_eq_nil in Hab.
  - by intros [-> ->].
Qed.

Section BlamelessFacts.
Context {W : Type} `{World W}.

Lemma Blameless_bind {A B} (p : Prog A) (f : A → Prog B) :
  Blameless p → (∀ a, Blameless (f a)) → Blameless (bind p f).
Proof. intros Hp Hf. induction Hp; simpl; try constructor; auto. Qed.

Lemma Blameless_mbind {A B} (p : Prog A) (f : A → Prog B) :
  Blameless p → (∀ a, Blameless (f a)) → Blameless (p ≫= f).
Proof. apply Blameless_bind. Qed.

Lemma Blameless_try_catch {A} (p : Prog A) (h : Thrown → Prog A) :
  Blameless p → (∀ e, Blameless (h (Raised e))) → Blameless (try_catch p h).
Proof. intros Hp Hh. induction Hp; simpl; try constructor; auto. Qed.

(** A blameless program whose calls were all answered civilly has not
    thrown [null] or [undefined]. *)
Lemma Blameless_exec {A} (p : Prog A) fr (m : Machine W) :
  Blameless p → civil (emitted (exec p fr m)) →
  ∀ k, result (exec p fr m) ≠ Err (RaisedNullish k).
Proof.
  intros Hp. revert fr m.
  induction Hp; intros fr m; simpl; ask_world; try done;
    rewrite ?civil_cons; try (intros [? ?]); eauto.
Qed.

(** In a polite environment every trace is civil. *)
Lemma polite_civil {A} (p : Prog A) fr (m : Machine W) :
  polite W → civil (emitted (exec p fr m)).
Proof.
  intros Hpolite. revert fr m.
  induction p as [a|e|T c k IH|T c k IH|ms k IH|k IH|k IH|l s k IH|k IH
                 |b k IH|k IH|s k IH|k IH|s k IH]; intros fr m; simpl;
    try done.
  all: try match goal with
           | |- context [answer ?c (world ?m)] =>
               pose proof (Hpolite _ c (world m)) as Hc;
               destruct (answer c (world m)) as [w r]; simpl in *;
               apply civil_cons; split; [|apply IH];
               destruct r as [v|[e|k']]; try done; by destruct (Hc k')
           end.
  all: ask_world; try apply IH.
  all: apply civil_cons; split; [done|apply IH].
Qed.

Lemma Blameless_await {T} (c : Call T) : Blameless (await c).
Proof. constructor. intros [v|[e|k]] Hr; by constructor || done. Qed.

Lemma Blameless_invoke {T} (c : Call T) : Blameless (invoke c).
Proof. constructor. intros [v|[e|k]] Hr; by constructor || done. Qed.

Lemma Blameless_when b p : Blameless p → Blameless (when b p).
Proof. intros. destruct b; simpl; [done|constructor]. Qed.

Lemma Blameless_on {H' T} member (target : option H') (call : H' → Prog T) :
  (∀ h, Blameless (call h)) → Blameless (on member target call).
Proof. intros. destruct target; simpl; [done|constructor]. Qed.

Lemma Blameless_pick {T} (d : T) arr : Blameless (Helpers.pick d arr).
Proof. repeat constructor. Qed.

Lemma Blameless_random_chars n chars : Blameless (Helpers.random_chars n chars).
Proof.
  induction n; simpl; [constructor|].
  constructor. intros. apply Blameless_mbind; [done|]. intros. constructor.
Qed.

Lemma Blameless_generateUtm : Blameless Helpers.generateUtm.
Proof.
  unfold Helpers.generateUtm.
  repeat (apply Blameless_mbind; [apply Blameless_pick|]; intros).
  case_match; [|constructor].
  apply Blameless_mbind; [apply Blameless_pick|]. intros. constructor.
Qed.

Lemma Blameless_random_below a b : Blameless (Helpers.random_below a b).
Proof. repeat constructor. Qed.

Lemma Blameless_generateUser : Blameless Helpers.generateUser.
Proof.
  unfold Helpers.generateUser.
  apply Blameless_mbind; [apply Blameless_random_below|]. intros industry.
  cbv zeta.
  do 4 (apply Blameless_mbind; [apply Blameless_pick|]; intros ?).
  apply Blameless_mbind; [apply Blameless_random_chars|]. intros ?.
  apply Blameless_mbind; [apply Blameless_generateUtm|]. intros ?.
  apply Blameless_mbind; [apply Blameless_random_chars|]. intros ?.
  apply Blameless_Ret.
Qed.

End BlamelessFacts.

Ltac blameless :=
  repeat (intros;
    lazymatch goal with
    | |- Blameless (_ ≫= _) => apply Blameless_mbind
    | |- Blameless (bind _ _) => apply Blameless_bind
    | |- Blameless (try_catch _ _) => apply Blameless_try_catch
    | |- Blameless (await _) => apply Blameless_await
    | |- Blameless (invoke _) => apply Blameless_invoke
    | |- Blameless (when _ _) => apply Blameless_when
    | |- Blameless (on _ _ _) => apply Blameless_on
    | |- Blameless (Helpers.pick _ _) => apply Blameless_pick
    | |- Blameless Helpers.generateUser => apply Blameless_generateUser
    | |- Blameless Helpers.generateUtm => apply Blameless_generateUtm
    | |- Blameless Helpers.generatePlanSelection => apply Blameless_pick
    | |- Blameless (Helpers.random_below _ _) => apply Blameless_random_below
    | |- Blameless (match ?x with _ => _ end) => destruct x
    | |- Blameless _ => by repeat constructor
    end).

Lemma runSession_try_blameless env n total bb dom :
  Blameless (Helpers.runSession_try env n total bb dom).
Proof.
  unfold Helpers.runSession_try, Helpers.journey, Helpers.acquire, Helpers.drive.
  cbv zeta. blameless.
Qed.

Section CivilRuns.
Context {W : Type} `{World W}.

(** A run in which nothing thrown is [null] or [undefined] returns. *)
Lemma runSession_civil env n total bb dom fr (m : Machine W) :
  let body := exec (Helpers.runSession_try env n total bb dom) None m in
  let o := exec (Helpers.runSession env n total bb dom) fr m in
  civil (emitted o) →
  (∀ k, result body ≠ Err (RaisedNullish k)) ∧
  result o = caught (result body) ∧
  ∃ b, result o = Ok b.
Proof.
  intros body o Hcivil.
  assert (∃ rest, emitted o = EvSession None :: emitted body ++ rest)
    as (rest & Hsplit).
  { subst o. unfold Helpers.runSession, try_catch_finally. cbn [exec].
    rewrite exec_try_finally. cbv zeta. rewrite exec_try_catch. fold body.
    clearbody body.
    destruct (result body); eexists; cbn [emit emitted app];
      by rewrite <-?app_assoc. }
  assert (∀ k, result body ≠ Err (RaisedNullish k)) as Hbody.
  { apply Blameless_exec; [apply runSession_try_blameless|].
    rewrite Hsplit in Hcivil.
    apply civil_cons in Hcivil as [_ Hcivil].
    by apply civil_app in Hcivil as [? _]. }
  split; [exact Hbody|].
  destruct (runSession_spec env n total bb dom fr m)
    as (pre & lines & fin & escaped & Hr & He & _ & _ & _ & _ & _ & Hph & _).
  fold body in Hr. fold o in Hr, He, Hph.
  assert (escaped = None) as ->.
  { rewrite He in Hcivil.
    do 2 apply civil_cons in Hcivil as [_ Hcivil].
    do 2 apply civil_app in Hcivil as [_ Hcivil].
    unfold release_phase in Hph.
    destruct (frame o) as [s|]; [|by destruct Hph].
    destruct (truthy_string (id s)); [|by destruct Hph].
    destruct Hph as (r & -> & ->).
    apply civil_cons in Hcivil as [Hr' _].
    by destruct r as [?|[?|?]]. }
  cbn [from_option] in Hr. split; [exact Hr|]. rewrite Hr.
  clearbody o body.
  destruct (result body) as [v|[e|k]]; simpl; eauto.
  by destruct (Hbody k).
Qed.

End CivilRuns.

(** ** The run loop releases what it acquired; what it lets escape *)

(** C1 (amended). In every run of [runSession] that acquired a
    RemoteSession (the provider returned a session object with an
    identifier), the run makes exactly one release attempt, for that
    session, and it makes it last: after whatever the [try] and [catch]
    blocks have left in the log. A release that fails with an error object
    leaves one warning with the message of the error and changes nothing of
    how the run completes; so does a release that succeeds, without the
    warning. A release that is rejected with [null] or [undefined] leaves
    no warning: the handler of the [finally] block throws a [TypeError]
    while it reads the message, and the run rejects with that error. *)
Theorem runSession_releases_acquired_session_once
    {W : Type} `{World W} env n total bb dom fr (m : Machine W) (s : Session) :
  let body := exec (Helpers.runSession_try env n total bb dom) None m in
  let o := exec (Helpers.runSession env n total bb dom) fr m in
  s ∈ omap acquired (emitted o) →
  truthy_string (id s) = true →
  release_attempts (emitted o) = [id s] ∧
  ∃ pre lines r,
    emitted o =
      pre ++ lines
          ++ EvCall (SessionsUpdate bb (id s) "REQUEST_RELEASE"
                       (env !! "BROWSERBASE_PROJECT_ID")) r
          :: cleanup_log (id s) r ∧
    release_attempts (pre ++ lines) = [] ∧
    verdict_phase n (result body) lines ∧
    match r with
    | Ok _ => cleanup_log (id s) r = [] ∧ result o = caught (result body)
    | Err (Raised e) =>
        cleanup_log (id s) r =
          [EvLog WARN ("Failed to cleanup session " +:+ id s +:+ ": "
                       +:+ message e)] ∧
        result o = caught (result body)
    | Err (RaisedNullish k) =>
        cleanup_log (id s) r = [] ∧
        result o = Err (Raised (TypeError_nullish k "message"))
    end.
Proof.
  intros body o Hs Hid.
  destruct (runSession_spec env n total bb dom fr m)
    as (pre & lines & fin & escaped & Hr & He & Hm & Hrel & Hfw & Hacq & Hv
        & Hph & _).
  fold body in Hr, Hv. fold o in Hr, He, Hacq, Hph.
  assert (release_attempts lines = [] ∧ omap acquired lines = []) as [Hvr Hva].
  { unfold verdict_phase in Hv. destruct (result body) as [v|[e|k]].
    - destruct Hv as (_ & line & -> & Hrl & Hal & _).
      unfold release_attempts. simpl. by rewrite Hrl, Hal.
    - by subst lines.
    - by subst lines. }
  assert (omap acquired fin = [] ∧
          (frame o = Some s → release_attempts fin = [id s])) as [Hfa Hfr].
  { unfold release_phase in Hph.
    destruct (frame o) as [s'|]; [|by destruct Hph as [-> _]].
    destruct (truthy_string (id s')) eqn:Hid';
      [|destruct Hph as [-> _]; split; [done|]; intros [= <-]; congruence].
    destruct Hph as (r & -> & _). split; [by destruct r as [?|[?|?]]|].
    intros [= <-]. by destruct r as [?|[?|?]]. }
  assert (emitted o =
          [EvSession None; start_line n total] ++ pre ++ lines ++ fin)
    as He' by done.
  assert (frame o = Some s) as Hfo.
  { rewrite He', !omap_app, Hva, Hfa, Hacq, !app_nil_r in Hs.
    destruct (frame o) as [s'|]; simpl in Hs.
    - apply list_elem_of_singleton in Hs. by subst.
    - by apply elem_of_nil in Hs. }
  unfold release_attempts in *. split.
  - rewrite He', !flat_map_app, Hrel, Hvr. simpl. by apply Hfr.
  - unfold release_phase in Hph. rewrite Hfo, Hid in Hph.
    destruct Hph as (r & -> & ->).
    exists (EvSession None :: start_line n total :: pre), lines, r.
    split; [done|]. split.
    { change (EvSession None :: start_line n total :: pre)
        with ([EvSession None; start_line n total] ++ pre).
      by rewrite !flat_map_app, Hrel, Hvr. }
    split; [done|].
    by destruct r as [?|[?|?]].
Qed.

(** A run in which the page cannot be obtained after the session was
    acquired: the session is released once. *)
Lemma runSession_releases_acquired_session_once_witness :
  let o := @exec nat (Worlds.failing_at 5) bool
             (Helpers.runSession ∅ 1 1 (ProviderH 0) "https://demo/")
             None Worlds.idle in
  Worlds.session1 ∈ omap acquired (emitted o) ∧
  truthy_string (id Worlds.session1) = true ∧
  release_attempts (emitted o) = [id Worlds.session1].
Proof.
  assert (Worlds.session1 ∈
            omap acquired
              (emitted (@exec nat (Worlds.failing_at 5) bool
                 (Helpers.runSession ∅ 1 1 (ProviderH 0) "https://demo/")
                 None Worlds.idle))) as Hin.
  { replace (omap acquired _) with [Worlds.session1] by (by vm_compute).
    apply list_elem_of_singleton. reflexivity. }
  split; [exact Hin|]. split; [reflexivity|].
  exact (proj1 (@runSession_releases_acquired_session_once nat
                  (Worlds.failing_at 5) ∅ 1 1 (ProviderH 0) "https://demo/"
                  None Worlds.idle Worlds.session1 Hin eq_refl)).
Defined.

(** A run goes through, and the release of its session is rejected with
    [null]: the failure of the release is not logged, and it is rethrown,
    as a [TypeError], which is what the caller of the run gets. *)
Lemma rejected_release_counterexample :
  let o := @exec nat (Worlds.null_at 59) bool
             (Helpers.runSession ∅ 1 1 (ProviderH 0) "https://demo/")
             None Worlds.idle in
  Worlds.session1 ∈ omap acquired (emitted o) ∧
  marks (emitted o) = [Started "Starting session 1/1..."; Ended true] ∧
  last (emitted o) =
    Some (EvCall (SessionsUpdate (ProviderH 0) "5f1c2d9e" "REQUEST_RELEASE" None)
            (Err (RaisedNullish null))) ∧
  result o = Err (Raised (TypeError_null "message")) ∧
  ¬ ((∃ b, result o = Ok b) ∧
     ∃ line, EvLog WARN line ∈ emitted o).
Proof.
  assert (result (@exec nat (Worlds.null_at 59) bool
             (Helpers.runSession ∅ 1 1 (ProviderH 0) "https://demo/")
             None Worlds.idle) = Err (Raised (TypeError_null "message")))
    as Hres by (vm_compute; reflexivity).
  split.
  { replace (omap acquired _) with [Worlds.session1] by (by vm_compute).
    apply list_elem_of_singleton. reflexivity. }
  split; [by vm_compute|]. split; [by vm_compute|]. split; [exact Hres|].
  intros [(b & Hb) _]. cbv zeta in Hb. rewrite Hres in Hb. discriminate Hb.
Qed.



(** ** Fixtures *)

(** ** Rounding to the nearest double *)

Lemma round53_small (x : Z) : (Z.abs x < 2 ^ 53)%Z → round53 x = x.
Proof.
  intros Hx. unfold round53.
  destruct (Z.leb_spec (Z.log2 (Z.abs x) - 52) 0) as [|He]; [done|].
  exfalso.
  assert (0 < Z.abs x)%Z as Hpos.
  { destruct (Z.eq_dec (Z.abs x) 0%Z) as [Hz|]; [|lia].
    rewrite Hz in He. simpl in He. lia. }
  apply (Z.log2_lt_pow2 _ 53 Hpos) in Hx. lia.
Qed.

(** Rounding moves a number by half a unit in the last place at most. *)
Lemma round53_error (x : Z) :
  (2 ^ 53 ≤ x)%Z →
  (x - 2 ^ (Z.log2 x - 53) ≤ round53 x ≤ x + 2 ^ (Z.log2 x - 53))%Z.
Proof.
  intros Hx. unfold round53.
  assert (0 < x)%Z as Hpos by lia.
  rewrite (Z.abs_eq x), (Z.sgn_pos x) by lia.
  assert (53 ≤ Z.log2 x)%Z as Hlog by (by apply Z.log2_le_pow2).
  destruct (Z.leb_spec (Z.log2 x - 52) 0) as [|_]; [lia|]. cbv zeta.
  set (e := (Z.log2 x - 52)%Z) in *.
  replace (Z.log2 x - 53)%Z with (e - 1)%Z by lia.
  assert (2 ^ e = 2 * 2 ^ (e - 1))%Z as Hpow.
  { rewrite <-Z.pow_succ_r by lia. f_equal. lia. }
  assert (0 < 2 ^ (e - 1))%Z as Hhalf by (apply Z.pow_pos_nonneg; lia).
  pose proof (Z.div_mod x (2 ^ e) ltac:(lia)) as Hdm.
  pose proof (Z.mod_pos_bound x (2 ^ e) ltac:(lia)) as Hmod.
  set (q := (x / 2 ^ e)%Z) in *. set (rest := (x mod 2 ^ e)%Z) in *.
  clearbody q rest e.
  destruct (Z.ltb_spec (2 ^ (e - 1)) rest) as [Hup|Hle]; cbn [orb].
  - lia.
  - destruct (Z.eqb_spec rest (2 ^ (e - 1))) as [Htie|Hne]; cbn [andb].
    + destruct (Z.odd q); lia.
    + lia.
Qed.

Lemma round53_near (x j : Z) :
  (0 ≤ j)%Z → (0 ≤ x < 2 ^ (54 + j))%Z →
  (x - 2 ^ j ≤ round53 x ≤ x + 2 ^ j)%Z.
Proof.
  intros Hj Hx.
  assert (0 < 2 ^ j)%Z as Hpj by (apply Z.pow_pos_nonneg; lia).
  destruct (Z.lt_ge_cases x (2 ^ 53)) as [Hsmall|Hbig].
  { rewrite round53_small by lia. lia. }
  pose proof (round53_error x Hbig) as Herr.
  assert (Z.log2 x < 54 + j)%Z as Hlog by (apply Z.log2_lt_pow2; lia).
  assert (2 ^ (Z.log2 x - 53) ≤ 2 ^ j)%Z as Hle
    by (apply Z.pow_le_mono_r; lia).
  lia.
Qed.

Lemma unit_interval_range z :
  (0 ≤ unit_interval z < Helpers.RANDOM_DENOM)%Z.
Proof. unfold unit_interval, Helpers.RANDOM_DENOM. apply Z.mod_pos_bound. lia. Qed.

(** [Math.floor(Math.random() * n)] lies in [[0, n)]: the rounded product
    stays below [n]. *)
Lemma scaled_range r n :
  (0 ≤ r < Helpers.RANDOM_DENOM)%Z → (0 < n ≤ Helpers.RANDOM_DENOM)%Z →
  (0 ≤ round53 (r * n) / Helpers.RANDOM_DENOM < n)%Z.
Proof.
  unfold Helpers.RANDOM_DENOM. intros Hr Hn.
  assert (0 ≤ r * n ≤ n * 2 ^ 53 - n)%Z as Hx by nia.
  assert (0 ≤ round53 (r * n) < n * 2 ^ 53)%Z as Hround.
  { destruct (Z.lt_ge_cases (r * n) (2 ^ 53)) as [Hsmall|Hbig].
    { rewrite round53_small by lia. nia. }
    pose proof (round53_error _ Hbig) as Herr.
    pose proof (Z.log2_spec (r * n) ltac:(lia)) as [Hlog _].
    assert (53 ≤ Z.log2 (r * n))%Z as Hl by (by apply Z.log2_le_pow2; lia).
    assert (2 ^ Z.log2 (r * n) = 2 ^ (Z.log2 (r * n) - 53) * 2 ^ 53)%Z as Hsplit.
    { rewrite <-Z.pow_add_r by lia. f_equal. lia. }
    assert (0 < 2 ^ (Z.log2 (r * n) - 53))%Z as Hh
      by (apply Z.pow_pos_nonneg; lia).
    set (h := (2 ^ (Z.log2 (r * n) - 53))%Z) in *. clearbody h.
    set (x := (r * n)%Z) in *. clearbody x.
    assert (h < n)%Z by nia. lia. }
  split.
  - apply Z.div_pos; lia.
  - apply Z.div_lt_upper_bound; lia.
Qed.

(** The literals [0.1] and [0.55] are the doubles [3602879701896397 / 2^55]
    and [4953959590107546 / 2^53]: a random number is below them exactly
    when it is below [1/10] and [55/100]. *)
Lemma literal_thresholds (r : Z) :
  (r * 10 <? 1 * Helpers.RANDOM_DENOM)%Z = (r * 2 ^ 2 <? 3602879701896397)%Z ∧
  (r * 100 <? 55 * Helpers.RANDOM_DENOM)%Z = (r <? 4953959590107546)%Z.
Proof.
  unfold Helpers.RANDOM_DENOM.
  split.
  - destruct (Z.ltb_spec (r * 10) (1 * 2 ^ 53)),
      (Z.ltb_spec (r * 2 ^ 2) 3602879701896397); try done; lia.
  - destruct (Z.ltb_spec (r * 100) (55 * 2 ^ 53)),
      (Z.ltb_spec r 4953959590107546); try done; lia.
Qed.

Section FixtureFacts.
Context {W : Type} `{World W}.

Lemma exec_random_index n fr (m : Machine W) :
  exec (Helpers.random_index n) fr m =
  mkRun [] fr (set_world m (draw (world m)).1)
    (Ok (round53 (unit_interval (draw (world m)).2 * n) / Helpers.RANDOM_DENOM)%Z).
Proof. unfold Helpers.random_index. simpl. by destruct (draw (world m)). Qed.

Lemma exec_pick {T} (d : T) (arr : list T) fr (m : Machine W) :
  ∃ x, exec (Helpers.pick d arr) fr m =
         mkRun [] fr (set_world m (draw (world m)).1) (Ok x) ∧
       (arr ≠ [] → (Z.of_nat (length arr) ≤ Helpers.RANDOM_DENOM)%Z → x ∈ arr).
Proof.
  unfold Helpers.pick. rewrite exec_mbind, exec_random_index. simpl.
  eexists; split; [done|]. intros Hne Hlen.
  apply list_elem_of_In, nth_In.
  pose proof (unit_interval_range (draw (world m)).2) as Hr.
  assert (0 < Z.of_nat (length arr))%Z as Hn by (destruct arr; [done|simpl; lia]).
  pose proof (scaled_range _ _ Hr (conj Hn Hlen)). lia.
Qed.

End FixtureFacts.

(** C6. [generateUtm] always returns an object; its [utm_term] field is set
    if and only if its [utm_medium] field is ["search"]; [utm_source],
    [utm_medium] and [utm_campaign] are entries of their own tables, and
    so is [utm_term] when it is set. ([generateUtm] of the older server
    is the same text.) *)
Theorem generateUtm_term_iff_search
    {W : Type} `{World W} fr (m : Machine W) :
  ∃ params : gmap string string,
    result (exec Helpers.generateUtm fr m) = Ok params ∧
    (is_Some (params !! "utm_term") ↔ params !! "utm_medium" = Some "search") ∧
    (∃ v, params !! "utm_source" = Some v ∧ v ∈ Helpers.sources) ∧
    (∃ v, params !! "utm_medium" = Some v ∧ v ∈ Helpers.mediums) ∧
    (∃ v, params !! "utm_campaign" = Some v ∧ v ∈ Helpers.campaigns) ∧
    (∀ v, params !! "utm_term" = Some v → v ∈ Helpers.searchTerms).
Proof.
  unfold Helpers.generateUtm.
  rewrite exec_mbind.
  destruct (exec_pick "undefined" Helpers.mediums fr m) as (med & -> & Hmed).
  cbn [result emitted frame machine]. rewrite exec_mbind.
  destruct (exec_pick "undefined" Helpers.sources fr
              (set_world m (draw (world m)).1)) as (src & -> & Hsrc).
  cbn [result emitted frame machine]. rewrite exec_mbind.
  match goal with
  | |- context [exec (Helpers.pick "undefined" Helpers.campaigns) ?f ?m'] =>
      destruct (exec_pick "undefined" Helpers.campaigns f m') as (cam & -> & Hcam)
  end.
  cbn [result emitted frame machine].
  specialize (Hmed ltac:(done) ltac:(by vm_compute)).
  specialize (Hsrc ltac:(done) ltac:(by vm_compute)).
  specialize (Hcam ltac:(done) ltac:(by vm_compute)).
  destruct (String.eqb med "search") eqn:Hsearch.
  - apply String.eqb_eq in Hsearch as ->.
    rewrite exec_mbind.
    match goal with
    | |- context [exec (Helpers.pick "undefined" Helpers.searchTerms) ?f ?m'] =>
        destruct (exec_pick "undefined" Helpers.searchTerms f m')
          as (term & -> & Hterm)
    end.
    specialize (Hterm ltac:(done) ltac:(by vm_compute)).
    eexists; split; [done|].
    rewrite lookup_insert_eq. repeat rewrite lookup_insert_ne by done.
    rewrite !lookup_insert_eq.
    repeat split; eauto. by intros v [= <-].
  - apply String.eqb_neq in Hsearch.
    eexists; split; [done|].
    repeat rewrite lookup_insert_ne by done. rewrite !lookup_insert_eq.
    repeat rewrite lookup_insert_ne by done. rewrite !lookup_insert_eq.
    rewrite lookup_empty.
    repeat split; eauto; try (by intros [? [=]]); try congruence.
Qed.


(** ** The batch runner *)

Lemma pretty_N_go_numeral (x : N) (s : string) :
  numeral_like s → numeral_like (pretty_N_go x s).
Proof.
  revert s. induction (N.lt_wf_0 x) as [x _ IH]; intros s Hs.
  assert (x = 0 ∨ 0 < x)%N as [->|Hx] by lia.
  - by rewrite pretty_N_go_0.
  - rewrite pretty_N_go_step by done. apply IH.
    { by apply N.div_lt. }
    eexists _, _. split; [done|].
    unfold pretty_N_char. by repeat case_match.
Qed.

Lemma pretty_Z_numeral (z : Z) : numeral_like (pretty z).
Proof.
  destruct z as [|p|p]; [by eexists _, _|..].
  - unfold pretty, pretty_Z, pretty, pretty_positive, pretty, pretty_N.
    case_decide; [done|].
    rewrite pretty_N_go_step by lia. apply pretty_N_go_numeral.
    eexists _, _. split; [done|]. unfold pretty_N_char. by repeat case_match.
  - by eexists _, _.
Qed.

Lemma prefix_app (a b s : string) :
  String.prefix (a +:+ b) (a +:+ s) = String.prefix b s.
Proof.
  induction a as [|c a IH]; [done|]. simpl.
  destruct (ascii_dec c c); [exact IH|congruence].
Qed.

Lemma prefix_head_ne (a b : ascii) (s t : string) :
  a ≠ b → String.prefix (String a s) (String b t) = false.
Proof. intros. simpl. destruct (ascii_dec a b); [congruence|done]. Qed.

Lemma not_start_text (z : Z) (rest : string) :
  String.prefix "Starting session " ("Starting " +:+ pretty z +:+ rest) = false.
Proof.
  change "Starting session " with ("Starting " +:+ "session ").
  rewrite prefix_app.
  destruct (pretty_Z_numeral z) as (c & tl & -> & Hc).
  by apply prefix_head_ne.
Qed.

Lemma mark_start_line i N : mark (start_line i N) = Some (Started (start_text i N)).
Proof. unfold start_line, start_text, mark. simpl. by rewrite prefix_empty. Qed.

Lemma mark_error_line n e : mark (error_line n e) = Some (Ended false).
Proof. unfold error_line, mark. simpl. by rewrite prefix_empty. Qed.

Lemma release_phase_silent pid bb fr fin escaped :
  release_phase pid bb fr fin escaped →
  marks fin = [] ∧ omap flag_write fin = [].
Proof.
  unfold release_phase. destruct fr as [s|]; [|by intros [-> _]].
  destruct (truthy_string (id s)); [|by intros [-> _]].
  intros (r & -> & _). by destruct r as [?|[?|?]].
Qed.

Lemma release_phase_escape pid bb session fin escaped e :
  release_phase pid bb session fin escaped → escaped = Some e →
  ∃ k, e = TypeError_nullish k "message".
Proof.
  unfold release_phase. intros Hph ->. revert Hph.
  destruct session as [s|]; [|by intros [_ ?]].
  destruct (truthy_string (id s)); [|by intros [_ ?]].
  intros (r & _ & Hr). destruct r as [?|[?|k]]; simplify_eq/=. by exists k.
Qed.

Lemma omap_cons_None {A B} (f : A → option B) (x : A) (l : list A) :
  f x = None → omap f (x :: l) = omap f l.
Proof. intros Hx. simpl. by rewrite Hx. Qed.

Lemma verdict_phase_marks n r lines :
  verdict_phase n r lines →
  marks lines = match r with
                | Ok _ => [Ended true]
                | Err (Raised _) => [Ended false]
                | Err (RaisedNullish _) => []
                end ∧
  omap flag_write lines = [].
Proof.
  unfold verdict_phase. destruct r as [v|[e|k]].
  - intros (_ & line & -> & _ & _ & Hm). unfold marks.
    cbn [omap list_omap]. rewrite Hm.
    split; [done|]. by destruct line.
  - intros ->. unfold marks. cbn [omap list_omap]. by rewrite mark_error_line.
  - by intros ->.
Qed.

Section BatchFacts.
Context {W : Type} `{World W}.
Variable env : gmap string string.
Variable bb : Provider.

(** The boundaries of one run: it starts, and then it ends with its
    verdict, unless it rejects before; the run leaves the run lock and the
    job statistics alone. *)
Lemma runSession_marks n total dom fr (m : Machine W) :
  let o := exec (Helpers.runSession env n total bb dom) fr m in
  ∃ outcome,
    result o = completion outcome ∧
    marks (emitted o) = run_marks n total [outcome] ∧
    omap flag_write (emitted o) = [] ∧
    isJobRunning (machine o) = isJobRunning m ∧
    currentJobStats (machine o) = currentJobStats m ∧
    nullish_rejection outcome ∧
    (civil (emitted o) → ∃ ok, outcome = Returned ok).
Proof.
  intros o.
  pose proof (runSession_civil env n total bb dom fr m) as Hciv.
  cbv zeta in Hciv. fold o in Hciv.
  destruct (runSession_spec env n total bb dom fr m)
    as (pre & lines & fin & escaped & Hr & He & Hm & _ & Hfw & _ & Hv & Hph
        & Hfl & Hst).
  fold o in Hr, He, Hfl, Hst.
  set (body := exec (Helpers.runSession_try env n total bb dom) None m) in *.
  clearbody o body.
  pose proof (λ e, release_phase_escape _ _ _ _ _ e Hph) as Hesc.
  apply release_phase_silent in Hph as [Hfm Hff].
  pose proof (verdict_phase_marks _ _ _ Hv) as [Hvm Hvf].
  assert (emitted o =
          [EvSession None; start_line n total] ++ pre ++ lines ++ fin)
    as He' by done.
  assert (marks (emitted o) =
          Started (start_text n total)
            :: match result body with
               | Ok _ => [Ended true]
               | Err (Raised _) => [Ended false]
               | Err (RaisedNullish _) => []
               end) as Hmarks.
  { rewrite He'. unfold marks in *. rewrite !omap_app, Hm, Hfm, Hvm.
    cbn [omap list_omap app]. rewrite mark_start_line.
    by rewrite app_nil_r. }
  assert (omap flag_write (emitted o) = []) as Hflags.
  { rewrite He'. by rewrite !omap_app, Hfw, Hff, Hvf. }
  assert (∃ outcome,
            result o = completion outcome ∧
            from_option (λ ok, [Ended ok]) [] (verdict outcome)
            = match result body with
              | Ok _ => [Ended true]
              | Err (Raised _) => [Ended false]
              | Err (RaisedNullish _) => []
              end ∧
            nullish_rejection outcome ∧
            (civil (emitted o) → ∃ ok, outcome = Returned ok))
    as (outcome & Hres & Hverdict & Hnull & Hok).
  { destruct escaped as [e|]; cbn [from_option] in Hr.
    - exists (Rejected (match result body with
                        | Ok _ => Some true
                        | Err (Raised _) => Some false
                        | Err (RaisedNullish _) => None
                        end) e).
      split; [done|]. split; [by destruct (result body) as [?|[?|?]]|].
      split; [by apply (Hesc e)|].
      intros Hcivil. destruct (Hciv Hcivil) as (_ & _ & b & Hb). congruence.
    - unfold verdict_phase in Hv.
      destruct (result body) as [v|[e|k]] eqn:Hbody; cbn [caught] in Hr.
      + exists (Returned true). destruct Hv as [-> _].
        repeat split; try done. by exists true.
      + exists (Returned false). repeat split; try done. by exists false.
      + exists (Rejected None (TypeError_nullish k "message")).
        split; [done|]. split; [done|]. split; [by exists k|].
        intros Hcivil. destruct (Hciv Hcivil) as (_ & _ & b & Hb). congruence. }
  exists outcome. cbn [run_marks]. rewrite app_nil_r, Hverdict.
  by repeat split.
Qed.

Lemma iteration_spec i N results fr (m : Machine W) :
  let o := exec (Server.iteration env bb i N results) fr m in
  ∃ outcome,
    result o = Ok (results ++ results_of [outcome]) ∧
    marks (emitted o) = run_marks i N [outcome] ∧
    omap flag_write (emitted o) = [] ∧
    isJobRunning (machine o) = isJobRunning m ∧
    currentJobStats (machine o) = credit i outcome (currentJobStats m) ∧
    nullish_rejection outcome ∧
    (civil (emitted o) → ∃ ok, outcome = Returned ok).
Proof.
  intros o. subst o. unfold Server.iteration.
  rewrite exec_mbind, exec_try_catch, exec_mbind.
  destruct (runSession_marks i N (Server.BASE_DOMAIN env) fr m)
    as (outcome & Hr & Hm & Hfw & Hfl & Hst & Hnull & Hok).
  set (o := exec (Helpers.runSession _ _ _ _ _) fr m) in *. clearbody o.
  rewrite Hr. exists outcome.
  assert (∀ evs, civil (emitted o ++ evs) → ∃ ok, outcome = Returned ok)
    as Hok'.
  { intros evs Hc. apply civil_app in Hc as [Hc _]. auto. }
  destruct outcome as [[]|v e]; simpl; ask_world;
    (split; [by rewrite ?app_nil_r|]);
    unfold marks in *; rewrite !omap_app, ?Hm, ?Hfw, ?Hfl, ?Hst;
    repeat split; try done; try (by eexists);
    try (by simpl; rewrite !app_nil_r);
    try (intros Hc; rewrite <-app_assoc in Hc; by apply Hok' in Hc).
Qed.

Lemma session_loop_spec k i N results fr (m : Machine W) :
  let o := exec (Server.session_loop env bb k i N results) fr m in
  ∃ outcomes,
    length outcomes = k ∧
    result o = Ok (results ++ results_of outcomes) ∧
    marks (emitted o) = run_marks i N outcomes ∧
    omap flag_write (emitted o) = [] ∧
    isJobRunning (machine o) = isJobRunning m ∧
    currentJobStats (machine o) = credit_all i outcomes (currentJobStats m) ∧
    Forall nullish_rejection outcomes ∧
    (civil (emitted o) → ∃ oks, outcomes = Returned <$> oks).
Proof.
  revert i results fr m.
  induction k as [|k IH]; intros i results fr m.
  { exists []. simpl. rewrite app_nil_r. repeat split; try done. by exists []. }
  cbn [Server.session_loop]. rewrite exec_mbind.
  destruct (iteration_spec i N results fr m)
    as (outcome & Hr & Hm & Hfw & Hfl & Hst & Hnull & Hok).
  set (o := exec (Server.iteration env bb i N results) fr m) in *. clearbody o.
  rewrite Hr.
  destruct (IH (i + 1)%Z (results ++ results_of [outcome]) (frame o) (machine o))
    as (rest & Hlen & Hr' & Hm' & Hfw' & Hfl' & Hst' & Hnull' & Hok').
  set (o' := exec (Server.session_loop _ _ _ _ _ _) _ _) in *. clearbody o'.
  exists (outcome :: rest). cbn [emit emitted frame machine result length].
  unfold marks in *.
  rewrite Hr', !omap_app, Hm, Hm', Hfw, Hfw', Hfl', Hfl, Hst', Hst, Hlen.
  split; [done|]. split.
  { unfold results_of. cbn [omap list_omap]. rewrite <-app_assoc.
    by destruct (returned outcome). }
  split.
  { cbn [run_marks app]. by rewrite app_nil_r. }
  split; [done|]. split; [done|]. split; [done|]. split; [by constructor|].
  intros Hc. apply civil_app in Hc as [Hc Hc'].
  destruct (Hok Hc) as (ok & ->). destruct (Hok' Hc') as (oks & ->).
  by exists (ok :: oks).
Qed.

Lemma exec_SetFlag_then {A} b (f : unit → Prog A) fr (m : Machine W) :
  exec (SetFlag b (Ret tt) ≫= f) fr m =
  emit [EvFlag b] (exec (f tt) fr (set_flag m b)).
Proof. done. Qed.

Lemma exec_SetStats_then {A} s (f : unit → Prog A) fr (m : Machine W) :
  exec (SetStats s (Ret tt) ≫= f) fr m =
  emit [EvStats s] (exec (f tt) fr (set_stats m s)).
Proof. done. Qed.

Lemma exec_now_then {A} (f : string → Prog A) fr (m : Machine W) :
  exec (Date_now_ISO ≫= f) fr m =
  exec (f (clock (world m)).2) fr (set_world m (clock (world m)).1).
Proof. simpl. by destruct (clock (world m)). Qed.

Lemma exec_choose_count options fr (m : Machine W) :
  exec (Server.choose_count options) fr m =
  if truthy_opt truthy_number (Server.sessionCount options)
  then mkRun [] fr m (Ok (default 0%Z (Server.sessionCount options)))
  else mkRun [] fr (set_world m (draw (world m)).1)
         (Ok (drawn_count (draw (world m)).2)).
Proof.
  unfold Server.choose_count.
  destruct (truthy_opt _ _); [done|].
  simpl. by destruct (draw (world m)).
Qed.

Lemma mark_count_line (N : Z) :
  mark (EvLog LOG ("Starting " +:+ pretty N +:+ " random sessions...")) = None.
Proof. unfold mark. by rewrite not_start_text. Qed.

Lemma batch_try_spec type options fr (m : Machine W) :
  let o := exec (Server.batch_try env bb type options) fr m in
  let N := effective_count options (draw (world m)).2 in
  ∃ outcomes rest started,
    length outcomes = Z.to_nat N ∧
    result o = Ok true ∧
    emitted o = EvFlag true
                  :: rest ++ [summary_line
                                (Server.successCount (results_of outcomes)) N] ∧
    omap flag_write rest = [] ∧
    marks rest = run_marks 1 N outcomes ∧
    isJobRunning (machine o) = true ∧
    currentJobStats (machine o) =
      credit_all 1 outcomes (mkJobStats (Some started) 0 N []) ∧
    Forall nullish_rejection outcomes ∧
    (civil rest → ∃ oks, outcomes = Returned <$> oks).
Proof.
  intros o N. subst o. unfold Server.batch_try.
  rewrite exec_SetFlag_then, exec_mbind, exec_choose_count.
  assert (∃ m1 : Machine W,
            (if truthy_opt truthy_number (Server.sessionCount options)
             then mkRun [] fr (set_flag m true)
                    (Ok (default 0%Z (Server.sessionCount options)))
             else mkRun [] fr
                    (set_world (set_flag m true) (draw (world (set_flag m true))).1)
                    (Ok (drawn_count (draw (world (set_flag m true))).2)))
            = mkRun [] fr m1 (Ok N) ∧ isJobRunning m1 = true) as (m1 & -> & Hm1).
  { subst N. unfold effective_count.
    destruct (truthy_opt _ _); by eexists. }
  clearbody N. cbn [result emitted frame machine].
  rewrite exec_now_then, exec_SetStats_then, exec_now_then, !exec_log_then.
  rewrite exec_mbind.
  match goal with
  | |- context [exec (Server.session_loop env bb ?k ?i ?n ?r) ?f ?m'] =>
      destruct (session_loop_spec k i n r f m')
        as (outcomes & Hlen & Hr & Hm & Hfw & Hfl & Hst & Hnull & Hok);
      set (o := exec (Server.session_loop env bb k i n r) f m') in *;
      clearbody o
  end.
  rewrite Hr. cbv beta iota. rewrite exec_log_then.
  cbn [exec mret prog_ret emit emitted frame machine result app].
  cbn [set_world set_stats set_flag isJobRunning currentJobStats world]
    in Hfl, Hst.
  eexists outcomes, (_ :: _ :: _ :: emitted o), _. rewrite Hfl, Hst.
  split; [exact Hlen|]. split; [reflexivity|]. split; [reflexivity|].
  split; [exact Hfw|]. split; [|split; [done|split; [done|split; [done|]]]].
  - unfold marks.
    rewrite (omap_cons_None mark) by done.
    rewrite (omap_cons_None mark) by done.
    rewrite (omap_cons_None mark) by apply mark_count_line.
    exact Hm.
  - intros Hc. do 3 apply civil_cons in Hc as [_ Hc]. auto.
Qed.

(** Whatever the [try] block of the batch runner does, the [finally] block
    clears the run lock. *)
Lemma batch_finally_clears (body : Prog bool) fr (m : Machine W) :
  let o := exec (try_catch_finally body Server.batch_catch Server.batch_finally)
             fr m in
  isJobRunning (machine o) = false ∧
  last (emitted o) = Some (EvFlag false).
Proof.
  intros o. subst o. unfold try_catch_finally.
  rewrite exec_try_finally. cbv zeta.
  set (t := exec (try_catch body Server.batch_catch) fr m). clearbody t.
  simpl. by rewrite last_snoc.
Qed.

(** A batch that starts. *)
Lemma runScheduledSessions_idle type options fr (m : Machine W) :
  isJobRunning m = false →
  let o := exec (Server.runScheduledSessions env bb type options) fr m in
  let N := effective_count options (draw (world m)).2 in
  ∃ outcomes rest started,
    length outcomes = Z.to_nat N ∧
    result o = Ok true ∧
    emitted o = EvFlag true
                  :: rest ++ [summary_line
                                (Server.successCount (results_of outcomes)) N;
                              EvFlag false] ∧
    omap flag_write rest = [] ∧
    marks rest = run_marks 1 N outcomes ∧
    isJobRunning (machine o) = false ∧
    currentJobStats (machine o) =
      credit_all 1 outcomes (mkJobStats (Some started) 0 N []) ∧
    Forall nullish_rejection outcomes ∧
    (civil (emitted o) → ∃ oks, outcomes = Returned <$> oks).
Proof.
  intros Hidle o N. subst o. unfold Server.runScheduledSessions.
  cbn [exec]. rewrite Hidle. unfold try_catch_finally.
  rewrite exec_try_finally, exec_try_catch. cbv zeta.
  destruct (batch_try_spec type options fr m)
    as (outcomes & rest & started & Hlen & Hr & He & Hfw & Hm & Hfl & Hst
        & Hnull & Hok).
  fold N in Hlen, He, Hm, Hst. clearbody N.
  set (t := exec (Server.batch_try env bb type options) fr m) in *. clearbody t.
  rewrite Hr. exists outcomes, rest, started. simpl.
  rewrite He, Hst. repeat split; try done.
  - simpl. by rewrite <-app_assoc.
  - intros Hc. apply Hok. apply civil_app in Hc as [Hc _].
    apply civil_cons in Hc as [_ Hc].
    by apply civil_app in Hc as [Hc _].
Qed.

(** A batch that is refused. *)
Lemma runScheduledSessions_busy type options fr (m : Machine W) :
  isJobRunning m = true →
  exec (Server.runScheduledSessions env bb type options) fr m =
  mkRun [EvLog LOG "Another job is already running. Skipping this execution."]
    fr m (Ok false).
Proof.
  intros Hbusy. unfold Server.runScheduledSessions. cbn [exec].
  by rewrite Hbusy.
Qed.

End BatchFacts.

Lemma results_of_length (outcomes : list Outcome) :
  length (results_of outcomes) ≤ length outcomes.
Proof.
  unfold results_of. induction outcomes as [|outcome outcomes IH]; [done|].
  cbn [omap list_omap]. destruct (returned outcome); simpl; lia.
Qed.

Lemma results_of_returned (oks : list bool) :
  results_of (Returned <$> oks) = oks.
Proof.
  unfold results_of. induction oks as [|ok oks IH]; [done|].
  cbn [fmap list_fmap omap list_omap returned]. by f_equal.
Qed.

Lemma successCount_range (results : list bool) :
  (0 ≤ Server.successCount results ≤ Z.of_nat (length results))%Z.
Proof.
  unfold Server.successCount.
  pose proof (List.filter_length_le (λ r : bool, r) results). lia.
Qed.

Lemma successCount_outcomes (outcomes : list Outcome) :
  (0 ≤ Server.successCount (results_of outcomes) ≤ Z.of_nat (length outcomes))%Z.
Proof.
  pose proof (successCount_range (results_of outcomes)).
  pose proof (results_of_length outcomes). lia.
Qed.

Lemma successCount_cons (ok : bool) (results : list bool) :
  Server.successCount (ok :: results)
  = ((if ok then 1 else 0) + Server.successCount results)%Z.
Proof. unfold Server.successCount. destruct ok; simpl; lia. Qed.

Lemma credit_all_fields (i : Z) (outcomes : list Outcome) (s : JobStats) :
  startTime (credit_all i outcomes s) = startTime s ∧
  completedSessions (credit_all i outcomes s) =
    (completedSessions s + Server.successCount (results_of outcomes))%Z ∧
  totalSessions (credit_all i outcomes s) = totalSessions s ∧
  errors (credit_all i outcomes s) = errors s ++ rejections i outcomes.
Proof.
  revert i s.
  induction outcomes as [|outcome outcomes IH]; intros i s.
  { simpl. rewrite app_nil_r. unfold Server.successCount. simpl.
    repeat split; lia. }
  cbn [credit_all rejections].
  destruct (IH (i + 1)%Z (credit i outcome s)) as (-> & -> & -> & ->).
  unfold results_of in *.
  destruct outcome as [[]|v e]; cbn [credit omap list_omap returned startTime
    completedSessions totalSessions errors app];
    rewrite ?successCount_cons, <-?app_assoc; repeat split; try done; lia.
Qed.

Lemma drawn_count_range (z : Z) : (23 ≤ drawn_count z ≤ 52)%Z.
Proof.
  unfold drawn_count.
  pose proof (scaled_range (unit_interval z) (52 - 23 + 1)
                (unit_interval_range z)
                ltac:(unfold Helpers.RANDOM_DENOM; lia)).
  lia.
Qed.

(** Each count [k] is drawn when the random number lies in the [k - 23]-th
    of thirty intervals of equal width, up to the rounding of the product:
    the ends of the interval are off by 16 units of [2^-53] at most, which
    is less than the distance between two random numbers. *)
Lemma drawn_count_uniform (z k : Z) :
  (drawn_count z = k →
   ((k - 23) * Helpers.RANDOM_DENOM - 16 ≤ 30 * unit_interval z
    < (k - 22) * Helpers.RANDOM_DENOM + 16)%Z) ∧
  (((k - 23) * Helpers.RANDOM_DENOM + 16 ≤ 30 * unit_interval z
    < (k - 22) * Helpers.RANDOM_DENOM - 16)%Z →
   drawn_count z = k).
Proof.
  unfold drawn_count.
  pose proof (unit_interval_range z) as Hr.
  set (r := unit_interval z) in *. clearbody r.
  unfold Helpers.RANDOM_DENOM in *.
  replace (52 - 23 + 1)%Z with 30%Z by lia.
  pose proof (round53_near (r * 30) 4 ltac:(lia) ltac:(lia)) as Hnear.
  change (2 ^ 4)%Z with 16%Z in Hnear.
  set (y := round53 (r * 30)) in *. clearbody y.
  pose proof (Z.div_mod y (2 ^ 53) ltac:(lia)) as Hdm.
  pose proof (Z.mod_pos_bound y (2 ^ 53) ltac:(lia)) as Hmod.
  split; intros Hk.
  - subst k. lia.
  - assert (y / 2 ^ 53 = k - 23)%Z; [|lia].
    symmetry. apply (Z.div_unique _ _ _ (y - (k - 23) * 2 ^ 53)); lia.
Qed.

Lemma marks_batch (rest : list Event) (succeeded N : Z) :
  marks (EvFlag true :: rest ++ [summary_line succeeded N; EvFlag false])
  = marks rest.
Proof.
  unfold marks. rewrite (omap_cons_None mark) by done.
  rewrite omap_app.
  rewrite (omap_cons_None mark) by done.
  rewrite (omap_cons_None mark) by done.
  simpl. by rewrite app_nil_r.
Qed.

(** C5 (amended). For every configured run count [n >= 1], a batch that
    starts performs exactly [n] run attempts, numbered [1..n], each one
    over before the next one starts; the success count it reports, which
    is the number of runs that returned [true] and also the completed
    count of the job statistics, is at most [n]. When no count is given,
    the count is [Math.floor(Math.random() * 30) + 23]: an integer of
    [23..52], each drawn for an interval of the random number of width
    [1/30], up to the rounding of the product in binary64 (16 units of
    [2^-53] at either end of the interval). *)
Theorem batch_runs_configured_count_in_turn
    {W : Type} `{World W} env bb type options fr (m : Machine W) :
  isJobRunning m = false →
  let o := exec (Server.runScheduledSessions env bb type options) fr m in
  (∀ n, Server.sessionCount options = Some n → (1 ≤ n)%Z →
     ∃ outcomes,
       Z.of_nat (length outcomes) = n ∧
       marks (emitted o) = run_marks 1 n outcomes ∧
       (Server.successCount (results_of outcomes) ≤ n)%Z ∧
       summary_line (Server.successCount (results_of outcomes)) n ∈ emitted o ∧
       completedSessions (currentJobStats (machine o)) =
         Server.successCount (results_of outcomes)) ∧
  (Server.sessionCount options = None →
     ∃ n outcomes,
       n = drawn_count (draw (world m)).2 ∧ (23 ≤ n ≤ 52)%Z ∧
       (∀ k,
          (n = k →
           ((k - 23) * Helpers.RANDOM_DENOM - 16
            ≤ 30 * unit_interval (draw (world m)).2
            < (k - 22) * Helpers.RANDOM_DENOM + 16)%Z) ∧
          (((k - 23) * Helpers.RANDOM_DENOM + 16
            ≤ 30 * unit_interval (draw (world m)).2
            < (k - 22) * Helpers.RANDOM_DENOM - 16)%Z →
           n = k)) ∧
       Z.of_nat (length outcomes) = n ∧
       marks (emitted o) = run_marks 1 n outcomes ∧
       (Server.successCount (results_of outcomes) ≤ n)%Z).
Proof.
  intros Hidle o.
  destruct (runScheduledSessions_idle env bb type options fr m Hidle)
    as (outcomes & rest & started & Hlen & Hr & He & Hfw & Hm & Hfl & Hst & _).
  fold o in Hr, He, Hfl, Hst.
  pose proof (successCount_outcomes outcomes) as Hsc.
  destruct (credit_all_fields 1 outcomes
              (mkJobStats (Some started) 0
                 (effective_count options (draw (world m)).2) []))
    as (_ & Hcompleted & _ & _).
  split.
  - intros n Hn Hpos.
    assert (effective_count options (draw (world m)).2 = n) as HN.
    { unfold effective_count. rewrite Hn. simpl.
      unfold truthy_number. by destruct (Z.eqb_spec n 0); [lia|]. }
    rewrite HN in *. exists outcomes.
    rewrite He, marks_batch, Hst, Hcompleted.
    repeat split; try done; try lia; try (simpl; lia).
    apply elem_of_cons; right. apply elem_of_app; right.
    apply elem_of_cons; by left.
  - intros Hnone.
    assert (effective_count options (draw (world m)).2
            = drawn_count (draw (world m)).2) as HN.
    { unfold effective_count. by rewrite Hnone. }
    rewrite HN in *.
    pose proof (drawn_count_range (draw (world m)).2).
    exists (drawn_count (draw (world m)).2), outcomes.
    rewrite He, marks_batch.
    split; [done|]. split; [lia|].
    split; [intros k; apply drawn_count_uniform|].
    split; [lia|]. split; [done|lia].
Qed.

(** A batch of two runs against an environment in which every call fails:
    two attempts in turn, none successful. *)
Lemma batch_runs_configured_count_in_turn_witness :
  let o := @exec nat Worlds.hostile bool
             (Server.runScheduledSessions ∅ (ProviderH 0) "on-demand"
                (Server.mkOptions (Some 2%Z) None))
             None Worlds.idle in
  isJobRunning Worlds.idle = false ∧ (1 ≤ 2)%Z ∧
  ∃ outcomes,
    Z.of_nat (length outcomes) = 2%Z ∧
    marks (emitted o) = run_marks 1 2 outcomes ∧
    (Server.successCount (results_of outcomes) ≤ 2)%Z ∧
    summary_line (Server.successCount (results_of outcomes)) 2 ∈ emitted o ∧
    completedSessions (currentJobStats (machine o)) =
      Server.successCount (results_of outcomes).
Proof.
  split; [reflexivity|]. split; [lia|].
  exact (proj1 (@batch_runs_configured_count_in_turn nat Worlds.hostile ∅
                  (ProviderH 0) "on-demand" (Server.mkOptions (Some 2%Z) None)
                  None Worlds.idle eq_refl)
           2%Z eq_refl ltac:(lia)).
Defined.

(** A configured count of [0]: the batch performs 23 run attempts. *)
Lemma configured_zero_runs_counterexample :
  let o := @exec nat Worlds.hostile bool
             (Server.runScheduledSessions ∅ (ProviderH 0) "on-demand"
                (Server.mkOptions (Some 0%Z) None))
             None Worlds.idle in
  marks (emitted o) = run_marks 1 23 (replicate 23 (Returned false)) ∧
  ¬ ∃ outcomes, Z.of_nat (length outcomes) = 0%Z ∧
                marks (emitted o) = run_marks 1 0 outcomes.
Proof.
  assert (marks (emitted (@exec nat Worlds.hostile bool
             (Server.runScheduledSessions ∅ (ProviderH 0) "on-demand"
                (Server.mkOptions (Some 0%Z) None))
             None Worlds.idle)) = run_marks 1 23 (replicate 23 (Returned false)))
    as Hrun by (vm_compute; reflexivity).
  split; [exact Hrun|].
  intros (outcomes & Hlen & Hm). cbv zeta in Hm. rewrite Hrun in Hm.
  destruct outcomes; [discriminate Hm|simpl in Hlen; lia].
Qed.

(** The draw at which the rounded product is the next integer: the batch
    performs 40 runs where the floor of the exact product would give 39;
    and the draws at the ends of the range. *)
Example drawn_count_at_boundary :
  drawn_count 5104079577686562 = 40%Z ∧
  (5104079577686562 * 30 / 2 ^ 53 + 23 = 39)%Z ∧
  drawn_count 0 = 23%Z ∧ drawn_count (2 ^ 53 - 1) = 52%Z.
Proof. by vm_compute. Qed.

(** C4 (amended). A batch that starts returns [true] whatever its runs
    return; if its [try] block throws an error, the [catch] block logs it,
    records it under ['global'] and the batch returns [false]. A refused
    invocation logs that it is skipped and returns [false] as well: it is
    told apart from a failed batch by its log line and by what it leaves
    alone (no error record, job statistics and run lock untouched), not by
    the value it returns. If what the [try] block throws is [null] or
    [undefined], the [catch] block logs it and throws in turn, where it
    reads [.message]: the batch rejects, with the run lock released and no
    record added. *)
Theorem batch_result_and_refusal
    {W : Type} `{World W} env bb type options fr (m : Machine W) :
  let o := exec (Server.runScheduledSessions env bb type options) fr m in
  (isJobRunning m = false → result o = Ok true) ∧
  (∀ (body : Prog bool) (e : Error),
     result (exec body fr m) = Err (Raised e) →
     let f := exec (try_catch_finally body Server.batch_catch
                      Server.batch_finally) fr m in
     result f = Ok false ∧
     EvLog ERROR ("Error in scheduled job: " +:+ message e) ∈ emitted f ∧
     mkErrorRecord GlobalRef (message e) ∈ errors (currentJobStats (machine f))) ∧
  (isJobRunning m = true →
     o = mkRun
           [EvLog LOG "Another job is already running. Skipping this execution."]
           fr m (Ok false)) ∧
  (∀ (body : Prog bool) (k : Nullish),
     result (exec body fr m) = Err (RaisedNullish k) →
     let f := exec (try_catch_finally body Server.batch_catch
                      Server.batch_finally) fr m in
     result f = Err (Raised (TypeError_nullish k "message")) ∧
     EvLog ERROR ("Error in scheduled job: " +:+ nullish_text k) ∈ emitted f ∧
     isJobRunning (machine f) = false ∧
     currentJobStats (machine f) = currentJobStats (machine (exec body fr m))).
Proof.
  intros o. split; [|split; [|split]].
  - intros Hidle.
    by destruct (runScheduledSessions_idle env bb type options fr m Hidle)
      as (? & ? & ? & _ & Hr & _).
  - intros body e He f. subst f. unfold try_catch_finally.
    rewrite exec_try_finally, exec_try_catch. cbv zeta.
    set (t := exec body fr m) in *. clearbody t. rewrite He. simpl.
    split; [done|]. split.
    + apply elem_of_app; left. apply elem_of_app; right.
      apply elem_of_cons; by left.
    + apply elem_of_app; right. apply elem_of_cons; by left.
  - intros Hbusy. by apply runScheduledSessions_busy.
  - intros body k Hk f. subst f. unfold try_catch_finally.
    rewrite exec_try_finally, exec_try_catch. cbv zeta.
    set (t := exec body fr m) in *. clearbody t. rewrite Hk. simpl.
    split; [done|]. split; [|done].
    apply elem_of_app; left. apply elem_of_app; right.
    apply elem_of_cons; by left.
Qed.

(** An idle server starts a batch of one run in a hostile environment: the
    run fails and the batch returns [true]. *)
Lemma batch_result_and_refusal_witness :
  isJobRunning Worlds.idle = false ∧
  result (@exec nat Worlds.hostile bool
            (Server.runScheduledSessions ∅ (ProviderH 0) "on-demand"
               (Server.mkOptions (Some 1%Z) None))
            None Worlds.idle) = Ok true.
Proof.
  split; [reflexivity|].
  exact (proj1 (@batch_result_and_refusal nat Worlds.hostile ∅ (ProviderH 0)
                  "on-demand" (Server.mkOptions (Some 1%Z) None) None
                  Worlds.idle) eq_refl).
Defined.

(** The value returned by a refused invocation is the value that the
    [catch] block returns for a batch whose [try] block has thrown. *)
Lemma refusal_returns_the_failure_value :
  result (@exec nat Worlds.cooperative bool
            (Server.runScheduledSessions ∅ (ProviderH 0) "Sunday-Wednesday"
               Server.no_options)
            None Worlds.busy)
  = result (@exec nat Worlds.cooperative bool
              (try_catch_finally (Throw (Raised (mkError "out of memory")))
                 Server.batch_catch Server.batch_finally)
              None Worlds.idle).
Proof. reflexivity. Qed.

(** ** The run lock *)

Lemma runSession_leaves_lock env n total bb dom :
  Emits leaves_lock (Helpers.runSession env n total bb dom).
Proof.
  unfold Helpers.runSession, try_catch_finally.
  constructor; [done|].
  apply Emits_try_finally; [apply Emits_try_catch|].
  - unfold Helpers.runSession_try, Helpers.journey, Helpers.acquire.
    emits. intros created.
    eapply Emits_impl; [|eapply Closing_Emits, drive_closing].
    intros ev [(_ & _ & _ & Hk)|(_ & _ & Hm)]; by destruct ev.
  - intros e. unfold Helpers.runSession_catch. emits.
  - unfold Helpers.runSession_finally. emits.
Qed.

Lemma iteration_leaves_lock env bb i N results :
  Emits leaves_lock (Server.iteration env bb i N results).
Proof.
  unfold Server.iteration, Server.increment_completed, Server.push_error.
  apply Emits_mbind; [apply Emits_try_catch|].
  - apply Emits_mbind; [apply runSession_leaves_lock|]. emits.
  - emits.
  - emits.
Qed.

Lemma session_loop_leaves_lock env bb k i N results :
  Emits leaves_lock (Server.session_loop env bb k i N results).
Proof.
  revert i results. induction k as [|k IH]; intros i results.
  - constructor.
  - cbn [Server.session_loop].
    apply Emits_mbind; [apply iteration_leaves_lock|]. intros. apply IH.
Qed.

Lemma Holding_unfinished {A} (p : Prog A) : Holding p → finished p = false.
Proof. by destruct 1. Qed.

(** [try { p } finally { isJobRunning = false }] holds the lock as long as
    [p] leaves it alone. *)
Lemma Holding_try_finally {A} (p : Prog A) :
  Emits leaves_lock p → Holding (try_finally p Server.batch_finally).
Proof.
  induction 1; simpl; try (by constructor); try done.
Qed.

Section LockFacts.
Context {W : Type} `{World W}.

Lemma Holding_sync_run {A} (p : Prog A) fr (m : Machine W) :
  Holding p → isJobRunning m = true →
  let t := sync_run p fr m in
  (finished (task_code t) = true ∧ isJobRunning (task_machine t) = false) ∨
  (Holding (task_code t) ∧ isJobRunning (task_machine t) = true).
Proof.
  intros Hp. revert fr m.
  induction Hp as [k Hk|T c k Hk IH|T c k Hk IH|ms k Hk IH|k Hk IH|k Hk IH
                  |l s k Hk IH|k Hk IH|k Hk IH|s k Hk IH|k Hk IH|s k Hk IH];
    intros fr m Hm; simpl; ask_world.
  - left. by destruct k.
  - right. split; [by constructor|done].
  - by apply IH.
  - right. split; [by constructor|done].
  - by apply IH.
  - by apply IH.
  - by apply IH.
  - by apply IH.
  - by apply IH.
  - by apply IH.
  - by apply IH.
  - by apply IH.
Qed.

Lemma Holding_resume {A} (p : Prog A) fr (m : Machine W) :
  Holding p → isJobRunning m = true →
  let t := resume p fr m in
  (finished (task_code t) = true ∧ isJobRunning (task_machine t) = false) ∨
  (Holding (task_code t) ∧ isJobRunning (task_machine t) = true).
Proof.
  intros Hp Hm.
  destruct Hp; simpl; ask_world;
    try (right; split; [by constructor|done]).
  - by apply Holding_sync_run.
  - by apply Holding_sync_run.
Qed.

Lemma resume_finished {A} (p : Prog A) fr (m : Machine W) :
  finished p = true → resume p fr m = mkTask [] fr m p.
Proof. by destruct p. Qed.

End LockFacts.

(** Past the check of the lock, the batch runner takes the lock at once
    and holds it. *)
Lemma batch_holding env bb type options :
  ∃ rest,
    try_catch_finally (Server.batch_try env bb type options)
      Server.batch_catch Server.batch_finally = SetFlag true rest ∧
    Holding rest.
Proof.
  eexists. split; [reflexivity|].
  apply Holding_try_finally, Emits_try_catch.
  - cbn [bind]. unfold Server.choose_count. emits.
    apply session_loop_leaves_lock.
  - intros e. unfold Server.batch_catch, Server.push_error. emits.
Qed.

Lemma lookup_around {A} (before after : list A) (h b : A) (i : nat) :
  (before ++ h :: after) !! i = Some b → i ≠ length before →
  b ∈ before ∨ b ∈ after.
Proof.
  intros Hl Hne. apply lookup_app_Some in Hl as [Hl|[Hge Hl]].
  - left. by eapply list_elem_of_lookup_2.
  - destruct (i - length before)%nat eqn:E; [lia|]. simpl in Hl.
    right. by eapply list_elem_of_lookup_2.
Qed.

Section ProcessFacts.
Context {W : Type} `{World W}.
Variable env : gmap string string.
Variable bb : Provider.

(** Starting a batch on a process that respects the lock. *)
Lemma start_single_flight type options (P : Server.Process W) :
  single_flight P →
  single_flight (Server.start (Server.runScheduledSessions env bb type options) P).
Proof.
  intros HP. unfold Server.start.
  destruct (isJobRunning (Server.globals P)) eqn:Hflag.
  - (* refused *)
    destruct HP as [[Hfree _]|(_ & before & fr & p & after & Hb & Hp & Hbe & Haf)];
      [congruence|].
    unfold Server.runScheduledSessions. cbn [sync_run]. rewrite Hflag.
    right. split; [done|]. exists before, fr, p, (after ++ [(None, Ret false)]).
    simpl. rewrite Hb, <-app_assoc. repeat split; try done.
    apply Forall_app. split; [done|]. by repeat constructor.
  - (* started *)
    destruct HP as [[_ Hall]|[Hbusy _]]; [|congruence].
    unfold Server.runScheduledSessions. cbn [sync_run]. rewrite Hflag.
    destruct (batch_holding env bb type options) as (rest & -> & Hrest).
    cbn [sync_run].
    destruct (Holding_sync_run rest None (set_flag (Server.globals P) true)
                Hrest eq_refl) as [[Hfin Hfl]|[Hhold Hfl]].
    + left. split; [done|]. apply Forall_app. split; [done|].
      by repeat constructor.
    + right. split; [done|].
      eexists (Server.batches P), _, _, []. by repeat split.
Qed.

(** The awaited call of a batch settles, on a process that respects the
    lock. *)
Lemma settle_single_flight i (P : Server.Process W) :
  single_flight P → single_flight (Server.settle_batch i P).
Proof.
  intros HP. unfold Server.settle_batch.
  destruct (Server.batches P !! i) as [[fr p]|] eqn:Hi; [|done].
  assert (finished p = true →
          single_flight
            (Server.mkProcess (task_machine (resume p fr (Server.globals P)))
               (<[i:=(task_frame (resume p fr (Server.globals P)),
                      task_code (resume p fr (Server.globals P)))]>
                  (Server.batches P)))) as Hnoop.
  { intros Hfin. rewrite resume_finished by done. simpl.
    rewrite list_insert_id by done. by destruct P. }
  destruct HP as [[Hfree Hall]|(Hbusy & before & fr0 & p0 & after & Hb & Hp & Hbe & Haf)].
  - apply Hnoop.
    rewrite Forall_forall in Hall. apply (Hall (fr, p)).
    by eapply list_elem_of_lookup_2.
  - destruct (decide (i = length before)) as [->|Hne].
    + rewrite Hb, list_lookup_middle in Hi by done.
      injection Hi as <- <-.
      rewrite Hb, insert_app_r_alt, Nat.sub_diag by done. simpl.
      destruct (Holding_resume p0 fr0 (Server.globals P) Hp Hbusy)
        as [[Hfin Hfl]|[Hhold Hfl]].
      * left. split; [done|]. apply Forall_app. split; [done|].
        by constructor.
      * right. split; [done|]. by eexists before, _, _, after.
    + apply Hnoop. rewrite Hb in Hi.
      destruct (lookup_around _ _ _ _ _ Hi Hne) as [Hin|Hin].
      * rewrite Forall_forall in Hbe. by apply (Hbe (fr, p)).
      * rewrite Forall_forall in Haf. by apply (Haf (fr, p)).
Qed.

Lemma react_single_flight (P : Server.Process W) (i : Server.Input) :
  single_flight P → single_flight (Server.react env bb P i).
Proof.
  intros HP. destruct i as [req|req|type options|i]; simpl.
  - unfold Server.get_status. by destruct (Server.apiKeyAuth env req).
  - unfold Server.post_trigger_sessions.
    destruct (Server.apiKeyAuth env req); [|done].
    destruct (isJobRunning (Server.globals P)) eqn:Hflag; [done|].
    by apply start_single_flight.
  - by apply start_single_flight.
  - by apply settle_single_flight.
Qed.

Lemma run_process_single_flight (P : Server.Process W) inputs :
  single_flight P → single_flight (Server.run_process env bb P inputs).
Proof.
  revert P. induction inputs as [|i inputs IH]; intros P HP; [done|].
  simpl. apply IH. by apply react_single_flight.
Qed.

Lemma single_flight_executing (P : Server.Process W) :
  single_flight P →
  (isJobRunning (Server.globals P) = false ∧ Server.executing P = []) ∨
  (isJobRunning (Server.globals P) = true ∧
   ∃ fr p, Server.executing P = [(fr, p)] ∧ Holding p).
Proof.
  assert (∀ l : list (Frame * Prog bool),
            Forall settled l →
            List.filter (λ b, negb (finished b.2)) l = []) as Hnone.
  { induction 1 as [|b l Hb _ IH]; [done|]. simpl.
    unfold settled in Hb. by rewrite Hb. }
  unfold Server.executing.
  intros [[Hfree Hall]|(Hbusy & before & fr & p & after & Hb & Hp & Hbe & Haf)].
  - left. split; [done|]. by apply Hnone.
  - right. split; [done|]. exists fr, p. split; [|done].
    rewrite Hb, List.filter_app. simpl.
    rewrite (Holding_unfinished p Hp). simpl.
    by rewrite !Hnone.
Qed.

End ProcessFacts.

(** C3. The run lock admits one batch at a time. However requests,
    invocations of the batch runner and completions of awaited calls
    interleave after the server has booted, at most one batch is executing,
    and the lock is set exactly when one is. A batch that starts sets the
    lock first, before anything of its runs, writes it nowhere else, and
    clears it last, whatever the runs do; the [finally] block clears it also
    when the [try] block throws. An invocation that finds the lock set
    returns [false] and leaves the lock, and everything else, as it was. *)
Theorem run_lock_single_flight {W : Type} `{World W} env bb :
  (∀ w inputs,
     let P := Server.run_process env bb (Server.boot w) inputs in
     length (Server.executing P) ≤ 1 ∧
     (isJobRunning (Server.globals P) = true ↔
      length (Server.executing P) = 1)) ∧
  (∀ type options fr (m : Machine W),
     isJobRunning m = false →
     let o := exec (Server.runScheduledSessions env bb type options) fr m in
     ∃ rest,
       emitted o = EvFlag true :: rest ++ [EvFlag false] ∧
       omap flag_write rest = [] ∧
       marks rest = marks (emitted o) ∧
       isJobRunning (machine o) = false) ∧
  (∀ (body : Prog bool) fr (m : Machine W),
     let o := exec (try_catch_finally body Server.batch_catch
                      Server.batch_finally) fr m in
     isJobRunning (machine o) = false ∧
     last (emitted o) = Some (EvFlag false)) ∧
  (∀ type options fr (m : Machine W),
     isJobRunning m = true →
     let o := exec (Server.runScheduledSessions env bb type options) fr m in
     result o = Ok false ∧ machine o = m ∧ omap flag_write (emitted o) = []).
Proof.
  split; [|split; [|split]].
  - intros w inputs P.
    assert (single_flight (Server.boot w)) as Hboot.
    { left. by split. }
    apply (run_process_single_flight env bb _ inputs) in Hboot.
    apply single_flight_executing in Hboot.
    fold P in Hboot.
    destruct Hboot as [[Hfl ->]|(Hfl & fr & p & -> & _)]; rewrite Hfl; simpl.
    + split; [lia|]. split; [done|lia].
    + split; [lia|]. done.
  - intros type options fr m Hidle o.
    destruct (runScheduledSessions_idle env bb type options fr m Hidle)
      as (outcomes & rest & started & _ & _ & He & Hfw & Hm & Hfl & _).
    fold o in He, Hfl.
    exists (rest ++ [summary_line (Server.successCount (results_of outcomes))
                       (effective_count options (draw (world m)).2)]).
    rewrite He, marks_batch. unfold marks. rewrite !omap_app, Hfw.
    repeat split; try done.
    + by rewrite <-app_assoc.
    + simpl. by rewrite app_nil_r.
  - intros body fr m o.
    by destruct (batch_finally_clears body fr m) as (? & ?).
  - intros type options fr m Hbusy o. subst o.
    by rewrite runScheduledSessions_busy.
Qed.

(** An idle server in a hostile environment runs a batch of one: the lock
    is set first and cleared last. *)
Lemma run_lock_single_flight_witness :
  let o := @exec nat Worlds.hostile bool
             (Server.runScheduledSessions ∅ (ProviderH 0) "on-demand"
                (Server.mkOptions (Some 1%Z) None))
             None Worlds.idle in
  isJobRunning Worlds.idle = false ∧
  ∃ rest,
    emitted o = EvFlag true :: rest ++ [EvFlag false] ∧
    omap flag_write rest = [] ∧
    marks rest = marks (emitted o) ∧
    isJobRunning (machine o) = false.
Proof.
  split; [reflexivity|].
  exact (proj1 (proj2 (@run_lock_single_flight nat Worlds.hostile ∅
                         (ProviderH 0)))
           "on-demand" (Server.mkOptions (Some 1%Z) None) None Worlds.idle
           eq_refl).
Defined.

(** ** The HTTP handlers *)

Section HandlerFacts.
Context {W : Type} `{World W}.

(** Running to completion is running up to the first [await] and then
    running the rest to completion. *)
Lemma exec_sync_run {A} (p : Prog A) fr (m : Machine W) :
  exec p fr m =
  emit (task_events (sync_run p fr m))
    (exec (task_code (sync_run p fr m)) (task_frame (sync_run p fr m))
       (task_machine (sync_run p fr m))).
Proof.
  revert fr m.
  induction p as [a|e|T c k IH|T c k IH|ms k IH|k IH|k IH|l s k IH|k IH
                 |b k IH|k IH|s k IH|k IH|s k IH]; intros fr m; simpl;
    ask_world; rewrite ?IH, ?emit_emit; try done.
  all: by rewrite ?emit_nil.
Qed.

(** A batch started on a process without pending batches, then run to
    completion, leaves the globals that its uninterrupted run leaves. *)
Lemma drain_start (p : Prog bool) (m : Machine W) :
  Server.globals (Server.drain (Server.start p (Server.mkProcess m [])))
  = machine (exec p None m).
Proof.
  unfold Server.drain, Server.start. simpl.
  by rewrite (exec_sync_run p None m).
Qed.

End HandlerFacts.

(** C8. With a valid API key and the run lock set, [POST /trigger-sessions]
    answers 409 with the current job statistics in [currentJob], and leaves
    the process as it was: the job statistics, the run lock and the pending
    batches are unchanged and no batch is started. *)
Theorem trigger_while_running_conflicts
    {W : Type} `{World W} env bb req (P : Server.Process W) :
  Server.apiKeyAuth env req = true →
  isJobRunning (Server.globals P) = true →
  Server.post_trigger_sessions env bb req P =
  (P, Server.mkResponse 409
        (Server.ConflictBody "error" "Another job is already running"
           (currentJobStats (Server.globals P)))).
Proof.
  intros Hauth Hbusy. unfold Server.post_trigger_sessions.
  by rewrite Hauth, Hbusy.
Qed.

Lemma trigger_while_running_conflicts_witness :
  let P := Server.mkProcess Worlds.busy [] in
  let req := Worlds.with_key (Server.mkOptions (Some 5%Z) None) in
  Server.apiKeyAuth Worlds.deployment req = true ∧
  isJobRunning (Server.globals P) = true ∧
  @Server.post_trigger_sessions Worlds.deployment (ProviderH 0) nat
    Worlds.cooperative req P =
  (P, Server.mkResponse 409
        (Server.ConflictBody "error" "Another job is already running"
           (mkJobStats (Some "2025-01-23T08:00:00.000Z") 1 3 []))).
Proof.
  split; [reflexivity|]. split; [reflexivity|].
  exact (@trigger_while_running_conflicts nat Worlds.cooperative
           Worlds.deployment (ProviderH 0)
           (Worlds.with_key (Server.mkOptions (Some 5%Z) None))
           (Server.mkProcess Worlds.busy []) eq_refl eq_refl).
Defined.

(** C7 (amended). A trigger with [sessionCount = 1] on an idle server is
    answered 202. Once the batch has run to completion, [GET /status] with
    a valid API key answers 200 with [isJobRunning: false] and
    [currentJob: null]: the handler hands out the job statistics only while
    a batch is running. The job statistics the server retains then count 1
    session in total and 1 or 0 completed sessions, as the run returned
    [true] or not; a run that rejected is recorded among the errors. When
    nothing thrown is [null] or [undefined], the run returns its verdict
    [ok], the log shows its start and its end with [ok], and the completed
    count is 1 or 0 as [ok] is [true] or [false]. *)
Theorem status_after_single_run_batch
    {W : Type} `{World W} env bb trigger query (m : Machine W) :
  Server.apiKeyAuth env trigger = true →
  Server.apiKeyAuth env query = true →
  isJobRunning m = false →
  Server.sessionCount (Server.body trigger) = Some 1%Z →
  let started :=
    Server.post_trigger_sessions env bb trigger (Server.mkProcess m []) in
  let done := Server.drain started.1 in
  let batch :=
    exec (Server.runScheduledSessions env bb "on-demand"
            (Server.mkOptions (Some 1%Z)
               (Some (default 1%Z (Server.maxConcurrent (Server.body trigger))))))
      None m in
  Server.status started.2 = 202%Z ∧
  (Server.get_status env query done).2 =
    Server.mkResponse 200 (Server.StatusBody false None) ∧
  totalSessions (currentJobStats (Server.globals done)) = 1%Z ∧
  ∃ outcome : Outcome,
    marks (emitted batch) = run_marks 1 1 [outcome] ∧
    completedSessions (currentJobStats (Server.globals done))
    = (if returned outcome is Some true then 1 else 0)%Z ∧
    errors (currentJobStats (Server.globals done)) = rejections 1 [outcome] ∧
    (civil (emitted batch) →
     ∃ ok : bool,
       outcome = Returned ok ∧
       marks (emitted batch) = [Started (start_text 1 1); Ended ok] ∧
       completedSessions (currentJobStats (Server.globals done))
       = (if ok then 1 else 0)%Z).
Proof.
  intros Htrigger Hquery Hidle Hcount started done batch.
  subst done started batch. unfold Server.post_trigger_sessions.
  rewrite Htrigger. cbn [Server.globals]. rewrite Hidle, Hcount.
  unfold Server.get_status. rewrite Hquery.
  cbn [fst snd Server.status]. rewrite !drain_start.
  set (options := Server.mkOptions (Some 1%Z) _).
  destruct (runScheduledSessions_idle env bb "on-demand" options None m Hidle)
    as (outcomes & rest & since & Hlen & Hr & He & Hfw & Hm & Hfl & Hst
        & Hnull & Hok).
  set (o := exec (Server.runScheduledSessions env bb "on-demand" options) None m)
    in *. clearbody o.
  change (effective_count options (draw (world m)).2) with 1%Z in *.
  destruct (credit_all_fields 1 outcomes (mkJobStats (Some since) 0 1 []))
    as (_ & Hcompleted & Htotal & Herrors).
  rewrite Hfl, Hst, Htotal, Hcompleted, Herrors.
  split; [done|]. split; [done|]. split; [done|].
  destruct outcomes as [|outcome [|? ?]]; try done.
  exists outcome.
  assert (marks (emitted o) = run_marks 1 1 [outcome]) as Hmarks
    by (by rewrite He, marks_batch).
  split; [exact Hmarks|]. split; [by destruct outcome as [[]|? ?]|].
  split; [done|].
  intros Hc. destruct (Hok Hc) as (oks & Hoks).
  destruct oks as [|ok [|? ?]]; try done.
  injection Hoks as ->. exists ok.
  split; [done|]. split; [by rewrite Hmarks|]. by destruct ok.
Qed.

Lemma status_after_single_run_batch_witness :
  let trigger := Worlds.with_key (Server.mkOptions (Some 1%Z) None) in
  let query := Worlds.with_key Server.no_options in
  let started :=
    @Server.post_trigger_sessions Worlds.deployment (ProviderH 0) nat
      Worlds.cooperative trigger (Server.mkProcess Worlds.idle []) in
  Server.apiKeyAuth Worlds.deployment trigger = true ∧
  Server.apiKeyAuth Worlds.deployment query = true ∧
  isJobRunning Worlds.idle = false ∧
  Server.status started.2 = 202%Z ∧
  (@Server.get_status Worlds.deployment nat query
     (@Server.drain nat Worlds.cooperative started.1)).2 =
    Server.mkResponse 200 (Server.StatusBody false None).
Proof.
  pose proof
    (@status_after_single_run_batch nat Worlds.cooperative Worlds.deployment
       (ProviderH 0) (Worlds.with_key (Server.mkOptions (Some 1%Z) None))
       (Worlds.with_key Server.no_options) Worlds.idle
       eq_refl eq_refl eq_refl eq_refl) as Hthm.
  split; [reflexivity|]. split; [reflexivity|]. split; [reflexivity|].
  split; [exact (proj1 Hthm)|exact (proj1 (proj2 Hthm))].
Defined.

(** After the batch of one has completed in a cooperative environment, the
    run having succeeded, [currentJob] is [null]: it reports no completed
    session count at all. *)
Lemma status_after_completion_counterexample :
  let trigger := Worlds.with_key (Server.mkOptions (Some 1%Z) None) in
  let query := Worlds.with_key Server.no_options in
  let started :=
    @Server.post_trigger_sessions Worlds.deployment (ProviderH 0) nat
      Worlds.cooperative trigger (Server.mkProcess Worlds.idle []) in
  let answer :=
    (@Server.get_status Worlds.deployment nat query
       (@Server.drain nat Worlds.cooperative started.1)).2 in
  Server.status started.2 = 202%Z ∧
  Server.json answer = Server.StatusBody false None ∧
  ¬ ∃ stats, Server.json answer = Server.StatusBody false (Some stats) ∧
             (completedSessions stats = 0 ∨ completedSessions stats = 1)%Z.
Proof.
  assert (Server.json
            (@Server.get_status Worlds.deployment nat
               (Worlds.with_key Server.no_options)
               (@Server.drain nat Worlds.cooperative
                  (@Server.post_trigger_sessions Worlds.deployment
                     (ProviderH 0) nat Worlds.cooperative
                     (Worlds.with_key (Server.mkOptions (Some 1%Z) None))
                     (Server.mkProcess Worlds.idle [])).1)).2
          = Server.StatusBody false None) as Hanswer
    by (vm_compute; reflexivity).
  split; [reflexivity|]. split; [exact Hanswer|].
  intros (stats & Hstats & _). cbv zeta in Hstats.
  rewrite Hanswer in Hstats. discriminate Hstats.
Qed.

(** C10. A [sessionCount] of [0], like an absent one, is falsy: the batch
    runner draws its count, an integer of [23..52], and performs that many
    run attempts, never zero; the job statistics carry the drawn count as
    their total. The trigger handler passes the count of the request body
    on as it is, so that a body with [sessionCount: 0] starts such a batch,
    and the 202 response reports the count as ['random(23-52)']. *)
Theorem falsy_count_draws_random_count
    {W : Type} `{World W} env bb type options fr (m : Machine W) req :
  isJobRunning m = false →
  truthy_opt truthy_number (Server.sessionCount options) = false →
  Server.apiKeyAuth env req = true →
  Server.body req = options →
  let o := exec (Server.runScheduledSessions env bb type options) fr m in
  let n := drawn_count (draw (world m)).2 in
  let started :=
    Server.post_trigger_sessions env bb req (Server.mkProcess m []) in
  (Server.sessionCount options = None ∨ Server.sessionCount options = Some 0%Z) ∧
  (23 ≤ n ≤ 52)%Z ∧
  (∃ outcomes,
     Z.of_nat (length outcomes) = n ∧
     marks (emitted o) = run_marks 1 n outcomes) ∧
  totalSessions (currentJobStats (machine o)) = n ∧
  started.2 =
    Server.mkResponse 202
      (Server.AcceptedBody "accepted" "Session simulation started"
         (Server.CountText "random(23-52)")
         (default 1%Z (Server.maxConcurrent options))) ∧
  totalSessions (currentJobStats (Server.globals (Server.drain started.1))) = n.
Proof.
  intros Hidle Hfalsy Hauth Hbody o n started.
  pose proof (drawn_count_range (draw (world m)).2) as Hrange. fold n in Hrange.
  assert (∀ t mc, let opts := Server.mkOptions (Server.sessionCount options) mc in
            ∃ outcomes,
              Z.of_nat (length outcomes) = n ∧
              marks (emitted (exec (Server.runScheduledSessions env bb t opts)
                                fr m)) = run_marks 1 n outcomes ∧
              ∀ f, totalSessions
                (currentJobStats
                   (machine (exec (Server.runScheduledSessions env bb t opts)
                               f m))) = n) as Hbatch.
  { intros t mc opts.
    assert (effective_count opts (draw (world m)).2 = n) as HN.
    { unfold effective_count. subst opts. simpl. by rewrite Hfalsy. }
    destruct (runScheduledSessions_idle env bb t opts fr m Hidle)
      as (outcomes & rest & since & Hlen & _ & He & _ & Hm & _ & _ & _).
    rewrite HN in *. exists outcomes. rewrite He, marks_batch.
    split; [lia|]. split; [done|]. intros f.
    destruct (runScheduledSessions_idle env bb t opts f m Hidle)
      as (outcomes' & ? & since' & _ & _ & _ & _ & _ & _ & Hst & _).
    rewrite HN in Hst. rewrite Hst.
    by destruct (credit_all_fields 1 outcomes' (mkJobStats (Some since') 0 n []))
      as (_ & _ & -> & _). }
  split.
  { unfold truthy_opt, truthy_number in Hfalsy.
    destruct (Server.sessionCount options) as [z|]; [|by left].
    right. destruct (Z.eqb_spec z 0); [by subst|done]. }
  split; [done|].
  destruct (Hbatch type (Server.maxConcurrent options)) as (outcomes & Hlen & Hm & Ht).
  replace (Server.mkOptions (Server.sessionCount options)
             (Server.maxConcurrent options)) with options in * by (by destruct options).
  split; [by exists outcomes|]. split; [apply Ht|].
  subst started. unfold Server.post_trigger_sessions.
  rewrite Hauth. cbn [Server.globals]. rewrite Hidle, Hbody, Hfalsy.
  split; [done|]. cbn [fst]. rewrite drain_start.
  destruct (Hbatch "on-demand"
              (Some (default 1%Z (Server.maxConcurrent options))))
    as (_ & _ & _ & Ht').
  apply Ht'.
Qed.

(** An idle server is triggered with [sessionCount: 0]. *)
Lemma falsy_count_draws_random_count_witness :
  let options := Server.mkOptions (Some 0%Z) None in
  let o := @exec nat Worlds.hostile bool
             (Server.runScheduledSessions Worlds.deployment (ProviderH 0)
                "on-demand" options) None Worlds.idle in
  isJobRunning Worlds.idle = false ∧
  truthy_opt truthy_number (Server.sessionCount options) = false ∧
  Server.apiKeyAuth Worlds.deployment (Worlds.with_key options) = true ∧
  ∃ outcomes,
    Z.of_nat (length outcomes) = 23%Z ∧
    marks (emitted o) = run_marks 1 23 outcomes.
Proof.
  split; [reflexivity|]. split; [reflexivity|]. split; [reflexivity|].
  exact (proj1 (proj2 (proj2
           (@falsy_count_draws_random_count nat Worlds.hostile
              Worlds.deployment (ProviderH 0) "on-demand"
              (Server.mkOptions (Some 0%Z) None) None Worlds.idle
              (Worlds.with_key (Server.mkOptions (Some 0%Z) None))
              eq_refl eq_refl eq_refl eq_refl)))).
Defined.

(** C9. The run loop of the older server reads [sessionCount], which is
    bound neither in [runSession] nor at module level (it is local to
    [runScheduledSessions] and to the trigger handler): in every invocation
    the first statement of the [try] block throws a [ReferenceError] before
    anything else happens, the [catch] block logs it and the function
    returns [false]; no call is made to the provider or to the driver, so no
    remote session is created and none is released. *)
Theorem monolith_runSession_always_fails
    {W : Type} `{World W} env bb interpolated n fr (m : Machine W) :
  let o := exec (Monolith.runSession env bb interpolated n) fr m in
  let t := exec (Monolith.runSession_try env bb interpolated n) None m in
  ("sessionCount" ∉ Monolith.runSession_scope ++ Monolith.module_scope) ∧
  "sessionCount" ∈ Monolith.runScheduledSessions_scope ∧
  "sessionCount" ∈ Monolith.trigger_handler_scope ∧
  result t = Err (Raised (Monolith.ReferenceError "sessionCount")) ∧
  emitted t = [] ∧
  result o = Ok false ∧
  emitted o =
    [EvSession None; error_line n (Monolith.ReferenceError "sessionCount")] ∧
  omap acquired (emitted o) = [] ∧
  release_attempts (emitted o) = [] ∧
  world (machine o) = world m.
Proof.
  intros o t.
  assert (bool_decide ("sessionCount" ∈
                         Monolith.runSession_scope ++ Monolith.module_scope)
          = false) as Hscope by (vm_compute; reflexivity).
  assert (Monolith.identifier interpolated "sessionCount"
          = Throw (Raised (Monolith.ReferenceError "sessionCount"))) as Hid.
  { unfold Monolith.identifier. by rewrite Hscope. }
  split; [by apply bool_decide_eq_false in Hscope|].
  split; [by apply (bool_decide_unpack _)|].
  split; [by apply (bool_decide_unpack _)|].
  subst o t. unfold Monolith.runSession, Monolith.runSession_try.
  rewrite Hid. done.
Qed.


(** * Further properties of the code *)

(** ** The fixture generators *)

Lemma substring_one_in (i : nat) (s : string) :
  i < String.length s →
  ∃ c, substring i 1 s = String c "" ∧ c ∈ chars_of s.
Proof.
  revert i. induction s as [|a s IH]; intros i Hi; simpl in *; [lia|].
  destruct i as [|i].
  - exists a. split; [by destruct s|]. apply elem_of_cons. by left.
  - destruct (IH i ltac:(lia)) as (c & Hc & Hin).
    exists c. split; [done|]. apply elem_of_cons. by right.
Qed.

Lemma charAt_in (i : Z) (s : string) :
  (0 ≤ i < Z.of_nat (String.length s))%Z →
  ∃ c, Helpers.charAt i s = String c "" ∧ c ∈ chars_of s.
Proof.
  intros Hi. unfold Helpers.charAt.
  destruct (Z.ltb_spec i 0); [lia|].
  apply substring_one_in. lia.
Qed.

Lemma set_world_twice {W} (m : Machine W) (w w' : W) :
  set_world (set_world m w) w' = set_world m w'.
Proof. done. Qed.

Section GeneratorFacts.
Context {W : Type} `{World W}.

Lemma exec_random_below a b fr (m : Machine W) :
  exec (Helpers.random_below a b) fr m =
  mkRun [] fr (set_world m (draw (world m)).1)
    (Ok (unit_interval (draw (world m)).2 * b <? a * Helpers.RANDOM_DENOM)%Z).
Proof. simpl. by destruct (draw (world m)). Qed.

(** A value drawn from a non-empty table is an entry of the table. *)
Lemma exec_pick_in {T} (d : T) (arr : list T) fr (m : Machine W) :
  arr ≠ [] → (Z.of_nat (length arr) ≤ Helpers.RANDOM_DENOM)%Z →
  ∃ x, exec (Helpers.pick d arr) fr m =
         mkRun [] fr (set_world m (draw (world m)).1) (Ok x) ∧ x ∈ arr.
Proof.
  intros Hne Hlen. destruct (exec_pick d arr fr m) as (x & Hx & Hin).
  exists x. auto.
Qed.

Lemma exec_random_chars n chars fr (m : Machine W) :
  chars ≠ "" → (Z.of_nat (String.length chars) ≤ Helpers.RANDOM_DENOM)%Z →
  ∃ s w, exec (Helpers.random_chars n chars) fr m = mkRun [] fr (set_world m w) (Ok s) ∧
         String.length s = n ∧
         Forall (λ c, c ∈ chars_of chars) (chars_of s).
Proof.
  intros Hne Hlong. revert m.
  induction n as [|n IH]; intros m.
  { exists "", (world m). by destruct m. }
  cbn [Helpers.random_chars].
  rewrite exec_mbind, exec_random_index. cbn [result emitted frame machine].
  rewrite emit_nil, exec_mbind.
  destruct (IH (set_world m (draw (world m)).1)) as (s & w & -> & Hlen & Hall).
  cbn [result emitted frame machine]. rewrite emit_nil.
  destruct (charAt_in (round53 (unit_interval (draw (world m)).2
                                * Z.of_nat (String.length chars))
                       / Helpers.RANDOM_DENOM)
              chars) as (c & -> & Hc).
  { apply scaled_range; [apply unit_interval_range|]. split; [|done].
    destruct chars; [done|simpl; lia]. }
  exists (String c s), w. split; [done|]. split; [by simpl; rewrite Hlen|].
  by constructor.
Qed.

Lemma exec_generateUtm fr (m : Machine W) :
  ∃ source medium campaign term w,
    exec Helpers.generateUtm fr m =
      mkRun [] fr (set_world m w) (Ok (utm_object source medium campaign term)) ∧
    source ∈ Helpers.sources ∧ medium ∈ Helpers.mediums ∧
    campaign ∈ Helpers.campaigns ∧
    match term with
    | Some t => medium = "search" ∧ t ∈ Helpers.searchTerms
    | None => medium ≠ "search"
    end.
Proof.
  unfold Helpers.generateUtm.
  rewrite exec_mbind.
  destruct (exec_pick_in "undefined" Helpers.mediums fr m
              ltac:(done) ltac:(by vm_compute))
    as (med & -> & Hmed).
  cbn [result emitted frame machine]. rewrite exec_mbind.
  match goal with
  | |- context [exec (Helpers.pick "undefined" Helpers.sources) ?f ?m'] =>
      destruct (exec_pick_in "undefined" Helpers.sources f m'
                  ltac:(done) ltac:(by vm_compute))
        as (src & -> & Hsrc)
  end.
  cbn [result emitted frame machine]. rewrite exec_mbind.
  match goal with
  | |- context [exec (Helpers.pick "undefined" Helpers.campaigns) ?f ?m'] =>
      destruct (exec_pick_in "undefined" Helpers.campaigns f m'
                  ltac:(done) ltac:(by vm_compute))
        as (cam & -> & Hcam)
  end.
  cbn [result emitted frame machine].
  destruct (String.eqb med "search") eqn:Hsearch.
  - apply String.eqb_eq in Hsearch as ->.
    rewrite exec_mbind.
    match goal with
    | |- context [exec (Helpers.pick "undefined" Helpers.searchTerms) ?f ?m'] =>
        destruct (exec_pick_in "undefined" Helpers.searchTerms f m'
                    ltac:(done) ltac:(by vm_compute))
          as (term & -> & Hterm)
    end.
    by eexists src, "search", cam, (Some term), _.
  - apply String.eqb_neq in Hsearch.
    by eexists src, med, cam, None, _.
Qed.

Lemma exec_generateUser fr (m : Machine W) :
  ∃ adjective first second suffix domain password source medium campaign term w,
    exec Helpers.generateUser fr m =
      mkRun [] fr (set_world m w)
        (Ok (mkUser
               (adjective +:+ (Helpers.toUpperCase (Helpers.charAt 0 first) +:+ second)
                  +:+ suffix)
               ((adjective +:+ (Helpers.toUpperCase (Helpers.charAt 0 first) +:+ second)
                  +:+ suffix) +:+ "@" +:+ domain)
               password
               (utm_object source medium campaign term))) ∧
    adjective ∈ Helpers.adjectives ∧ first ∈ Helpers.names ∧
    second ∈ Helpers.names ∧
    (String.length suffix = 3 ∧ alphanumeric_string suffix) ∧
    domain ∈ (if (unit_interval (draw (world m)).2 * 10 <? Helpers.RANDOM_DENOM)%Z
              then Helpers.industryDomains else Helpers.regularDomains) ∧
    (String.length password = 9 ∧ alphanumeric_string password) ∧
    source ∈ Helpers.sources ∧ medium ∈ Helpers.mediums ∧
    campaign ∈ Helpers.campaigns ∧
    match term with
    | Some t => medium = "search" ∧ t ∈ Helpers.searchTerms
    | None => medium ≠ "search"
    end.
Proof.
  unfold Helpers.generateUser.
  rewrite exec_mbind, exec_random_below. cbn [result emitted frame machine].
  rewrite emit_nil.
  change (1 * Helpers.RANDOM_DENOM)%Z with Helpers.RANDOM_DENOM.
  set (industry := (unit_interval (draw (world m)).2 * 10 <? Helpers.RANDOM_DENOM)%Z).
  rewrite exec_mbind.
  match goal with
  | |- context [exec (Helpers.pick "undefined" ?arr) ?f ?m'] =>
      destruct (exec_pick_in "undefined" arr f m' ltac:(by destruct industry)
                  ltac:(by destruct industry; vm_compute))
        as (dom & -> & Hdom)
  end.
  cbn [result emitted frame machine]. rewrite emit_nil, exec_mbind.
  match goal with
  | |- context [exec (Helpers.pick "undefined" ?arr) ?f ?m'] =>
      destruct (exec_pick_in "undefined" arr f m'
                  ltac:(done) ltac:(by vm_compute))
        as (adj & -> & Hadj)
  end.
  cbn [result emitted frame machine]. rewrite emit_nil, exec_mbind.
  match goal with
  | |- context [exec (Helpers.pick "undefined" ?arr) ?f ?m'] =>
      destruct (exec_pick_in "undefined" arr f m'
                  ltac:(done) ltac:(by vm_compute))
        as (first & -> & Hfirst)
  end.
  cbn [result emitted frame machine]. rewrite emit_nil, exec_mbind.
  match goal with
  | |- context [exec (Helpers.pick "undefined" ?arr) ?f ?m'] =>
      destruct (exec_pick_in "undefined" arr f m'
                  ltac:(done) ltac:(by vm_compute))
        as (second & -> & Hsecond)
  end.
  cbn [result emitted frame machine]. rewrite emit_nil, exec_mbind.
  match goal with
  | |- context [exec (Helpers.random_chars 3 ?chars) ?f ?m'] =>
      destruct (exec_random_chars 3 chars f m'
                  ltac:(done) ltac:(by vm_compute))
        as (suffix & w1 & -> & Hsl & Hsa)
  end.
  cbn [result emitted frame machine]. rewrite emit_nil, exec_mbind.
  match goal with
  | |- context [exec Helpers.generateUtm ?f ?m'] =>
      destruct (exec_generateUtm f m')
        as (src & med & cam & term & w2 & -> & Hsrc & Hmed & Hcam & Hterm)
  end.
  cbn [result emitted frame machine]. rewrite emit_nil, exec_mbind.
  match goal with
  | |- context [exec (Helpers.random_chars 9 ?chars) ?f ?m'] =>
      destruct (exec_random_chars 9 chars f m'
                  ltac:(done) ltac:(by vm_compute))
        as (password & w3 & -> & Hpl & Hpa)
  end.
  cbn [result emitted frame machine]. rewrite emit_nil.
  exists adj, first, second, suffix, dom, password, src, med, cam, term, w3.
  split; [done|]. by repeat (split; [done|]).
Qed.

End GeneratorFacts.

Lemma append_empty_r (s : string) : s +:+ "" = s.
Proof.
  induction s as [|a s IH]; [done|].
  change (String a (s +:+ "") = String a s). by f_equal.
Qed.

Lemma append_associative (a b c : string) : (a +:+ b) +:+ c = a +:+ b +:+ c.
Proof.
  induction a as [|x a IH]; [done|].
  change (String x ((a +:+ b) +:+ c) = String x (a +:+ b +:+ c)). by f_equal.
Qed.

Lemma utm_object_lookup source medium campaign term :
  utm_object source medium campaign term !! "utm_source" = Some source ∧
  utm_object source medium campaign term !! "utm_medium" = Some medium ∧
  utm_object source medium campaign term !! "utm_campaign" = Some campaign ∧
  utm_object source medium campaign term !! "utm_term" = term.
Proof.
  unfold utm_object. destruct term as [t|].
  - rewrite lookup_insert_eq. repeat rewrite lookup_insert_ne by done.
    by rewrite !lookup_insert_eq.
  - repeat rewrite lookup_insert_ne by done. rewrite !lookup_insert_eq.
    repeat rewrite lookup_insert_ne by done. rewrite !lookup_insert_eq.
    split; [done|]. split; [done|]. split; [done|].
    by repeat rewrite lookup_insert_ne by done.
Qed.

(** X1. [generateMovieNumber] returns 1, 2 or 3, each for one third of the
    range of the random number, up to the rounding of the product in
    binary64 (2 units of [2^-53] at either end of the interval); it draws
    one random number and does nothing else. *)
Theorem generateMovieNumber_one_to_three
    {W : Type} `{World W} fr (m : Machine W) :
  ∃ n,
    exec Helpers.generateMovieNumber fr m =
      mkRun [] fr (set_world m (draw (world m)).1) (Ok n) ∧
    (1 ≤ n ≤ 3)%Z ∧
    ∀ k,
      (n = k →
       ((k - 1) * Helpers.RANDOM_DENOM - 2
        ≤ 3 * unit_interval (draw (world m)).2
        < k * Helpers.RANDOM_DENOM + 2)%Z) ∧
      (((k - 1) * Helpers.RANDOM_DENOM + 2
        ≤ 3 * unit_interval (draw (world m)).2
        < k * Helpers.RANDOM_DENOM - 2)%Z →
       n = k).
Proof.
  unfold Helpers.generateMovieNumber.
  rewrite exec_mbind, exec_random_index. cbn [result emitted frame machine].
  rewrite emit_nil. eexists. split; [reflexivity|].
  pose proof (unit_interval_range (draw (world m)).2) as Hr.
  set (r := unit_interval (draw (world m)).2) in *. clearbody r.
  pose proof (scaled_range r 3 Hr ltac:(unfold Helpers.RANDOM_DENOM; lia)) as Hs.
  split; [lia|]. intros k.
  unfold Helpers.RANDOM_DENOM in *.
  pose proof (round53_near (r * 3) 1 ltac:(lia) ltac:(lia)) as Hnear.
  change (2 ^ 1)%Z with 2%Z in Hnear.
  set (y := round53 (r * 3)) in *. clearbody y.
  pose proof (Z.div_mod y (2 ^ 53) ltac:(lia)) as Hdm.
  pose proof (Z.mod_pos_bound y (2 ^ 53) ltac:(lia)) as Hmod.
  split; intros Hk.
  - subst k. lia.
  - assert (y / 2 ^ 53 = k - 1)%Z; [|lia].
    symmetry. apply (Z.div_unique _ _ _ (y - (k - 1) * 2 ^ 53)); lia.
Qed.

(** X2. [generatePlanSelection] returns an entry of the plan table (FREE,
    PREMIUM or MAX-IMAL), never [undefined]; it draws one random number and
    does nothing else. *)
Theorem generatePlanSelection_from_table
    {W : Type} `{World W} fr (m : Machine W) :
  ∃ plan,
    exec Helpers.generatePlanSelection fr m =
      mkRun [] fr (set_world m (draw (world m)).1) (Ok plan) ∧
    plan ∈ Helpers.plans ∧
    name plan ∈ ["FREE"; "PREMIUM"; "MAX-IMAL"].
Proof.
  destruct (exec_pick_in (mkPlan "undefined" 0) Helpers.plans fr m
              ltac:(done) ltac:(by vm_compute))
    as (plan & Hrun & Hin).
  exists plan. split; [done|]. split; [done|].
  unfold Helpers.plans in Hin.
  repeat (apply elem_of_cons in Hin as [->|Hin]; [simpl; by repeat constructor|]).
  by apply elem_of_nil in Hin.
Qed.

(** X3. The e-mail address of a generated user is its user name, an [@]
    and a domain. The domain is an entry of the industry table when the
    first random number is below 1/10, and an entry of the regular table
    otherwise. The generator leaves nothing in the log and writes no
    variable. *)
Theorem generateUser_email_domain
    {W : Type} `{World W} fr (m : Machine W) :
  ∃ user domain w,
    exec Helpers.generateUser fr m = mkRun [] fr (set_world m w) (Ok user) ∧
    email user = username user +:+ "@" +:+ domain ∧
    (if (unit_interval (draw (world m)).2 * 10 <? Helpers.RANDOM_DENOM)%Z
     then domain ∈ Helpers.industryDomains
     else domain ∈ Helpers.regularDomains).
Proof.
  destruct (exec_generateUser fr m)
    as (adj & first & second & suffix & dom & pw & src & med & cam & term & w
        & -> & _ & _ & _ & _ & Hdom & _).
  eexists _, dom, w. split; [reflexivity|]. split; [done|].
  by destruct (_ <? _)%Z.
Qed.

(** X4. The user name of a generated user is an adjective of the table,
    the first letter of a name of the table in upper case, a name of the
    table and three characters of the alphabet [A-Za-z0-9]; its password is
    nine characters of that alphabet. *)
Theorem generateUser_credentials
    {W : Type} `{World W} fr (m : Machine W) :
  ∃ user adjective first second suffix,
    result (exec Helpers.generateUser fr m) = Ok user ∧
    username user =
      adjective +:+ Helpers.toUpperCase (Helpers.charAt 0 first) +:+ second
        +:+ suffix ∧
    adjective ∈ Helpers.adjectives ∧ first ∈ Helpers.names ∧
    second ∈ Helpers.names ∧
    String.length suffix = 3 ∧ alphanumeric_string suffix ∧
    String.length (password user) = 9 ∧ alphanumeric_string (password user).
Proof.
  destruct (exec_generateUser fr m)
    as (adj & first & second & suffix & dom & pw & src & med & cam & term & w
        & -> & Hadj & Hfirst & Hsecond & [Hsl Hsa] & _ & [Hpl Hpa] & _).
  eexists _, adj, first, second, suffix. split; [reflexivity|].
  cbn [username password].
  split; [|done].
  by rewrite append_associative.
Qed.

(** X5. The URLs built from a generated UTM object. The landing URL
    carries [utm_source], [utm_medium] and [utm_campaign], each an entry of
    its table and never [undefined]; the URL of the completion line is the
    landing URL, followed by [&utm_term=] and a search term exactly when
    the medium is ["search"]. *)
Theorem urls_of_generated_utm
    {W : Type} `{World W} dom fr (m : Machine W) :
  ∃ params source medium campaign,
    result (exec Helpers.generateUtm fr m) = Ok params ∧
    source ∈ Helpers.sources ∧ medium ∈ Helpers.mediums ∧
    campaign ∈ Helpers.campaigns ∧
    Helpers.landing_url dom params =
      dom +:+ "?utm_source=" +:+ source +:+ "&utm_medium=" +:+ medium
          +:+ "&utm_campaign=" +:+ campaign ∧
    if String.eqb medium "search"
    then ∃ t, t ∈ Helpers.searchTerms ∧
              Helpers.fullUrl dom params =
                Helpers.landing_url dom params +:+ "&utm_term=" +:+ t
    else Helpers.fullUrl dom params = Helpers.landing_url dom params.
Proof.
  destruct (exec_generateUtm fr m)
    as (src & med & cam & term & w & -> & Hsrc & Hmed & Hcam & Hterm).
  destruct (utm_object_lookup src med cam term) as (Ls & Lm & Lc & Lt).
  exists (utm_object src med cam term), src, med, cam.
  split; [done|]. split; [done|]. split; [done|]. split; [done|].
  unfold Helpers.fullUrl, Helpers.landing_url.
  rewrite Ls, Lm, Lc, Lt. split; [done|].
  destruct term as [t|].
  - destruct Hterm as [-> Ht]. exists t. split; [done|].
    assert (truthy_string t = true) as Htruthy.
    { unfold Helpers.searchTerms in Ht.
      repeat (apply elem_of_cons in Ht as [->|Ht]; [done|]).
      by apply elem_of_nil in Ht. }
    simpl. by rewrite Htruthy.
  - apply String.eqb_neq in Hterm. rewrite Hterm. simpl.
    by rewrite append_empty_r.
Qed.

(** ** One run, seen from outside *)

Section TraceFacts.
Context {W : Type} `{World W}.

(** What holds of every event a program can leave holds of the events it
    leaves. *)
Lemma Emits_exec Q {A} (p : Prog A) fr (m : Machine W) :
  Emits Q p → Forall Q (emitted (exec p fr m)).
Proof.
  intros Hp. revert fr m.
  induction Hp; intros fr m; simpl; ask_world; try constructor; auto.
Qed.

End TraceFacts.

Lemma cleanup_log_silent sid r :
  release_attempts (cleanup_log sid r) = [] ∧
  omap acquired (cleanup_log sid r) = [].
Proof. by destruct r as [?|[?|?]]. Qed.

Lemma verdict_phase_silent n r lines :
  verdict_phase n r lines →
  release_attempts lines = [] ∧ omap acquired lines = [] ∧
  (∀ line, line ∈ lines → completion_line line ∨ ∃ e, line = error_line n e).
Proof.
  unfold verdict_phase. destruct r as [v|[e|k]].
  - intros (_ & line & -> & Hrl & Hal & Hm).
    unfold release_attempts. simpl. rewrite Hrl, Hal.
    split; [done|]. split; [done|].
    intros line' Hin. apply list_elem_of_singleton in Hin as ->.
    left. by repeat split.
  - intros ->. split; [done|]. split; [done|].
    intros line' Hin. apply list_elem_of_singleton in Hin as ->. eauto.
  - intros ->. split; [done|]. split; [done|].
    intros line' Hin. by apply elem_of_nil in Hin.
Qed.

(** The sessions of a run: it has acquired the session that its variable
    [session] holds at the end, and its release attempts are for that
    session. *)
Lemma runSession_sessions
    {W : Type} `{World W} env n total bb dom fr (m : Machine W) :
  let o := exec (Helpers.runSession env n total bb dom) fr m in
  omap acquired (emitted o) = from_option (λ s, [s]) [] (frame o) ∧
  release_attempts (emitted o) =
    match frame o with
    | Some s => if truthy_string (id s) then [id s] else []
    | None => []
    end.
Proof.
  intros o.
  destruct (runSession_spec env n total bb dom fr m)
    as (pre & lines & fin & escaped & _ & He & _ & Hrel & _ & Hacq & Hv & Hph
        & _).
  fold o in He, Hacq, Hph.
  apply verdict_phase_silent in Hv as (Hvr & Hva & _).
  assert (emitted o =
          [EvSession None; start_line n total] ++ pre ++ lines ++ fin)
    as -> by done.
  unfold release_attempts in *.
  rewrite !omap_app, !flat_map_app, Hacq, Hrel, Hvr, Hva.
  cbn [omap list_omap flat_map acquired released start_line app].
  unfold release_phase in Hph.
  destruct (frame o) as [s|]; [|by destruct Hph as [-> _]].
  destruct (truthy_string (id s)); [|by destruct Hph as [-> _]].
  destruct Hph as (r & -> & _).
  destruct (cleanup_log_silent (id s) r) as [Hcr Hca].
  unfold release_attempts in Hcr.
  cbn [omap list_omap flat_map acquired released released_by_call app].
  rewrite Hcr, Hca. by cbn [from_option app].
Qed.

(** X6. A run releases what it acquired and nothing else. It acquires at
    most one remote session; its release attempts are the identifier of
    that session when there is one and the identifier is not empty, and
    none otherwise: a run whose [bb.sessions.create] threw, or returned no
    session, calls [bb.sessions.update] for no session. *)
Theorem runSession_releases_only_acquired
    {W : Type} `{World W} env n total bb dom fr (m : Machine W) :
  let o := exec (Helpers.runSession env n total bb dom) fr m in
  ∃ session : option Session,
    omap acquired (emitted o) = from_option (λ s, [s]) [] session ∧
    release_attempts (emitted o) =
      match session with
      | Some s => if truthy_string (id s) then [id s] else []
      | None => []
      end.
Proof.
  intros o. exists (frame o). apply runSession_sessions.
Qed.

Lemma runSession_run_local env n total bb dom :
  Emits run_local (Helpers.runSession env n total bb dom).
Proof.
  unfold Helpers.runSession, try_catch_finally.
  constructor; [done|].
  apply Emits_try_finally; [apply Emits_try_catch|].
  - unfold Helpers.runSession_try, Helpers.journey, Helpers.acquire.
    emits. intros created.
    eapply Emits_impl; [|eapply Closing_Emits, drive_closing].
    intros ev [(_ & _ & _ & Hk)|(_ & _ & Hm)]; by destruct ev.
  - intros e. unfold Helpers.runSession_catch. emits.
  - unfold Helpers.runSession_finally. emits.
Qed.

Lemma run_local_no_delay (evs : list Event) :
  Forall run_local evs → omap delay evs = [] ∧ omap flag_write evs = [].
Proof.
  induction 1 as [|ev evs Hev _ IH]; [done|].
  destruct ev; try done; exact IH.
Qed.

Lemma runSession_no_delay
    {W : Type} `{World W} env n total bb dom fr (m : Machine W) :
  omap delay (emitted (exec (Helpers.runSession env n total bb dom) fr m)) = [].
Proof.
  apply run_local_no_delay, Emits_exec, runSession_run_local.
Qed.

(** X7. A run stays inside itself: whatever the environment answers,
    everything it does is a call to a collaborator, a log line or an
    assignment of its own variable [session]. It starts no timer, and it
    neither writes the run lock nor the job statistics, which are after
    the run what they were before. *)
Theorem runSession_touches_no_shared_state
    {W : Type} `{World W} env n total bb dom fr (m : Machine W) :
  let o := exec (Helpers.runSession env n total bb dom) fr m in
  Forall run_local (emitted o) ∧
  omap delay (emitted o) = [] ∧
  isJobRunning (machine o) = isJobRunning m ∧
  currentJobStats (machine o) = currentJobStats m.
Proof.
  intros o.
  destruct (runSession_spec env n total bb dom fr m)
    as (pre & lines & fin & escaped & _ & _ & _ & _ & _ & _ & _ & _ & Hfl & Hst).
  split; [apply Emits_exec, runSession_run_local|].
  split; [apply runSession_no_delay|done].
Qed.

Lemma unlocated_silent (evs : list Event) :
  Forall unlocated evs → session_requests evs = [] ∧ omap located evs = [].
Proof.
  unfold session_requests.
  induction 1 as [|ev evs [Hr Hl] _ [IH1 IH2]]; [done|].
  simpl. by rewrite Hr, Hl.
Qed.

Lemma proxy_geolocation_fields (g : GeoLocation) :
  proxy_geolocation g =
  {| city := city g;
     country := country g;
     state := match state g with
              | Some st => if String.eqb st "" then None else Some st
              | None => None
              end |}.
Proof.
  unfold proxy_geolocation. f_equal.
  destruct (state g) as [st|]; [|done]. simpl. unfold truthy_string.
  by destruct (String.eqb st "").
Qed.

Lemma drive_unlocated created n dom :
  Emits unlocated (Helpers.drive created n dom).
Proof. unfold Helpers.drive. cbv zeta. emits. Qed.

Section RequestFacts.
Context {W : Type} `{World W}.

(** The request follows the draw of the location, and carries it. *)
Lemma acquire_requests env bb fr (m : Machine W) :
  let a := exec (Helpers.acquire (env !! "BROWSERBASE_PROJECT_ID") bb) fr m in
  session_requests (emitted a) = request_of_run env bb <$> omap located (emitted a) ∧
  length (omap located (emitted a)) ≤ 1.
Proof.
  unfold Helpers.acquire, session_requests, request_of_run. simpl. ask_world.
  destruct r as [g|e]; simpl; [|split; [done|lia]]. ask_world.
  rewrite proxy_geolocation_fields.
  destruct r as [[s|]|e]; simpl; (split; [done|lia]).
Qed.

Lemma exec_try_catch_finally {A} (p : Prog A) (h : Thrown → Prog A)
    (f : Prog unit) fr (m : Machine W) :
  let t := exec p fr m in
  emitted (exec (try_catch_finally p h f) fr m) =
  emitted t ++
  emitted (exec (try_finally
                   match result t with
                   | Ok v => Ret v
                   | Err e => h e
                   end f) (frame t) (machine t)).
Proof.
  intros t. unfold try_catch_finally.
  rewrite !exec_try_finally, exec_try_catch. cbv zeta. fold t. clearbody t.
  destruct (result t); cbn [emit emitted frame machine exec app];
    by rewrite ?app_nil_r, ?app_assoc.
Qed.

Lemma runSession_requests env n total bb dom fr (m : Machine W) :
  let o := exec (Helpers.runSession env n total bb dom) fr m in
  session_requests (emitted o) = request_of_run env bb <$> omap located (emitted o) ∧
  length (omap located (emitted o)) ≤ 1.
Proof.
  intros o. subst o. unfold Helpers.runSession. cbn [exec emit emitted].
  rewrite exec_try_catch_finally. cbv zeta.
  set (pid := env !! "BROWSERBASE_PROJECT_ID").
  assert (∃ rest,
            emitted (exec (Helpers.runSession_try env n total bb dom) None m)
            = start_line n total
                :: emitted (exec (Helpers.acquire pid bb) None m) ++ rest ∧
            Forall unlocated rest) as (rest & -> & Hrest).
  { unfold Helpers.runSession_try. rewrite exec_log_then.
    unfold Helpers.journey. rewrite exec_mbind. fold pid.
    set (a := exec (Helpers.acquire pid bb) None m). clearbody a.
    destruct (result a) as [created|e].
    - eexists. split; [reflexivity|]. apply Emits_exec, drive_unlocated.
    - exists []. by rewrite app_nil_r. }
  match goal with
  | |- context [emitted (exec (try_finally ?p ?f) ?fr' ?m')] =>
      assert (Forall unlocated (emitted (exec (try_finally p f) fr' m')))
        as Hend;
      [|set (tail := emitted (exec (try_finally p f) fr' m')) in *;
        clearbody tail]
  end.
  { apply Emits_exec, Emits_try_finally.
    - case_match; [constructor|]. unfold Helpers.runSession_catch. emits.
    - unfold Helpers.runSession_finally. emits. }
  destruct (acquire_requests env bb None m) as [Hreq Hlen]. fold pid in Hreq, Hlen.
  set (acq := emitted (exec (Helpers.acquire pid bb) None m)) in *. clearbody acq.
  apply unlocated_silent in Hrest as [Hr1 Hr2].
  apply unlocated_silent in Hend as [He1 He2].
  unfold session_requests in *.
  change (start_line n total :: acq ++ rest)
    with ([start_line n total] ++ acq ++ rest).
  rewrite !flat_map_app, !omap_app, Hr1, Hr2, He1, He2, Hreq, !app_nil_r.
  done.
Qed.

End RequestFacts.

Lemma acquired_requested (ev : Event) (s : Session) :
  acquired ev = Some s → ∃ q, q ∈ requested ev.
Proof.
  destruct ev as [T c r| | | | |]; try done.
  destruct c; try done. intros _. eexists. by apply elem_of_cons; left.
Qed.

(** X8. The request for a remote session follows the draw of a location
    and carries it. A run draws at most one location and sends one request
    for each location it has drawn, and no other: to the provider the run
    was given, for the project of the environment
    ([BROWSERBASE_PROJECT_ID]), in region [us-east-1], through a
    [browserbase] proxy, for the city and the country of the drawn
    location, and for its state when it has one that is not empty. A
    session that the run acquired was requested so. *)
Theorem runSession_session_requests
    {W : Type} `{World W} env n total bb dom fr (m : Machine W) :
  let o := exec (Helpers.runSession env n total bb dom) fr m in
  session_requests (emitted o) = request_of_run env bb <$> omap located (emitted o) ∧
  length (omap located (emitted o)) ≤ 1 ∧
  (∀ s, s ∈ omap acquired (emitted o) →
     ∃ g, omap located (emitted o) = [g] ∧
          session_requests (emitted o) = [request_of_run env bb g] ∧
          request_geolocation (request_of_run env bb g) = proxy_geolocation g).
Proof.
  intros o.
  destruct (runSession_requests env n total bb dom fr m) as [Hreq Hlen].
  fold o in Hreq, Hlen. split; [exact Hreq|]. split; [exact Hlen|].
  intros s Hs.
  apply list_elem_of_omap in Hs as (ev & Hev & Hacq).
  destruct (acquired_requested ev s Hacq) as (q & Hq).
  assert (q ∈ session_requests (emitted o)) as Hin.
  { apply list_elem_of_In, in_flat_map. exists ev.
    split; by apply list_elem_of_In. }
  rewrite Hreq in Hin |- *.
  destruct (omap located (emitted o)) as [|g [|g' gs]].
  - by apply elem_of_nil in Hin.
  - exists g. split; [done|]. split; [done|].
    by rewrite proxy_geolocation_fields.
  - simpl in Hlen. lia.
Qed.

(** ** The API key middleware *)

Lemma env_or_empty_spec (env : gmap string string) (key value : string) :
  value ≠ "" → (Server.env_or env key "" = value ↔ env !! key = Some value).
Proof.
  intros Hne. unfold Server.env_or.
  destruct (env !! key) as [v|]; simpl.
  - unfold truthy_string. destruct (String.eqb_spec v "") as [->|Hv]; simpl.
    + split; intros Heq; [congruence|]. by injection Heq as <-.
    + split; intros Heq; [by subst|]. by injection Heq.
  - split; intros Heq; [congruence|done].
Qed.

(** X9. The middleware lets a request through exactly when its
    [x-api-key] header is present, not empty, and equal to the [API_KEY] of
    the environment. In particular a server without [API_KEY] (or with an
    empty one) lets no request through, whatever its header. *)
Theorem apiKeyAuth_accepts_configured_key
    (env : gmap string string) (req : Server.Request) :
  (Server.apiKeyAuth env req = true ↔
   ∃ key, key ≠ "" ∧ env !! "API_KEY" = Some key ∧
          Server.headers req !! "x-api-key" = Some key) ∧
  (Server.API_KEY env = "" → Server.apiKeyAuth env req = false).
Proof.
  unfold Server.apiKeyAuth, Server.API_KEY. split.
  - destruct (Server.headers req !! "x-api-key") as [k|]; simpl.
    + unfold truthy_string.
      destruct (String.eqb_spec k "") as [->|Hk]; simpl.
      * split; [done|]. intros (key & Hne & _ & [= <-]). done.
      * destruct (String.eqb_spec k (Server.env_or env "API_KEY" "")) as [Heq|Hneq].
        -- split; [|done]. intros _. exists k. split; [done|]. split; [|done].
           by apply env_or_empty_spec.
        -- split; [done|]. intros (key & Hne & Henv & [= <-]).
           by apply env_or_empty_spec in Henv.
    + split; [done|]. by intros (key & _ & _ & ?).
  - intros ->. destruct (Server.headers req !! "x-api-key") as [k|]; [|done].
    unfold truthy_string. by destruct (String.eqb_spec k "") as [->|Hk].
Qed.

(** X10. A request that the middleware turns away is answered 401 by
    [GET /status] and by [POST /trigger-sessions] alike, and the process is
    left as it was. Any number of such requests, on either route and in
    any state of the server, start no batch and change neither the run
    lock nor the job statistics. *)
Theorem rejected_requests_change_nothing
    {W : Type} `{World W} env bb (P : Server.Process W)
    (inputs : list Server.Input) :
  Forall (rejected env) inputs →
  Server.run_process env bb P inputs = P ∧
  Forall (λ i, match i with
               | Server.GetStatus req =>
                   Server.get_status env req P = (P, Server.unauthorized)
               | Server.PostTrigger req =>
                   Server.post_trigger_sessions env bb req P
                   = (P, Server.unauthorized)
               | _ => False
               end) inputs.
Proof.
  intros Hall. split.
  - induction Hall as [|i inputs Hi _ IH]; [done|].
    simpl. rewrite <-IH at 2. f_equal.
    destruct i as [req|req| |]; simpl in *; try done.
    + unfold Server.get_status. by rewrite Hi.
    + unfold Server.post_trigger_sessions. by rewrite Hi.
  - eapply Forall_impl; [exact Hall|].
    intros [req|req| |] Hi; simpl in *; try done.
    + unfold Server.get_status. by rewrite Hi.
    + unfold Server.post_trigger_sessions. by rewrite Hi.
Qed.

Lemma rejected_requests_change_nothing_witness :
  let anonymous := Server.mkRequest ∅ Server.no_options in
  let guess :=
    Server.mkRequest {[ "x-api-key" := "letmein" ]}
      (Server.mkOptions (Some 3%Z) None) in
  let inputs := [Server.GetStatus anonymous; Server.PostTrigger guess;
                 Server.PostTrigger anonymous] in
  Forall (rejected Worlds.deployment) inputs ∧
  @Server.run_process Worlds.deployment (ProviderH 0) nat Worlds.cooperative
    (Server.mkProcess Worlds.idle []) inputs
  = Server.mkProcess Worlds.idle [].
Proof.
  assert (Forall (rejected Worlds.deployment)
            [Server.GetStatus (Server.mkRequest ∅ Server.no_options);
             Server.PostTrigger
               (Server.mkRequest {[ "x-api-key" := "letmein" ]}
                  (Server.mkOptions (Some 3%Z) None));
             Server.PostTrigger (Server.mkRequest ∅ Server.no_options)])
    as Hrej by (repeat constructor).
  split; [exact Hrej|].
  exact (proj1 (@rejected_requests_change_nothing nat Worlds.cooperative
                  Worlds.deployment (ProviderH 0)
                  (Server.mkProcess Worlds.idle []) _ Hrej)).
Defined.

(** ** The batch, seen from outside *)

Section BatchTrace.
Context {W : Type} `{World W}.
Variable env : gmap string string.
Variable bb : Provider.

Lemma exec_delay_then {A} (f : unit → Prog A) fr (m : Machine W) :
  ∃ d, (2000 ≤ d ≤ 5000)%Z ∧
       exec (r ← Helpers.random_index (5000 - 2000 + 1);
             sleep (r + 2000) ≫= f) fr m =
       emit [EvSleep d] (exec (f tt) fr (set_world m (draw (world m)).1)).
Proof.
  rewrite exec_mbind, exec_random_index. cbn [result emitted frame machine].
  rewrite emit_nil.
  eexists. split; [|reflexivity].
  pose proof (scaled_range _ (5000 - 2000 + 1)
                (unit_interval_range (draw (world m)).2)
                ltac:(unfold Helpers.RANDOM_DENOM; lia)).
  lia.
Qed.

(** The timers of one iteration: the run starts none, and one delay of 2
    to 5 seconds follows it. *)
Lemma iteration_delays i N results fr (m : Machine W) :
  let o := exec (Server.iteration env bb i N results) fr m in
  ∃ d, omap delay (emitted o) = [d] ∧ (2000 ≤ d ≤ 5000)%Z.
Proof.
  intros o. subst o. unfold Server.iteration.
  rewrite exec_mbind.
  match goal with
  | |- context [exec (try_catch ?body ?h) fr m] =>
      assert (∃ rs, result (exec (try_catch body h) fr m) = Ok rs ∧
                    omap delay (emitted (exec (try_catch body h) fr m)) = [])
        as (rs & Hres & Hdel);
      [|set (t := exec (try_catch body h) fr m) in *; clearbody t]
  end.
  { rewrite exec_try_catch, exec_mbind.
    destruct (runSession_marks env bb i N (Server.BASE_DOMAIN env) fr m)
      as (outcome & Hr & _).
    pose proof (runSession_no_delay env i N bb (Server.BASE_DOMAIN env) fr m)
      as Hd.
    set (o := exec (Helpers.runSession _ _ _ _ _) fr m) in *. clearbody o.
    rewrite Hr.
    destruct outcome as [[]|v e]; simpl; eexists;
      (split; [reflexivity|]); by rewrite omap_app, Hd. }
  rewrite Hres. cbv beta iota zeta.
  match goal with
  | |- context [exec (_ ≫= λ r, sleep (r + 2000) ≫= ?f) ?fr' ?m'] =>
      destruct (exec_delay_then f fr' m') as (d & Hd & ->)
  end.
  exists d. split; [|done]. simpl. by rewrite omap_app, Hdel.
Qed.

Lemma session_loop_delays k i N results fr (m : Machine W) :
  let o := exec (Server.session_loop env bb k i N results) fr m in
  length (omap delay (emitted o)) = k ∧
  Forall (λ d, 2000 ≤ d ≤ 5000)%Z (omap delay (emitted o)).
Proof.
  revert i results fr m.
  induction k as [|k IH]; intros i results fr m; [done|].
  cbn [Server.session_loop]. cbv zeta. rewrite exec_mbind.
  destruct (iteration_spec env bb i N results fr m) as (outcome & Hr & _).
  destruct (iteration_delays i N results fr m) as (d & Hd & Hrange).
  set (o := exec (Server.iteration env bb i N results) fr m) in *. clearbody o.
  rewrite Hr.
  destruct (IH (i + 1)%Z (results ++ results_of [outcome]) (frame o) (machine o))
    as [Hlen Hall].
  set (o' := exec (Server.session_loop _ _ _ _ _ _) _ _) in *. clearbody o'.
  cbn [emit emitted]. rewrite omap_app, Hd. cbn [app length].
  split; [by rewrite Hlen|]. by constructor.
Qed.

(** The trace of the [try] block of a batch: the lock, the fresh
    statistics, two lines, the runs, the summary. *)
Lemma batch_try_trace type options fr (m : Machine W) :
  let o := exec (Server.batch_try env bb type options) fr m in
  let N := effective_count options (draw (world m)).2 in
  ∃ (m1 : Machine W) s0 l1 l2 results,
    let loop := exec (Server.session_loop env bb (Z.to_nat N) 1 N []) fr m1 in
    result loop = Ok results ∧
    result o = Ok true ∧
    emitted o = EvFlag true :: EvStats s0 :: EvLog LOG l1 :: EvLog LOG l2
                  :: emitted loop
                  ++ [summary_line (Server.successCount results) N].
Proof.
  intros o N. subst o. unfold Server.batch_try.
  rewrite exec_SetFlag_then, exec_mbind, exec_choose_count.
  assert (∃ m1 : Machine W,
            (if truthy_opt truthy_number (Server.sessionCount options)
             then mkRun [] fr (set_flag m true)
                    (Ok (default 0%Z (Server.sessionCount options)))
             else mkRun [] fr
                    (set_world (set_flag m true) (draw (world (set_flag m true))).1)
                    (Ok (drawn_count (draw (world (set_flag m true))).2)))
            = mkRun [] fr m1 (Ok N)) as (m1 & ->).
  { subst N. unfold effective_count.
    destruct (truthy_opt _ _); by eexists. }
  clearbody N. cbn [result emitted frame machine].
  rewrite exec_now_then, exec_SetStats_then, exec_now_then, !exec_log_then.
  rewrite exec_mbind.
  match goal with
  | |- context [exec (Server.session_loop env bb ?k ?i ?n ?r) ?f ?m'] =>
      destruct (session_loop_spec env bb k i n r f m')
        as (outcomes & _ & Hr & _);
      exists m'; cbv zeta;
      set (o := exec (Server.session_loop env bb k i n r) f m') in *;
      clearbody o
  end.
  rewrite Hr. cbv beta iota. rewrite exec_log_then.
  cbn [exec mret prog_ret emit emitted frame machine result app].
  by eexists _, _, _, (results_of outcomes).
Qed.

Lemma runScheduledSessions_trace type options fr (m : Machine W) :
  isJobRunning m = false →
  let o := exec (Server.runScheduledSessions env bb type options) fr m in
  let N := effective_count options (draw (world m)).2 in
  ∃ (m1 : Machine W) s0 l1 l2 results,
    let loop := exec (Server.session_loop env bb (Z.to_nat N) 1 N []) fr m1 in
    result loop = Ok results ∧
    emitted o = EvFlag true :: EvStats s0 :: EvLog LOG l1 :: EvLog LOG l2
                  :: emitted loop
                  ++ [summary_line (Server.successCount results) N;
                      EvFlag false].
Proof.
  intros Hidle o N. subst o. unfold Server.runScheduledSessions.
  cbn [exec]. rewrite Hidle. unfold try_catch_finally.
  rewrite exec_try_finally, exec_try_catch. cbv zeta.
  destruct (batch_try_trace type options fr m)
    as (m1 & s0 & l1 & l2 & outcomes & Hloop & Hr & He).
  fold N in Hloop, He. clearbody N. cbv zeta in Hloop, He.
  set (t := exec (Server.batch_try env bb type options) fr m) in *. clearbody t.
  rewrite Hr. exists m1, s0, l1, l2, outcomes. cbv zeta. split; [done|].
  simpl. rewrite He. simpl. by rewrite <-app_assoc.
Qed.

End BatchTrace.

Lemma successes_and_failures (results : list bool) :
  (Server.successCount results
   + Z.of_nat (length (List.filter negb results))
   = Z.of_nat (length results))%Z.
Proof.
  unfold Server.successCount.
  induction results as [|[] results IH]; simpl in *; lia.
Qed.

Lemma rejections_returned (i : Z) (oks : list bool) :
  rejections i (Returned <$> oks) = [].
Proof. revert i. induction oks as [|ok oks IH]; intros i; [done|apply IH]. Qed.

(** X11. The job statistics that a batch leaves behind. Started at
    [startTime], a batch of [N] runs ends with [totalSessions = N], with
    [completedSessions] the number of runs that returned [true], and with
    one record in [errors] for each run that rejected, in the order of the
    runs: the number of the run and the message of its error. A run
    rejects in one way only, when a handler reads [.message] of a thrown
    [null] or [undefined]. When no call of the batch was rejected with
    [null] or [undefined], every run returned, [errors] is empty, and a
    failed run is recorded nowhere but in the difference between the two
    counts. *)
Theorem batch_statistics_when_done
    {W : Type} `{World W} env bb type options fr (m : Machine W) :
  isJobRunning m = false →
  let o := exec (Server.runScheduledSessions env bb type options) fr m in
  let N := effective_count options (draw (world m)).2 in
  ∃ started outcomes,
    currentJobStats (machine o) =
      mkJobStats (Some started) (Server.successCount (results_of outcomes)) N
        (rejections 1 outcomes) ∧
    marks (emitted o) = run_marks 1 N outcomes ∧
    length outcomes = Z.to_nat N ∧
    Forall nullish_rejection outcomes ∧
    (civil (emitted o) →
     errors (currentJobStats (machine o)) = [] ∧
     ∃ oks, outcomes = Returned <$> oks ∧
       ((0 ≤ N)%Z →
        (completedSessions (currentJobStats (machine o))
         + Z.of_nat (length (List.filter negb oks))
         = totalSessions (currentJobStats (machine o)))%Z)).
Proof.
  intros Hidle o N.
  destruct (runScheduledSessions_idle env bb type options fr m Hidle)
    as (outcomes & rest & started & Hlen & _ & He & _ & Hm & _ & Hst & Hnull
        & Hok).
  fold o in He, Hst, Hok. fold N in Hlen, He, Hm, Hst. clearbody N.
  exists started, outcomes.
  destruct (credit_all_fields 1 outcomes (mkJobStats (Some started) 0 N []))
    as (Hs & Hc & Ht & Herr).
  rewrite <-Hst in Hs, Hc, Ht, Herr. simpl in Hs, Hc, Ht, Herr.
  split; [|split; [|split; [|split]]].
  - destruct (currentJobStats (machine o)); simpl in *. by subst.
  - by rewrite He, marks_batch.
  - done.
  - done.
  - intros Hcivil. destruct (Hok Hcivil) as (oks & ->).
    rewrite Herr, rejections_returned. split; [done|].
    exists oks. split; [done|]. intros HN.
    rewrite Hc, Ht, results_of_returned.
    pose proof (successes_and_failures oks).
    rewrite length_fmap in Hlen. lia.
Qed.

Lemma batch_statistics_when_done_witness :
  let o := @exec nat (Worlds.null_at 1) bool
             (Server.runScheduledSessions Worlds.deployment (ProviderH 0)
                "on-demand" (Server.mkOptions (Some 2%Z) None))
             None Worlds.idle in
  isJobRunning Worlds.idle = false ∧
  ∃ started outcomes,
    currentJobStats (machine o) =
      mkJobStats (Some started) (Server.successCount (results_of outcomes)) 2
        (rejections 1 outcomes) ∧
    marks (emitted o) = run_marks 1 2 outcomes.
Proof.
  split; [reflexivity|].
  destruct (@batch_statistics_when_done nat (Worlds.null_at 1)
              Worlds.deployment (ProviderH 0) "on-demand"
              (Server.mkOptions (Some 2%Z) None) None Worlds.idle eq_refl)
    as (started & outcomes & Hst & Hm & _).
  exists started, outcomes. split; [exact Hst|exact Hm].
Defined.

(** X12. The delays of a batch. One delay follows each run, the last one
    included, so that a batch of [N] runs waits [N] times; every delay is
    between 2000 and 5000 milliseconds. *)
Theorem batch_delays_between_runs
    {W : Type} `{World W} env bb type options fr (m : Machine W) :
  isJobRunning m = false →
  let o := exec (Server.runScheduledSessions env bb type options) fr m in
  let N := effective_count options (draw (world m)).2 in
  length (omap delay (emitted o)) = Z.to_nat N ∧
  Forall (λ d, 2000 ≤ d ≤ 5000)%Z (omap delay (emitted o)).
Proof.
  intros Hidle o N.
  destruct (runScheduledSessions_trace env bb type options fr m Hidle)
    as (m1 & s0 & l1 & l2 & outcomes & _ & He).
  fold o in He. fold N in He. cbv zeta in He.
  destruct (session_loop_delays env bb (Z.to_nat N) 1 N [] fr m1) as [Hlen Hall].
  rewrite He.
  assert (omap delay
            (EvFlag true :: EvStats s0 :: EvLog LOG l1 :: EvLog LOG l2
             :: emitted (exec (Server.session_loop env bb (Z.to_nat N) 1 N []) fr m1)
             ++ [summary_line (Server.successCount outcomes) N; EvFlag false])
          = omap delay
              (emitted (exec (Server.session_loop env bb (Z.to_nat N) 1 N []) fr m1)))
    as ->; [|done].
  change (EvFlag true :: EvStats s0 :: EvLog LOG l1 :: EvLog LOG l2 :: ?l)
    with ([EvFlag true; EvStats s0; EvLog LOG l1; EvLog LOG l2] ++ l).
  rewrite !omap_app. simpl. by rewrite app_nil_r.
Qed.

Lemma batch_delays_between_runs_witness :
  let o := @exec nat Worlds.hostile bool
             (Server.runScheduledSessions Worlds.deployment (ProviderH 0)
                "on-demand" (Server.mkOptions (Some 2%Z) None))
             None Worlds.idle in
  isJobRunning Worlds.idle = false ∧
  length (omap delay (emitted o)) = 2%nat.
Proof.
  split; [reflexivity|].
  exact (proj1 (@batch_delays_between_runs nat Worlds.hostile
                  Worlds.deployment (ProviderH 0) "on-demand"
                  (Server.mkOptions (Some 2%Z) None) None Worlds.idle
                  eq_refl)).
Defined.

(** ** One turn of the event loop *)

Section TurnFacts.
Context {W : Type} `{World W}.

Lemma task_emit_nil {A} (t : Task W A) : task_emit [] t = t.
Proof. by destruct t. Qed.

Lemma task_emit_emit {A} (a b : list Event) (t : Task W A) :
  task_emit a (task_emit b t) = task_emit (a ++ b) t.
Proof. unfold task_emit; simpl. by rewrite app_assoc. Qed.

(** A task that pauses inside [p] pauses inside whatever follows or
    surrounds [p], in the same state. *)
Lemma sync_run_bind_pending {A B} (p : Prog A) (f : A → Prog B) fr (m : Machine W) :
  finished (task_code (sync_run p fr m)) = false →
  let t := sync_run p fr m in
  let t' := sync_run (bind p f) fr m in
  task_events t' = task_events t ∧ task_frame t' = task_frame t ∧
  task_machine t' = task_machine t ∧ finished (task_code t') = false.
Proof.
  revert fr m.
  induction p as [a|e|T c k IH|T c k IH|ms k IH|k IH|k IH|l s k IH|k IH
                 |b k IH|k IH|s k IH|k IH|s k IH]; intros fr m; simpl;
    try done; ask_world; intros Hp;
    match goal with
    | |- context [sync_run (bind ?p' f) ?fr' ?m'] =>
        destruct (IH fr' m' Hp) as (-> & -> & -> & ->) ||
        (edestruct IH as (-> & -> & -> & ->); [exact Hp|])
    end; done.
Qed.

Lemma sync_run_try_catch_pending {A} (p : Prog A) (h : Thrown → Prog A)
    fr (m : Machine W) :
  finished (task_code (sync_run p fr m)) = false →
  let t := sync_run p fr m in
  let t' := sync_run (try_catch p h) fr m in
  task_events t' = task_events t ∧ task_frame t' = task_frame t ∧
  task_machine t' = task_machine t ∧ finished (task_code t') = false.
Proof.
  revert fr m.
  induction p as [a|e|T c k IH|T c k IH|ms k IH|k IH|k IH|l s k IH|k IH
                 |b k IH|k IH|s k IH|k IH|s k IH]; intros fr m; simpl;
    try done; ask_world; intros Hp;
    match goal with
    | |- context [sync_run (try_catch ?p' h) ?fr' ?m'] =>
        destruct (IH fr' m' Hp) as (-> & -> & -> & ->) ||
        (edestruct IH as (-> & -> & -> & ->); [exact Hp|])
    end; done.
Qed.

Lemma sync_run_try_finally_pending {A} (p : Prog A) (f : Prog unit)
    fr (m : Machine W) :
  finished (task_code (sync_run p fr m)) = false →
  let t := sync_run p fr m in
  let t' := sync_run (try_finally p f) fr m in
  task_events t' = task_events t ∧ task_frame t' = task_frame t ∧
  task_machine t' = task_machine t ∧ finished (task_code t') = false.
Proof.
  revert fr m.
  induction p as [a|e|T c k IH|T c k IH|ms k IH|k IH|k IH|l s k IH|k IH
                 |b k IH|k IH|s k IH|k IH|s k IH]; intros fr m; simpl;
    try done; ask_world; intros Hp;
    match goal with
    | |- context [sync_run (try_finally ?p' f) ?fr' ?m'] =>
        destruct (IH fr' m' Hp) as (-> & -> & -> & ->) ||
        (edestruct IH as (-> & -> & -> & ->); [exact Hp|])
    end; done.
Qed.

(** A task that returns from [p] in this turn goes on with what follows. *)
Lemma sync_run_bind_ret {A B} (p : Prog A) (f : A → Prog B) fr (m : Machine W) a :
  task_code (sync_run p fr m) = Ret a →
  sync_run (bind p f) fr m =
  task_emit (task_events (sync_run p fr m))
    (sync_run (f a) (task_frame (sync_run p fr m))
       (task_machine (sync_run p fr m))).
Proof.
  revert fr m.
  induction p as [a'|e|T c k IH|T c k IH|ms k IH|k IH|k IH|l s k IH|k IH
                 |b k IH|k IH|s k IH|k IH|s k IH]; intros fr m; simpl;
    try done; ask_world; intros Hp;
    rewrite ?IH by done; rewrite ?task_emit_emit; try done.
  injection Hp as ->. by rewrite task_emit_nil.
Qed.

(** A task that throws from [p] in this turn skips what follows. *)
Lemma sync_run_bind_throw {A B} (p : Prog A) (f : A → Prog B) fr (m : Machine W) e :
  task_code (sync_run p fr m) = Throw e →
  sync_run (bind p f) fr m =
  task_emit (task_events (sync_run p fr m))
    (mkTask [] (task_frame (sync_run p fr m)) (task_machine (sync_run p fr m))
       (Throw e)).
Proof.
  revert fr m.
  induction p as [a'|e'|T c k IH|T c k IH|ms k IH|k IH|k IH|l s k IH|k IH
                 |b k IH|k IH|s k IH|k IH|s k IH]; intros fr m; simpl;
    try done; ask_world; intros Hp;
    rewrite ?IH by done; rewrite ?task_emit_emit; try done.
  by injection Hp as ->.
Qed.

Lemma sync_run_try_catch_ret {A} (p : Prog A) (h : Thrown → Prog A)
    fr (m : Machine W) a :
  task_code (sync_run p fr m) = Ret a →
  sync_run (try_catch p h) fr m = sync_run p fr m.
Proof.
  revert fr m.
  induction p as [a'|e|T c k IH|T c k IH|ms k IH|k IH|k IH|l s k IH|k IH
                 |b k IH|k IH|s k IH|k IH|s k IH]; intros fr m; simpl;
    try done; ask_world; intros Hp;
    by rewrite ?IH by done.
Qed.

(** A task that throws from [p] in this turn goes on in the handler. *)
Lemma sync_run_try_catch_throw {A} (p : Prog A) (h : Thrown → Prog A)
    fr (m : Machine W) e :
  task_code (sync_run p fr m) = Throw e →
  sync_run (try_catch p h) fr m =
  task_emit (task_events (sync_run p fr m))
    (sync_run (h e) (task_frame (sync_run p fr m))
       (task_machine (sync_run p fr m))).
Proof.
  revert fr m.
  induction p as [a'|e'|T c k IH|T c k IH|ms k IH|k IH|k IH|l s k IH|k IH
                 |b k IH|k IH|s k IH|k IH|s k IH]; intros fr m; simpl;
    try done; ask_world; intros Hp;
    rewrite ?IH by done; rewrite ?task_emit_emit; try done.
  injection Hp as ->. by rewrite task_emit_nil.
Qed.

End TurnFacts.

Section FirstTurn.
Context {W : Type} `{World W}.
Variable env : gmap string string.
Variable bb : Provider.

(** The first turn of a run: it has paused at an [await], or its location
    draw threw: an error, and the run has returned [false], or [null] or
    [undefined], and the run has rejected. The run lock and the job
    statistics are untouched. *)
Lemma runSession_first_turn n total dom fr (m : Machine W) :
  let t := sync_run (Helpers.runSession env n total bb dom) fr m in
  isJobRunning (task_machine t) = isJobRunning m ∧
  currentJobStats (task_machine t) = currentJobStats m ∧
  (finished (task_code t) = false ∨ task_code t = Ret false ∨
   ∃ k, (answer RandomizeGeolocation (world m)).2 = Err (RaisedNullish k) ∧
        task_code t = Throw (Raised (TypeError_nullish k "message"))).
Proof.
  unfold Helpers.runSession, try_catch_finally, Helpers.runSession_try,
    Helpers.journey.
  set (f := λ created, Helpers.drive created n dom).
  change (λ created, Helpers.drive created n dom) with f. clearbody f.
  unfold Helpers.acquire, Helpers.runSession_catch, Helpers.runSession_finally.
  simpl.
  destruct (answer RandomizeGeolocation (world m)) as [w [geo|[e|k]]]; simpl.
  - split; [done|]. split; [done|]. by left.
  - split; [done|]. split; [done|]. right. by left.
  - split; [done|]. split; [done|]. right. right. by exists k.
Qed.

(** The first turn of an iteration ends in a pause. The job statistics are
    untouched, unless the run has rejected already: then its record is in
    [errors]. *)
Lemma iteration_first_turn i N results fr (m : Machine W) :
  let t := sync_run (Server.iteration env bb i N results) fr m in
  finished (task_code t) = false ∧
  isJobRunning (task_machine t) = isJobRunning m ∧
  ∃ errs,
    currentJobStats (task_machine t) = with_errors errs (currentJobStats m) ∧
    (errs = [] ∨
     ∃ k w, (answer RandomizeGeolocation w).2 = Err (RaisedNullish k) ∧
            errs = [mkErrorRecord (RunIndex i)
                      (message (TypeError_nullish k "message"))]).
Proof.
  assert (∀ s : JobStats, s = with_errors [] s) as Hsame.
  { intros [????]. unfold with_errors. simpl. by rewrite app_nil_r. }
  unfold Server.iteration.
  destruct (runSession_first_turn i N (Server.BASE_DOMAIN env) fr m)
    as (Hfl & Hst & [Hpending|[Hret|(n & Hanswer & Hthrow)]]).
  - match goal with
    | |- context [@mbind _ _ _ _ ?k (try_catch (@mbind _ _ _ _ ?g ?p) ?h)] =>
        change (@mbind _ _ _ _ k (try_catch (@mbind _ _ _ _ g p) h))
          with (bind (try_catch (bind p g) h) k);
        destruct (sync_run_bind_pending p g fr m Hpending)
          as (_ & _ & Hm1 & Hp1);
        destruct (sync_run_try_catch_pending (bind p g) h fr m Hp1)
          as (_ & _ & Hm2 & Hp2);
        destruct (sync_run_bind_pending (try_catch (bind p g) h) k fr m Hp2)
          as (_ & _ & Hm3 & Hp3)
    end.
    cbv zeta in *. rewrite Hm3, Hm2, Hm1.
    split; [done|]. split; [done|]. exists []. rewrite Hst. split; [apply Hsame|by left].
  - match goal with
    | |- context [@mbind _ _ _ _ ?k (try_catch (@mbind _ _ _ _ ?g ?p) ?h)] =>
        change (@mbind _ _ _ _ k (try_catch (@mbind _ _ _ _ g p) h))
          with (bind (try_catch (bind p g) h) k);
        pose proof (sync_run_bind_ret p g fr m false Hret) as E1;
        set (t := sync_run p fr m) in *; clearbody t;
        assert (task_code (sync_run (bind p g) fr m) = Ret (results ++ [false]))
          as Hret1 by (by rewrite E1);
        pose proof (sync_run_try_catch_ret (bind p g) h fr m _ Hret1) as E2;
        pose proof (sync_run_bind_ret (try_catch (bind p g) h) k fr m _
                      ltac:(by rewrite E2)) as E3
    end.
    cbv zeta. rewrite E3, E2, E1. simpl. ask_world.
    split; [done|]. split; [done|]. exists []. rewrite Hst. split; [apply Hsame|by left].
  - match goal with
    | |- context [@mbind _ _ _ _ ?k (try_catch (@mbind _ _ _ _ ?g ?p) ?h)] =>
        change (@mbind _ _ _ _ k (try_catch (@mbind _ _ _ _ g p) h))
          with (bind (try_catch (bind p g) h) k);
        pose proof (sync_run_bind_throw p g fr m _ Hthrow) as E1;
        set (t := sync_run p fr m) in *; clearbody t;
        assert (task_code (sync_run (bind p g) fr m)
                = Throw (Raised (TypeError_nullish n "message")))
          as Hthrow1 by (by rewrite E1);
        pose proof (sync_run_try_catch_throw (bind p g) h fr m _ Hthrow1) as E2;
        rewrite E1 in E2;
        pose proof (sync_run_bind_ret (try_catch (bind p g) h) k fr m results
                      ltac:(by rewrite E2)) as E3
    end.
    cbv zeta. rewrite E3, E2. simpl. ask_world.
    split; [done|]. split; [done|].
    eexists. rewrite Hst. split; [reflexivity|]. right. by exists n, (world m).
Qed.

Lemma session_loop_first_turn k i N results fr (m : Machine W) :
  let t := sync_run (Server.session_loop env bb (S k) i N results) fr m in
  finished (task_code t) = false ∧
  isJobRunning (task_machine t) = isJobRunning m ∧
  ∃ errs,
    currentJobStats (task_machine t) = with_errors errs (currentJobStats m) ∧
    (errs = [] ∨
     ∃ k w, (answer RandomizeGeolocation w).2 = Err (RaisedNullish k) ∧
            errs = [mkErrorRecord (RunIndex i)
                      (message (TypeError_nullish k "message"))]).
Proof.
  cbn [Server.session_loop].
  destruct (iteration_first_turn i N results fr m) as (Hp & Hfl & Hst).
  match goal with
  | |- context [@mbind _ _ _ _ ?k (Server.iteration env bb i N results)] =>
      change (@mbind _ _ _ _ k (Server.iteration env bb i N results))
        with (bind (Server.iteration env bb i N results) k);
      destruct (sync_run_bind_pending (Server.iteration env bb i N results) k
                  fr m Hp) as (_ & _ & Hm1 & Hp1)
  end.
  cbv zeta in *. by rewrite Hm1.
Qed.

Lemma sync_run_choose_count {A} options (f : Z → Prog A) fr (m : Machine W) :
  ∃ w, sync_run (Server.choose_count options ≫= f) fr m =
       sync_run (f (effective_count options (draw (world m)).2)) fr
         (set_world m w).
Proof.
  unfold Server.choose_count, effective_count.
  destruct (truthy_opt _ _).
  - exists (world m). by destruct m.
  - simpl. destruct (draw (world m)) as [w z]. by exists w.
Qed.

(** The first turn of a batch of at least one run: the lock is taken, the
    job statistics are fresh, and the batch has paused inside its first
    run or in the delay after it. *)
Lemma batch_first_turn type options fr (m : Machine W) :
  let N := effective_count options (draw (world m)).2 in
  (1 ≤ N)%Z →
  let t := sync_run (try_catch_finally (Server.batch_try env bb type options)
                       Server.batch_catch Server.batch_finally) fr m in
  finished (task_code t) = false ∧
  isJobRunning (task_machine t) = true ∧
  ∃ started errs,
    currentJobStats (task_machine t) = mkJobStats (Some started) 0 N errs ∧
    (errs = [] ∨
     ∃ k w, (answer RandomizeGeolocation w).2 = Err (RaisedNullish k) ∧
            errs = [mkErrorRecord (RunIndex 1)
                      (message (TypeError_nullish k "message"))]).
Proof.
  intros N HN.
  assert (let t := sync_run (Server.batch_try env bb type options) fr m in
          finished (task_code t) = false ∧
          isJobRunning (task_machine t) = true ∧
          ∃ started errs,
            currentJobStats (task_machine t) = mkJobStats (Some started) 0 N errs ∧
            (errs = [] ∨
             ∃ k w, (answer RandomizeGeolocation w).2 = Err (RaisedNullish k) ∧
                    errs = [mkErrorRecord (RunIndex 1)
                              (message (TypeError_nullish k "message"))]))
    as (Hp & Hfl & Hst).
  { unfold Server.batch_try.
    change (SetFlag true (Ret ()) ≫= ?f) with (SetFlag true (f tt)).
    cbn [sync_run].
    destruct (sync_run_choose_count options
                (λ sessionCount,
                   started ← Date_now_ISO;
                   SetStats (mkJobStats (Some started) 0 sessionCount []) (Ret ());;
                   stamp ← Date_now_ISO;
                   console_log ("[" +:+ stamp +:+ "] Starting " +:+ type
                                +:+ " session management logic...");;
                   console_log ("Starting " +:+ pretty sessionCount
                                +:+ " random sessions...");;
                   results ← Server.session_loop env bb (Z.to_nat sessionCount)
                               1 sessionCount [];
                   console_log (nl +:+ "Completed "
                                +:+ pretty (Server.successCount results) +:+ "/"
                                +:+ pretty sessionCount
                                +:+ " sessions successfully");;
                   mret true)
                fr (set_flag m true)) as (w & ->).
    change (effective_count options (draw (world (set_flag m true))).2) with N.
    clearbody N.
    destruct (Z.to_nat N) as [|k] eqn:Hk; [lia|].
    change (Date_now_ISO ≫= ?f) with (Now f).
    cbn [sync_run]. destruct (clock _) as [w1 started].
    change (SetStats ?s (Ret ()) ≫= ?f) with (SetStats s (f tt)).
    cbn [sync_run].
    change (Date_now_ISO ≫= ?f) with (Now f).
    cbn [sync_run]. destruct (clock _) as [w2 stamp].
    change (console_log ?s ≫= ?f) with (Console LOG s (f tt)).
    cbn [sync_run].
    change (console_log ?s ≫= ?f) with (Console LOG s (f tt)).
    cbn [sync_run].
    match goal with
    | |- context [sync_run (Server.session_loop env bb (S k) 1 N [] ≫= ?g) ?fr' ?m'] =>
        destruct (session_loop_first_turn k 1 N [] fr' m')
          as (Hp & Hfl & errs & Hst & Herrs);
        change (Server.session_loop env bb (S k) 1 N [] ≫= g)
          with (bind (Server.session_loop env bb (S k) 1 N []) g);
        destruct (sync_run_bind_pending (Server.session_loop env bb (S k) 1 N [])
                    g fr' m' Hp) as (_ & _ & Hm1 & Hp1)
    end.
    cbv zeta in *. cbn [task_emit task_code task_machine].
    rewrite Hm1, Hfl, Hst. split; [done|]. split; [done|].
    by exists started, errs. }
  unfold try_catch_finally. cbv zeta in *.
  destruct (sync_run_try_catch_pending _ Server.batch_catch fr m Hp)
    as (_ & _ & Hm1 & Hp1).
  destruct (sync_run_try_finally_pending _ Server.batch_finally fr m Hp1)
    as (_ & _ & Hm2 & Hp2).
  cbv zeta in *. by rewrite Hm2, Hm1.
Qed.

End FirstTurn.

(** X13. An accepted trigger takes the lock before it answers. On an idle
    server, a trigger with a valid key whose batch has at least one run
    (any count but a negative one) is answered 202, and when the handler
    returns the run lock is set, the job statistics are those of the new
    batch ([N] sessions in total, none completed, no error) and the batch
    is pending at an [await]. A second trigger that arrives next is
    therefore refused with 409 and these statistics, and [GET /status]
    reports them as the current job. One record can be in [errors] by
    then, and only in an environment that throws [null] or [undefined]:
    when the location draw of the first run threw such a value, the run
    has rejected before its first pause, and the turn, which runs through
    the [await] of a promise that is settled already, has recorded it. *)
Theorem accepted_trigger_takes_lock_at_once
    {W : Type} `{World W} env bb req (P : Server.Process W) :
  Server.apiKeyAuth env req = true →
  isJobRunning (Server.globals P) = false →
  let N := effective_count (Server.body req)
             (draw (world (Server.globals P))).2 in
  (1 ≤ N)%Z →
  let started := Server.post_trigger_sessions env bb req P in
  Server.status started.2 = 202%Z ∧
  isJobRunning (Server.globals started.1) = true ∧
  (∃ startTime errs,
     currentJobStats (Server.globals started.1)
     = mkJobStats (Some startTime) 0 N errs ∧
     (errs = [] ∨
      ∃ k, errs = [mkErrorRecord (RunIndex 1)
                     (message (TypeError_nullish k "message"))]) ∧
     (polite W → errs = [])) ∧
  (∃ fr p, Server.batches started.1 = Server.batches P ++ [(fr, p)] ∧
           finished p = false) ∧
  ∀ again,
    Server.apiKeyAuth env again = true →
    Server.post_trigger_sessions env bb again started.1 =
      (started.1,
       Server.mkResponse 409
         (Server.ConflictBody "error" "Another job is already running"
            (currentJobStats (Server.globals started.1)))) ∧
    Server.get_status env again started.1 =
      (started.1,
       Server.mkResponse 200
         (Server.StatusBody true
            (Some (currentJobStats (Server.globals started.1))))).
Proof.
  intros Hauth Hidle N HN started.
  assert (∃ response,
            started =
            (Server.start
               (Server.runScheduledSessions env bb "on-demand"
                  (Server.mkOptions (Server.sessionCount (Server.body req))
                     (Some (default 1%Z (Server.maxConcurrent (Server.body req))))))
               P, response) ∧ Server.status response = 202%Z)
    as (response & -> & Hresponse).
  { subst started. unfold Server.post_trigger_sessions.
    rewrite Hauth, Hidle. by eexists. }
  cbn [fst snd].
  unfold Server.start, Server.runScheduledSessions.
  cbn [sync_run]. rewrite Hidle.
  destruct (batch_first_turn env bb "on-demand"
              (Server.mkOptions (Server.sessionCount (Server.body req))
                 (Some (default 1%Z (Server.maxConcurrent (Server.body req)))))
              None (Server.globals P) HN)
    as (Hp & Hfl & startTime & errs & Hst & Herrs).
  set (t := sync_run _ None (Server.globals P)) in *. clearbody t.
  cbn [Server.globals Server.batches].
  split; [done|]. split; [exact Hfl|]. split.
  { exists startTime, errs. split; [exact Hst|].
    destruct Herrs as [->|(k & w & Hanswer & ->)].
    - split; [by left|done].
    - split; [right; by exists k|]. intros Hpolite.
      by destruct (Hpolite _ RandomizeGeolocation w k). }
  split; [by eexists _, _|].
  intros again Hagain.
  unfold Server.post_trigger_sessions, Server.get_status.
  rewrite Hagain. cbn [Server.globals]. by rewrite Hfl.
Qed.

Lemma accepted_trigger_takes_lock_at_once_witness :
  let req := Worlds.with_key (Server.mkOptions (Some 2%Z) None) in
  let P := Server.mkProcess Worlds.idle [] in
  let started :=
    @Server.post_trigger_sessions Worlds.deployment (ProviderH 0) nat
      Worlds.cooperative req P in
  Server.apiKeyAuth Worlds.deployment req = true ∧
  isJobRunning (Server.globals P) = false ∧
  (1 ≤ effective_count (Server.body req)
         (@draw nat Worlds.cooperative (world (Server.globals P))).2)%Z ∧
  Server.status started.2 = 202%Z ∧
  isJobRunning (Server.globals started.1) = true.
Proof.
  assert (1 ≤ effective_count
                (Server.body (Worlds.with_key (Server.mkOptions (Some 2%Z) None)))
                (@draw nat Worlds.cooperative
                   (world (Server.globals (Server.mkProcess Worlds.idle [])))).2)%Z
    as Hcount by (vm_compute; discriminate).
  pose proof (@accepted_trigger_takes_lock_at_once nat Worlds.cooperative
                Worlds.deployment (ProviderH 0)
                (Worlds.with_key (Server.mkOptions (Some 2%Z) None))
                (Server.mkProcess Worlds.idle []) eq_refl eq_refl Hcount)
    as Hthm.
  split; [reflexivity|]. split; [reflexivity|]. split; [exact Hcount|].
  split; [exact (proj1 Hthm)|exact (proj1 (proj2 Hthm))].
Defined.

(** X14. The [maxConcurrent] of a trigger request is echoed and nothing
    else: whatever its value, the handler starts the same batch and leaves
    the process in the same state; only the [maxConcurrent] field of the
    202 response differs, and it is 1 when the request gives none. *)
Theorem maxConcurrent_is_only_echoed
    {W : Type} `{World W} env bb req (P : Server.Process W) (other : option Z) :
  let req' :=
    Server.mkRequest (Server.headers req)
      (Server.mkOptions (Server.sessionCount (Server.body req)) other) in
  (Server.post_trigger_sessions env bb req' P).1
  = (Server.post_trigger_sessions env bb req P).1 ∧
  (∀ type,
     Server.runScheduledSessions env bb type (Server.body req')
     = Server.runScheduledSessions env bb type (Server.body req)) ∧
  (∀ code status message count echoed,
     (Server.post_trigger_sessions env bb req' P).2
     = Server.mkResponse code
         (Server.AcceptedBody status message count echoed) →
     echoed = default 1%Z other ∧
     (Server.post_trigger_sessions env bb req P).2
     = Server.mkResponse code
         (Server.AcceptedBody status message count
            (default 1%Z (Server.maxConcurrent (Server.body req))))).
Proof.
  intros req'. split; [|split].
  - unfold Server.post_trigger_sessions.
    change (Server.apiKeyAuth env req') with (Server.apiKeyAuth env req).
    destruct (Server.apiKeyAuth env req); [|done].
    by destruct (isJobRunning (Server.globals P)).
  - done.
  - intros code status message count echoed.
    unfold Server.post_trigger_sessions.
    change (Server.apiKeyAuth env req') with (Server.apiKeyAuth env req).
    destruct (Server.apiKeyAuth env req); [|done].
    destruct (isJobRunning (Server.globals P)); [done|].
    cbn [snd]. intros [= <- <- <- <- <-]. done.
Qed.

(** X15. A negative [sessionCount] is accepted as it is. The handler
    answers 202 and echoes the count, but the loop of the batch has nothing
    to do: the batch performs no run and no delay, and it has run to its
    end, the lock released again, when the handler returns. It leaves job
    statistics whose total is the negative count. *)
Theorem negative_count_batch_is_empty
    {W : Type} `{World W} env bb req (P : Server.Process W) (n : Z) :
  Server.apiKeyAuth env req = true →
  isJobRunning (Server.globals P) = false →
  Server.sessionCount (Server.body req) = Some n →
  (n < 0)%Z →
  let started := Server.post_trigger_sessions env bb req P in
  started.2 =
    Server.mkResponse 202
      (Server.AcceptedBody "accepted" "Session simulation started"
         (Server.CountValue n)
         (default 1%Z (Server.maxConcurrent (Server.body req)))) ∧
  isJobRunning (Server.globals started.1) = false ∧
  (∃ startTime,
     currentJobStats (Server.globals started.1)
     = mkJobStats (Some startTime) 0 n []) ∧
  Server.batches started.1 = Server.batches P ++ [(None, Ret true)] ∧
  ∃ stats line1 line2,
    emitted (exec (Server.runScheduledSessions env bb "on-demand"
                     (Server.body req)) None (Server.globals P))
    = [EvFlag true; EvStats stats; EvLog LOG line1; EvLog LOG line2;
       summary_line 0 n; EvFlag false].
Proof.
  intros Hauth Hidle Hcount Hneg started. subst started.
  assert (truthy_number n = true) as Htruthy.
  { unfold truthy_number. destruct (Z.eqb_spec n 0); [lia|done]. }
  assert (∃ stats line1 line2,
            emitted (exec (Server.runScheduledSessions env bb "on-demand"
                             (Server.body req)) None (Server.globals P))
            = [EvFlag true; EvStats stats; EvLog LOG line1; EvLog LOG line2;
               summary_line 0 n; EvFlag false]) as Hexec.
  { destruct (runScheduledSessions_trace env bb "on-demand" (Server.body req)
                None (Server.globals P) Hidle)
      as (m1 & s0 & l1 & l2 & outcomes & Hloop & He).
    cbv zeta in *. unfold effective_count in *.
    rewrite Hcount in *. cbn [truthy_opt from_option Datatypes.id] in *.
    rewrite Htruthy in *.
    destruct n as [|p|p]; try lia.
    cbn [Z.to_nat Server.session_loop] in *.
    simpl in Hloop. injection Hloop as <-.
    exists s0, l1, l2. rewrite He. reflexivity. }
  assert (∃ evs (m' : Machine W) startTime,
            sync_run (Server.runScheduledSessions env bb "on-demand"
                        (Server.mkOptions (Some n)
                           (Some (default 1%Z
                                    (Server.maxConcurrent (Server.body req))))))
              None (Server.globals P)
            = mkTask evs None m' (Ret true) ∧
            isJobRunning m' = false ∧
            currentJobStats m' = mkJobStats (Some startTime) 0 n [])
    as (evs & m' & startTime & Hturn & Hfl & Hst).
  { unfold Server.runScheduledSessions.
    cbn [sync_run]. rewrite Hidle.
    unfold try_catch_finally, Server.batch_try, Server.choose_count,
      Server.batch_finally.
    cbn [Server.sessionCount truthy_opt from_option Datatypes.id].
    rewrite Htruthy.
    destruct n as [|p|p]; try lia.
    cbn [Z.to_nat Server.session_loop].
    simpl. repeat ask_world. by eexists _, _, _. }
  unfold Server.post_trigger_sessions.
  rewrite Hauth, Hidle, Hcount.
  cbn [fst snd truthy_opt from_option Datatypes.id].
  rewrite Htruthy. split; [done|].
  unfold Server.start. rewrite Hturn. cbn [Server.globals Server.batches
    task_machine task_frame task_code].
  split; [done|]. split; [by exists startTime|]. split; [done|exact Hexec].
Qed.

Lemma negative_count_batch_is_empty_witness :
  let req := Worlds.with_key (Server.mkOptions (Some (-3)%Z) None) in
  let P := Server.mkProcess Worlds.idle [] in
  let started :=
    @Server.post_trigger_sessions Worlds.deployment (ProviderH 0) nat
      Worlds.cooperative req P in
  Server.apiKeyAuth Worlds.deployment req = true ∧
  isJobRunning (Server.globals P) = false ∧
  Server.sessionCount (Server.body req) = Some (-3)%Z ∧
  (-3 < 0)%Z ∧
  Server.status started.2 = 202%Z ∧
  isJobRunning (Server.globals started.1) = false ∧
  Server.batches started.1 = [(None, Ret true)].
Proof.
  assert (-3 < 0)%Z as Hneg by lia.
  pose proof (@negative_count_batch_is_empty nat Worlds.cooperative
                Worlds.deployment (ProviderH 0)
                (Worlds.with_key (Server.mkOptions (Some (-3)%Z) None))
                (Server.mkProcess Worlds.idle []) (-3)%Z
                eq_refl eq_refl eq_refl Hneg) as (Hresp & Hfl & _ & Hb & _).
  split; [reflexivity|]. split; [reflexivity|]. split; [reflexivity|].
  split; [exact Hneg|]. split; [by rewrite Hresp|]. split; [exact Hfl|exact Hb].
Defined.

(** ** The one-shot script *)

Lemma mark_summary_line (succeeded N : Z) : mark (summary_line succeeded N) = None.
Proof. done. Qed.

Lemma script_marks_returned (i N : Z) (oks : list bool) :
  script_marks i N (Returned <$> oks) = run_marks i N (Returned <$> oks).
Proof.
  revert i. induction oks as [|ok oks IH]; intros i; [done|].
  cbn [fmap list_fmap script_marks run_marks app]. by rewrite <-IH.
Qed.

Section CronFacts.
Context {W : Type} `{World W}.
Variable env : gmap string string.
Variable bb : Provider.

Lemma cron_iteration_spec i N results fr (m : Machine W) :
  let o := exec (Cron.iteration env bb i N results) fr m in
  ∃ outcome d,
    result o = Ok (results ++ results_of [outcome]) ∧
    marks (emitted o) = script_marks i N [outcome] ∧
    omap delay (emitted o) = [d] ∧ (2000 ≤ d ≤ 5000)%Z ∧
    isJobRunning (machine o) = isJobRunning m ∧
    currentJobStats (machine o) = currentJobStats m ∧
    nullish_rejection outcome ∧
    (civil (emitted o) → ∃ ok, outcome = Returned ok).
Proof.
  intros o. subst o. unfold Cron.iteration.
  rewrite exec_mbind.
  match goal with
  | |- context [exec (try_catch ?body ?h) fr m] =>
      assert (∃ outcome,
                result (exec (try_catch body h) fr m)
                = Ok (results ++ results_of [outcome]) ∧
                marks (emitted (exec (try_catch body h) fr m))
                = script_marks i N [outcome] ∧
                omap delay (emitted (exec (try_catch body h) fr m)) = [] ∧
                isJobRunning (machine (exec (try_catch body h) fr m))
                = isJobRunning m ∧
                currentJobStats (machine (exec (try_catch body h) fr m))
                = currentJobStats m ∧
                nullish_rejection outcome ∧
                (civil (emitted (exec (try_catch body h) fr m)) →
                 ∃ ok, outcome = Returned ok))
        as (outcome & Hres & Hmarks & Hdel & Hfl & Hst & Hnull & Hok);
      [|set (t := exec (try_catch body h) fr m) in *; clearbody t]
  end.
  { rewrite exec_try_catch, exec_mbind.
    destruct (runSession_marks env bb i N (Cron.BASE_DOMAIN env) fr m)
      as (outcome & Hr & Hm & _ & Hfl & Hst & Hnull & Hok).
    pose proof (runSession_no_delay env i N bb (Cron.BASE_DOMAIN env) fr m)
      as Hd.
    set (o := exec (Helpers.runSession _ _ _ _ _) fr m) in *. clearbody o.
    rewrite Hr. exists outcome.
    destruct outcome as [ok|v e]; simpl; unfold marks in *;
      rewrite !omap_app, Hd, Hm; simpl; rewrite ?app_nil_r.
    - by repeat split.
    - rewrite prefix_empty.
      repeat split; try done.
      intros Hc. apply civil_app in Hc as [Hc _]. exact (Hok Hc). }
  rewrite Hres. cbv beta iota zeta.
  match goal with
  | |- context [exec (_ ≫= λ r, sleep (r + 2000) ≫= ?f) ?fr' ?m'] =>
      destruct (exec_delay_then f fr' m') as (d & Hd & ->)
  end.
  exists outcome, d. simpl. unfold marks in *.
  rewrite !omap_app, Hdel, Hmarks. rewrite Hfl, Hst.
  simpl. rewrite !app_nil_r.
  repeat split; try done; try lia.
  intros Hc. apply civil_app in Hc as [Hc _]. exact (Hok Hc).
Qed.

Lemma cron_session_loop_spec k i N results fr (m : Machine W) :
  let o := exec (Cron.session_loop env bb k i N results) fr m in
  ∃ outcomes,
    length outcomes = k ∧
    result o = Ok (results ++ results_of outcomes) ∧
    marks (emitted o) = script_marks i N outcomes ∧
    length (omap delay (emitted o)) = k ∧
    Forall (λ d, 2000 ≤ d ≤ 5000)%Z (omap delay (emitted o)) ∧
    isJobRunning (machine o) = isJobRunning m ∧
    currentJobStats (machine o) = currentJobStats m ∧
    Forall nullish_rejection outcomes ∧
    (civil (emitted o) → ∃ oks, outcomes = Returned <$> oks).
Proof.
  revert i results fr m.
  induction k as [|k IH]; intros i results fr m.
  { exists []. simpl. rewrite app_nil_r. repeat split; try done. by exists []. }
  cbn [Cron.session_loop]. rewrite exec_mbind.
  destruct (cron_iteration_spec i N results fr m)
    as (outcome & d & Hr & Hm & Hd & Hrange & Hfl & Hst & Hnull & Hok).
  set (o := exec (Cron.iteration env bb i N results) fr m) in *. clearbody o.
  rewrite Hr.
  destruct (IH (i + 1)%Z (results ++ results_of [outcome]) (frame o) (machine o))
    as (rest & Hlen & Hr' & Hm' & Hdl & Hall & Hfl' & Hst' & Hnull' & Hok').
  set (o' := exec (Cron.session_loop _ _ _ _ _ _) _ _) in *. clearbody o'.
  exists (outcome :: rest). cbn [emit emitted frame machine result length].
  unfold marks in *.
  rewrite Hr', !omap_app, Hm, Hm', Hd, Hfl', Hfl, Hst', Hst, Hlen.
  cbn [app length]. rewrite Hdl.
  split; [done|]. split.
  { unfold results_of. cbn [omap list_omap]. rewrite <-app_assoc.
    by destruct (returned outcome). }
  split.
  { cbn [script_marks app]. by rewrite !app_nil_r, <-!app_assoc. }
  split; [done|]. split; [by constructor|]. split; [done|]. split; [done|].
  split; [by constructor|].
  intros Hc. apply civil_app in Hc as [Hc Hc'].
  destruct (Hok Hc) as (ok & ->). destruct (Hok' Hc') as (oks & ->).
  by exists (ok :: oks).
Qed.

Lemma cron_batch_spec fr (m : Machine W) :
  let o := exec (Cron.runScheduledSessions env bb) fr m in
  let N := drawn_count (draw (world m)).2 in
  ∃ outcomes line1 line2 rest,
    length outcomes = Z.to_nat N ∧
    result o = Ok true ∧
    emitted o = EvLog LOG line1 :: EvLog LOG line2
                  :: rest ++ [summary_line
                                (Server.successCount (results_of outcomes)) N] ∧
    mark (EvLog LOG line1) = None ∧ mark (EvLog LOG line2) = None ∧
    marks rest = script_marks 1 N outcomes ∧
    length (omap delay rest) = Z.to_nat N ∧
    Forall (λ d, 2000 ≤ d ≤ 5000)%Z (omap delay rest) ∧
    isJobRunning (machine o) = isJobRunning m ∧
    currentJobStats (machine o) = currentJobStats m ∧
    Forall nullish_rejection outcomes ∧
    (civil rest → ∃ oks, outcomes = Returned <$> oks).
Proof.
  intros o N. subst o.
  unfold Cron.runScheduledSessions, Cron.runScheduledSessions_try.
  rewrite exec_try_catch, exec_mbind, exec_random_index.
  cbn [result emitted frame machine]. rewrite emit_nil. cbv zeta.
  change (round53 (unit_interval (draw (world m)).2 * (52 - 23 + 1))
          / Helpers.RANDOM_DENOM + 23)%Z with N.
  clearbody N.
  rewrite exec_now_then, !exec_log_then, exec_mbind.
  match goal with
  | |- context [exec (Cron.session_loop env bb ?k ?i ?n ?r) ?f ?m'] =>
      destruct (cron_session_loop_spec k i n r f m')
        as (outcomes & Hlen & Hr & Hm & Hdl & Hall & Hfl & Hst & Hnull & Hok);
      set (o := exec (Cron.session_loop env bb k i n r) f m') in *;
      clearbody o
  end.
  rewrite Hr. cbv beta iota. rewrite exec_log_then.
  cbn [exec mret prog_ret emit emitted frame machine result app].
  cbn [set_world isJobRunning currentJobStats world] in Hfl, Hst.
  eexists outcomes, _, _, (emitted o).
  split; [exact Hlen|]. split; [reflexivity|]. split; [reflexivity|].
  split; [done|]. split; [apply mark_count_line|].
  by repeat (split; [done|]).
Qed.

(** The batch and the exit: whatever the runs do, the script logs its last
    line and exits with code 0. *)
Lemma cron_main_spec fr (m : Machine W) :
  let o := exec (Cron.main env bb) fr m in
  let N := drawn_count (draw (world m)).2 in
  result o = Ok 0%Z ∧
  ∃ outcomes rest,
    Z.of_nat (length outcomes) = N ∧
    emitted o = EvLog LOG "Starting cron service..."
                  :: rest ++ [EvLog LOG "Cron service completed successfully"] ∧
    marks rest = script_marks 1 N outcomes ∧
    Forall nullish_rejection outcomes.
Proof.
  intros o N. subst o. unfold Cron.main.
  rewrite exec_log_then, exec_try_catch, exec_mbind.
  pose proof (drawn_count_range (draw (world m)).2) as HN. fold N in HN.
  destruct (cron_batch_spec fr m)
    as (outcomes & l1 & l2 & rest & Hlen & Hr & He & Hm1 & Hm2 & Hm & _ & _
        & _ & _ & Hnull & _).
  fold N in Hlen, He, Hm. clearbody N.
  set (o := exec (Cron.runScheduledSessions env bb) fr m) in *. clearbody o.
  rewrite Hr. cbv beta iota. rewrite exec_log_then.
  cbn [exec mret prog_ret emit emitted frame machine result app].
  split; [done|]. exists outcomes, (emitted o).
  split; [lia|]. split; [done|]. split; [|done].
  assert (emitted o =
          [EvLog LOG l1; EvLog LOG l2] ++ rest
          ++ [summary_line (Server.successCount (results_of outcomes)) N])
    as -> by done.
  unfold marks in *.
  rewrite !omap_app, Hm. cbn [omap list_omap]. rewrite Hm1, Hm2.
  simpl. by rewrite !app_nil_r.
Qed.

End CronFacts.

(** X16. The batch of the one-shot script. It draws its count [N] from
    [23..52], performs [N] run attempts numbered [1..N], each one ended
    before the next one starts and each one followed by a delay of 2000 to
    5000 milliseconds, logs the summary last and returns [true]. It has no
    run lock: it starts whatever the state of the process. A run that
    rejects, which takes a thrown [null] or [undefined], is reported by an
    error line of the loop and counted in no result. *)
Theorem cron_batch_runs_drawn_count
    {W : Type} `{World W} env bb fr (m : Machine W) :
  let o := exec (Cron.runScheduledSessions env bb) fr m in
  let N := drawn_count (draw (world m)).2 in
  (23 ≤ N ≤ 52)%Z ∧
  result o = Ok true ∧
  ∃ outcomes,
    Z.of_nat (length outcomes) = N ∧
    marks (emitted o) = script_marks 1 N outcomes ∧
    last (emitted o)
    = Some (summary_line (Server.successCount (results_of outcomes)) N) ∧
    Z.of_nat (length (omap delay (emitted o))) = N ∧
    Forall (λ d, 2000 ≤ d ≤ 5000)%Z (omap delay (emitted o)) ∧
    omap flag_write (emitted o) = [] ∧
    Forall nullish_rejection outcomes ∧
    (civil (emitted o) →
     ∃ oks, outcomes = Returned <$> oks ∧
            marks (emitted o) = run_marks 1 N (Returned <$> oks)).
Proof.
  intros o N.
  pose proof (drawn_count_range (draw (world m)).2) as HN. fold N in HN.
  destruct (cron_batch_spec env bb fr m)
    as (outcomes & l1 & l2 & rest & Hlen & Hr & He & Hm1 & Hm2 & Hm & Hdl
        & Hall & Hfl & Hst & Hnull & Hok).
  fold o in Hr, He, Hfl, Hst. fold N in Hlen, He, Hm, Hdl. clearbody N.
  split; [done|]. split; [done|]. exists outcomes.
  assert (emitted o =
          [EvLog LOG l1; EvLog LOG l2] ++ rest
          ++ [summary_line (Server.successCount (results_of outcomes)) N])
    as He' by done.
  assert (marks (emitted o) = script_marks 1 N outcomes) as Hmarks.
  { rewrite He'. unfold marks in *. rewrite !omap_app, Hm.
    cbn [omap list_omap]. rewrite Hm1, Hm2.
    cbn [app]. by rewrite app_nil_r. }
  split; [lia|]. split; [done|]. split; [|split; [|split; [|split; [|split]]]].
  - rewrite He. rewrite !app_comm_cons. by rewrite last_snoc.
  - rewrite He', !omap_app. simpl. rewrite app_nil_r. lia.
  - rewrite He', !omap_app. simpl. by rewrite app_nil_r.
  - pose proof (Emits_exec leaves_lock (Cron.runScheduledSessions env bb) fr m)
      as Hleaves.
    assert (Forall leaves_lock (emitted o)) as Hall'.
    { apply Hleaves.
      unfold Cron.runScheduledSessions, Cron.runScheduledSessions_try.
      apply Emits_try_catch; [|intros; emits].
      emits.
      match goal with
      | |- Emits _ (Cron.session_loop _ _ ?k ?i ?n ?r) =>
          generalize k i r
      end.
      intros k. induction k as [|k IH]; intros i r; [constructor|].
      cbn [Cron.session_loop]. apply Emits_mbind; [|intros; apply IH].
      unfold Cron.iteration.
      apply Emits_mbind; [apply Emits_try_catch|].
      - apply Emits_mbind; [apply runSession_leaves_lock|]. emits.
      - emits.
      - emits. }
    clear -Hall'. induction Hall' as [|ev evs Hev _ IH]; [done|].
    simpl. unfold leaves_lock in Hev. by rewrite Hev.
  - done.
  - intros Hc. rewrite He' in Hc.
    apply civil_app in Hc as [_ Hc]. apply civil_app in Hc as [Hc _].
    destruct (Hok Hc) as (oks & ->). exists oks. split; [done|].
    by rewrite Hmarks, script_marks_returned.
Qed.

(** X17. The exit code of the one-shot script. The script exits with
    code 1, after one error line, when [BROWSERBASE_API_KEY] or
    [BROWSERBASE_PROJECT_ID] is missing or empty, when [BASE_DOMAIN] is not
    a URL, and when the provider rejects the listing of the sessions with
    an error; when the listing is rejected with [null] or [undefined] the
    handler throws, and nothing catches it. When these four checks pass,
    the script runs its batch and always reports success: whatever the runs
    do, even when every one of them fails, it logs
    [Cron service completed successfully] last and exits with code 0. *)
Theorem cron_script_exit_code
    {W : Type} `{World W} env bb fr (m : Machine W) :
  let o := exec (Cron.script env bb) fr m in
  let url := answer (NewURL (Cron.BASE_DOMAIN env)) (world m) in
  let listed :=
    answer (SessionsList bb (Cron.BROWSERBASE_PROJECT_ID env)) url.1 in
  let checked := EvCall (NewURL (Cron.BASE_DOMAIN env)) url.2 in
  let probed :=
    EvCall (SessionsList bb (Cron.BROWSERBASE_PROJECT_ID env)) listed.2 in
  let N := drawn_count (draw listed.1).2 in
  (Cron.BROWSERBASE_API_KEY env = "" →
   result o = Ok 1%Z ∧
   emitted o
   = [EvLog ERROR "Error: BROWSERBASE_API_KEY is required but not set"]) ∧
  (Cron.BROWSERBASE_API_KEY env ≠ "" →
   Cron.BROWSERBASE_PROJECT_ID env = "" →
   result o = Ok 1%Z ∧
   emitted o
   = [EvLog ERROR "Error: BROWSERBASE_PROJECT_ID is required but not set"]) ∧
  (Cron.BROWSERBASE_API_KEY env ≠ "" →
   Cron.BROWSERBASE_PROJECT_ID env ≠ "" →
   match url.2, listed.2 with
   | Err _, _ =>
       result o = Ok 1%Z ∧
       emitted o
       = [checked; EvLog ERROR "Error: BASE_DOMAIN must be a valid URL"]
   | Ok _, Err (Raised e) =>
       result o = Ok 1%Z ∧
       emitted o
       = [checked; probed;
          EvLog ERROR ("Failed to connect to Browserbase: " +:+ message e)]
   | Ok _, Err (RaisedNullish k) =>
       result o = Err (Raised (TypeError_nullish k "message")) ∧
       emitted o = [checked; probed]
   | Ok _, Ok _ =>
       result o = Ok 0%Z ∧
       ∃ outcomes rest,
         Z.of_nat (length outcomes) = N ∧
         emitted o
         = [checked; probed;
            EvLog LOG "Successfully connected to Browserbase";
            EvLog LOG "Starting cron service..."]
           ++ rest ++ [EvLog LOG "Cron service completed successfully"] ∧
         marks rest = script_marks 1 N outcomes
   end).
Proof.
  intros o url listed checked probed N.
  subst o. unfold Cron.script, Cron.startup.
  split; [|split].
  - intros ->. done.
  - intros Hkey ->.
    assert (truthy_string (Cron.BROWSERBASE_API_KEY env) = true) as ->.
    { unfold truthy_string. by apply negb_true_iff, String.eqb_neq. }
    done.
  - intros Hkey Hproject.
    assert (truthy_string (Cron.BROWSERBASE_API_KEY env) = true) as ->.
    { unfold truthy_string. by apply negb_true_iff, String.eqb_neq. }
    assert (truthy_string (Cron.BROWSERBASE_PROJECT_ID env) = true) as ->.
    { unfold truthy_string. by apply negb_true_iff, String.eqb_neq. }
    cbn [negb]. subst checked probed N listed url.
    pose proof (cron_main_spec env bb fr) as Hmain. cbv zeta in Hmain.
    set (main := Cron.main env bb) in *. clearbody main.
    rewrite exec_mbind, exec_mbind, exec_try_catch. simpl.
    destruct (answer (NewURL (Cron.BASE_DOMAIN env)) (world m))
      as [w1 [[]|e1]]; simpl; [|done].
    destruct (answer (SessionsList bb (Cron.BROWSERBASE_PROJECT_ID env)) w1)
      as [w2 [[]|[e2|k]]]; simpl; [|done|done].
    destruct (Hmain (set_world (set_world m w1) w2))
      as (Hr & outcomes & rest & Hlen & He & Hm & _).
    set (o := exec main fr _) in *. clearbody o.
    cbn [set_world world] in Hlen, Hm.
    destruct (result o) as [code|e] eqn:Hres; [|done].
    injection Hr as ->. simpl. split; [done|].
    exists outcomes, rest. by rewrite He.
Qed.

(** The script without its keys; with them, going through to the end; and
    with a listing that the provider rejects, with an error or with
    [null]. *)
Example cron_script_cases :
  let env : gmap string string :=
    {[ "BROWSERBASE_API_KEY" := "bb_live_5f1c";
       "BROWSERBASE_PROJECT_ID" := "0b7e" ]} in
  let run (W : World nat) (env : gmap string string) :=
    @exec nat W Z (Cron.script env (ProviderH 0)) None Worlds.idle in
  (result (run Worlds.cooperative ∅) = Ok 1%Z ∧
   emitted (run Worlds.cooperative ∅)
   = [EvLog ERROR "Error: BROWSERBASE_API_KEY is required but not set"]) ∧
  (result (run Worlds.cooperative env) = Ok 0%Z ∧
   last (emitted (run Worlds.cooperative env))
   = Some (EvLog LOG "Cron service completed successfully") ∧
   length (marks (emitted (run Worlds.cooperative env))) = 46) ∧
  (result (run (Worlds.failing_at 1) env) = Ok 1%Z ∧
   last (emitted (run (Worlds.failing_at 1) env))
   = Some (EvLog ERROR "Failed to connect to Browserbase: Target closed")) ∧
  result (run (Worlds.null_at 1) env) = Err (Raised (TypeError_null "message")).
Proof. by vm_compute. Qed.

(** ** The older single-file server *)

Section MonolithFacts.
Context {W : Type} `{World W}.
Variable env : gmap string string.
Variable bb : Provider.
Variable interpolated : string → string.

(** A run of the older server: the first statement throws, the [catch]
    block logs, nothing else happens. *)
Lemma monolith_runSession_exec n fr (m : Machine W) :
  exec (Monolith.runSession env bb interpolated n) fr m =
  mkRun [EvSession None; error_line n (Monolith.ReferenceError "sessionCount")]
    None m (Ok false).
Proof.
  assert (bool_decide ("sessionCount" ∈
                         Monolith.runSession_scope ++ Monolith.module_scope)
          = false) as Hscope by (vm_compute; reflexivity).
  unfold Monolith.runSession, Monolith.runSession_try, Monolith.identifier.
  rewrite Hscope. done.
Qed.

Lemma monolith_iteration_spec i results fr (m : Machine W) :
  ∃ d,
    (2000 ≤ d ≤ 5000)%Z ∧
    exec (MonolithServer.iteration env bb interpolated i results) fr m =
    mkRun [EvSession None;
           error_line i (Monolith.ReferenceError "sessionCount"); EvSleep d]
      None (set_world m (draw (world m)).1) (Ok (results ++ [false])).
Proof.
  unfold MonolithServer.iteration.
  rewrite exec_mbind.
  match goal with
  | |- context [exec (try_catch ?body ?h) fr m] =>
      assert (exec (try_catch body h) fr m =
              mkRun [EvSession None;
                     error_line i (Monolith.ReferenceError "sessionCount")]
                None m (Ok (results ++ [false]))) as ->
  end.
  { by rewrite exec_try_catch, exec_mbind, monolith_runSession_exec. }
  cbn [result emitted frame machine]. cbv zeta.
  match goal with
  | |- context [exec (_ ≫= λ r, sleep (r + 2000) ≫= ?f) ?fr' ?m'] =>
      destruct (exec_delay_then f fr' m') as (d & Hd & ->)
  end.
  exists d. split; [done|]. done.
Qed.

Lemma monolith_session_loop_spec k i results fr (m : Machine W) :
  ∃ ds (w : W),
    length ds = k ∧ Forall (λ d, 2000 ≤ d ≤ 5000)%Z ds ∧
    exec (MonolithServer.session_loop env bb interpolated k i results) fr m =
    mkRun (monolith_runs i ds) (if k is O then fr else None) (set_world m w)
      (Ok (results ++ replicate k false)).
Proof.
  revert i results fr m.
  induction k as [|k IH]; intros i results fr m.
  { exists [], (world m). simpl. rewrite app_nil_r. by destruct m. }
  cbn [MonolithServer.session_loop]. rewrite exec_mbind.
  destruct (monolith_iteration_spec i results fr m) as (d & Hd & ->).
  cbn [result emitted frame machine].
  destruct (IH (i + 1)%Z (results ++ [false]) None
              (set_world m (draw (world m)).1)) as (ds & w & Hlen & Hall & ->).
  exists (d :: ds), w. split; [by simpl; rewrite Hlen|].
  split; [by constructor|].
  unfold emit. cbn [emitted frame machine result app monolith_runs].
  rewrite <-app_assoc. cbn [app replicate]. f_equal. by destruct k.
Qed.

End MonolithFacts.

Lemma successCount_replicate_false (k : nat) :
  Server.successCount (replicate k false) = 0%Z.
Proof. unfold Server.successCount. by induction k. Qed.

Lemma monolith_runs_no_request (i : Z) (ds : list Z) :
  session_requests (monolith_runs i ds) = [].
Proof. revert i. induction ds as [|d ds IH]; intros i; [done|]. apply IH. Qed.

(** X18. A batch of the older server completes nothing. Because each run
    fails at its first statement, a batch of [N] runs leaves [N] error
    lines and [N] delays and nothing else between the lines that open it
    and the summary, which reads [Completed 0/N]: no collaborator is
    called and no remote session is requested. The batch still returns
    [true] and releases the lock; the job statistics end with no
    completed session and no recorded error. *)
Theorem monolith_batch_completes_nothing
    {W : Type} `{World W} env bb interpolated type options fr (m : Machine W) :
  isJobRunning m = false →
  let o := exec (MonolithServer.runScheduledSessions env bb interpolated
                   type options) fr m in
  let N := effective_count options (draw (world m)).2 in
  result o = Ok true ∧
  isJobRunning (machine o) = false ∧
  (∃ started, currentJobStats (machine o) = mkJobStats (Some started) 0 N []) ∧
  session_requests (emitted o) = [] ∧
  ∃ stats line1 line2 ds,
    length ds = Z.to_nat N ∧
    Forall (λ d, 2000 ≤ d ≤ 5000)%Z ds ∧
    emitted o = EvFlag true :: EvStats stats :: EvLog LOG line1
                  :: EvLog LOG line2
                  :: monolith_runs 1 ds ++ [summary_line 0 N; EvFlag false].
Proof.
  intros Hidle o N. subst o. unfold MonolithServer.runScheduledSessions.
  cbn [exec]. rewrite Hidle. unfold try_catch_finally.
  rewrite exec_try_finally, exec_try_catch. cbv zeta.
  assert (∃ (m1 : Machine W) started stats line1 line2 ds,
            length ds = Z.to_nat N ∧
            Forall (λ d, 2000 ≤ d ≤ 5000)%Z ds ∧
            isJobRunning m1 = true ∧
            currentJobStats m1 = mkJobStats (Some started) 0 N [] ∧
            exec (MonolithServer.batch_try env bb interpolated type options) fr m
            = mkRun (EvFlag true :: EvStats stats :: EvLog LOG line1
                       :: EvLog LOG line2
                       :: monolith_runs 1 ds ++ [summary_line 0 N])
                (if Z.to_nat N is O then fr else None) m1 (Ok true))
    as (m1 & started & stats & line1 & line2 & ds & Hlen & Hall & Hfl & Hst & ->).
  { unfold MonolithServer.batch_try.
    rewrite exec_SetFlag_then, exec_mbind, exec_choose_count.
    assert (∃ m1 : Machine W,
              (if truthy_opt truthy_number (Server.sessionCount options)
               then mkRun [] fr (set_flag m true)
                      (Ok (default 0%Z (Server.sessionCount options)))
               else mkRun [] fr
                      (set_world (set_flag m true)
                         (draw (world (set_flag m true))).1)
                      (Ok (drawn_count (draw (world (set_flag m true))).2)))
              = mkRun [] fr m1 (Ok N) ∧ isJobRunning m1 = true) as (m1 & -> & Hm1).
    { subst N. unfold effective_count.
      destruct (truthy_opt _ _); by eexists. }
    clearbody N. cbn [result emitted frame machine].
    rewrite exec_now_then, exec_SetStats_then, exec_now_then, !exec_log_then.
    rewrite exec_mbind.
    match goal with
    | |- context [exec (MonolithServer.session_loop env bb interpolated ?k ?i ?r)
                    ?f ?m'] =>
        destruct (monolith_session_loop_spec env bb interpolated k i r f m')
          as (ds & w & Hlen & Hall & ->)
    end.
    cbn [result emitted frame machine app]. rewrite exec_log_then.
    rewrite successCount_replicate_false.
    eexists _, _, _, _, _, ds. split; [exact Hlen|]. split; [exact Hall|].
    split; [|split; [|reflexivity]]; [exact Hm1|reflexivity]. }
  cbn [result emitted frame machine exec Server.batch_finally emit app].
  split; [done|]. split; [done|]. split; [by exists started|].
  split.
  - unfold session_requests.
    change (EvFlag true :: EvStats stats :: EvLog LOG line1 :: EvLog LOG line2
            :: ?l)
      with ([EvFlag true; EvStats stats; EvLog LOG line1; EvLog LOG line2] ++ l).
    rewrite !flat_map_app.
    pose proof (monolith_runs_no_request 1 ds) as Hnone.
    unfold session_requests in Hnone. by rewrite Hnone.
  - exists stats, line1, line2, ds. split; [done|]. split; [done|].
    simpl. by rewrite <-app_assoc.
Qed.

Lemma monolith_batch_completes_nothing_witness :
  let o := @exec nat Worlds.cooperative bool
             (MonolithServer.runScheduledSessions Worlds.deployment
                (ProviderH 0) (λ x, x) "Sunday-Wednesday"
                (Server.mkOptions (Some 2%Z) None))
             None Worlds.idle in
  isJobRunning Worlds.idle = false ∧
  result o = Ok true ∧
  session_requests (emitted o) = [].
Proof.
  pose proof (@monolith_batch_completes_nothing nat Worlds.cooperative
                Worlds.deployment (ProviderH 0) (λ x, x) "Sunday-Wednesday"
                (Server.mkOptions (Some 2%Z) None) None Worlds.idle eq_refl)
    as (Hr & _ & _ & Hnone & _).
  split; [reflexivity|]. split; [exact Hr|exact Hnone].
Defined.

(** ** Graceful shutdown *)

Section ShutdownFacts.
Context {W : Type} `{World W}.

(** One poll of the loop: the test, and the next sleep if it holds. *)
Lemma sync_run_wait_for_job fuel w fr (m : Machine W) :
  sync_run (MonolithServer.wait_for_job fuel w ≫= λ _ : (), mret 0%Z) fr m =
  if isJobRunning m && (w <? 300000)%Z then
    match fuel with
    | S fuel' =>
        mkTask [] fr m
          (Sleep 1000 (MonolithServer.wait_for_job fuel' (w + 1000)
                       ≫= λ _ : (), mret 0%Z))
    | O => mkTask [] fr m (Throw (Raised MonolithServer.fuel_exhausted))
    end
  else mkTask [] fr m (Ret 0%Z).
Proof. destruct fuel; simpl; by destruct (isJobRunning m), (w <? 300000)%Z. Qed.

Lemma wake_ups_cons {A} (t : Task W A) m (states : list (Machine W)) :
  wake_ups t (m :: states) =
  wake_ups (task_emit (task_events t) (resume (task_code t) (task_frame t) m))
    states.
Proof. done. Qed.

(** A handler that has returned is woken up no more. *)
Lemma wake_ups_returned {A} evs fr (m : Machine W) (a : A) states :
  ∃ m', wake_ups (mkTask evs fr m (Ret a)) states = mkTask evs fr m' (Ret a).
Proof.
  revert m. induction states as [|m1 states IH]; intros m; [by exists m|].
  rewrite wake_ups_cons. simpl. unfold task_emit. simpl. rewrite app_nil_r.
  apply IH.
Qed.

(** The handler, pending on the sleep after which [waitTime] is
    [1000 * j], is woken up at each of [states]. *)
Lemma wake_ups_waiting (states : list (Machine W)) :
  ∀ (j fuel : nat) evs fr (m : Machine W),
    1 ≤ j ≤ 300 → 300 ≤ fuel + j →
    let t := wake_ups
               (mkTask evs fr m
                  (Sleep 1000 (MonolithServer.wait_for_job fuel
                                 (1000 * Z.of_nat j)
                               ≫= λ _ : (), mret 0%Z)))
               states in
    ∃ k,
      task_events t = evs ++ replicate k (EvSleep 1000) ∧
      k ≤ length states ∧ j + k ≤ 301 ∧
      (task_code t = Ret 0%Z ∧ 1 ≤ k ∧
       (∃ m', states !! (k - 1) = Some m' ∧
              (isJobRunning m' = false ∨ j + k = 301)) ∨
       k = length states ∧ j + k ≤ 300 ∧
       Forall (λ m', isJobRunning m' = true) states ∧
       finished (task_code t) = false).
Proof.
  induction states as [|m1 states IH]; intros j fuel evs fr m Hj Hfuel.
  { exists 0. simpl. rewrite app_nil_r. split; [done|]. split; [done|].
    split; [lia|]. right. repeat split; try done. lia. }
  rewrite wake_ups_cons.
  cbn [task_events task_code task_frame resume].
  rewrite sync_run_wait_for_job.
  assert (let t := wake_ups
                       (task_emit evs
                          (task_emit [EvSleep 1000] (mkTask [] fr m1 (Ret 0%Z))))
                       states in
            task_events t = evs ++ replicate 1 (EvSleep 1000) ∧
            task_code t = Ret 0%Z) as Hexit.
  { unfold task_emit. simpl.
    destruct (wake_ups_returned (evs ++ [EvSleep 1000]) fr m1 0%Z states)
      as (m' & ->). done. }
  destruct (isJobRunning m1) eqn:Hm1; cbn [andb].
  - destruct (Z.ltb_spec (1000 * Z.of_nat j) 300000) as [Hlt|Hge].
    + destruct fuel as [|fuel]; [lia|].
      unfold task_emit.
      cbn [task_events task_frame task_machine task_code].
      replace (1000 * Z.of_nat j + 1000)%Z with (1000 * Z.of_nat (S j))%Z by lia.
      destruct (IH (S j) fuel (evs ++ [EvSleep 1000] ++ []) fr m1
                  ltac:(lia) ltac:(lia))
        as (k & Hev & Hk & Hjk & Hcases).
      exists (S k). cbv zeta in *. rewrite Hev.
      split; [by rewrite <-!app_assoc|]. split; [simpl; lia|]. split; [lia|].
      destruct Hcases as [(Hc & Hk1 & m' & Hl & Hm')|(Hkl & Hle & Hall & Hf)].
      * left. split; [done|]. split; [lia|]. exists m'.
        split; [|destruct Hm'; [by left|right; lia]].
        replace (S k - 1) with (S (k - 1)) by lia. done.
      * right. split; [simpl; lia|]. split; [lia|]. split; [by constructor|done].
    + exists 1. destruct Hexit as [-> ->].
      split; [done|]. split; [simpl; lia|]. split; [lia|].
      left. split; [done|]. split; [lia|]. exists m1. split; [done|].
      right. lia.
  - exists 1. destruct Hexit as [-> ->].
    split; [done|]. split; [simpl; lia|]. split; [lia|].
    left. split; [done|]. split; [lia|]. exists m1. split; [done|]. by left.
Qed.

End ShutdownFacts.

Lemma delays_of_sleeps (k : nat) :
  omap delay (replicate k (EvSleep 1000)) = replicate k 1000%Z.
Proof. induction k as [|k IH]; [done|]. simpl. by f_equal. Qed.

(** X19. Graceful shutdown waits for the batch, for five minutes at most.
    On [SIGTERM] the handler of the older server exits with code 0 at once
    when no batch is running. Otherwise it sleeps 1000 ms at a time and
    looks at the run lock after each sleep, whatever the rest of the
    process did meanwhile: it exits with code 0 at the first wake-up that
    finds the lock free, and at the 300th wake-up at the latest; until then
    it is still waiting. It never exits with another code, and the loop
    needs no more than 300 iterations. *)
Theorem sigterm_waits_at_most_five_minutes
    {W : Type} `{World W} (fuel : nat) (m0 : Machine W)
    (states : list (Machine W)) :
  300 ≤ fuel →
  let t0 := sync_run (MonolithServer.on_SIGTERM fuel) None m0 in
  let t := wake_ups t0 states in
  ∃ k,
    omap delay (task_events t) = replicate k 1000%Z ∧
    k ≤ 300 ∧ k ≤ length states ∧
    (isJobRunning m0 = false → k = 0 ∧ task_code t0 = Ret 0%Z) ∧
    (300 ≤ length states → task_code t = Ret 0%Z) ∧
    (Exists (λ m', isJobRunning m' = false) states → task_code t = Ret 0%Z) ∧
    (isJobRunning m0 = true →
     Forall (λ m', isJobRunning m' = true) states →
     length states < 300 →
     k = length states ∧ finished (task_code t) = false) ∧
    (finished (task_code t) = true → task_code t = Ret 0%Z).
Proof.
  intros Hfuel t0 t. subst t t0. unfold MonolithServer.on_SIGTERM.
  destruct (isJobRunning m0) eqn:Hm0.
  - destruct fuel as [|fuel]; [lia|].
    assert (sync_run
              (console_log "SIGTERM received. Performing graceful shutdown...";;
               GetFlag (λ running,
                 when running
                   (console_log "Waiting for current job to complete...";;
                    MonolithServer.wait_for_job (S fuel) 0));;
               mret 0%Z) None m0
            = mkTask [EvLog LOG "SIGTERM received. Performing graceful shutdown...";
                      EvLog LOG "Waiting for current job to complete..."]
                None m0
                (Sleep 1000 (MonolithServer.wait_for_job fuel
                               (1000 * Z.of_nat 1)
                             ≫= λ _ : (), mret 0%Z))) as ->.
    { simpl. rewrite Hm0. simpl. by rewrite Hm0. }
    destruct (wake_ups_waiting states 1 fuel
                [EvLog LOG "SIGTERM received. Performing graceful shutdown...";
                 EvLog LOG "Waiting for current job to complete..."]
                None m0 ltac:(lia) ltac:(lia))
      as (k & Hev & Hk & Hjk & Hcases).
    cbv zeta in *. exists k. rewrite Hev, omap_app, delays_of_sleeps.
    split; [done|]. split; [lia|]. split; [done|]. split; [done|].
    destruct Hcases as [(Hc & Hk1 & m' & Hl & Hm')|(Hkl & Hle & Hall & Hf)].
    + split; [done|]. split; [done|]. split; [|done].
      intros _ Hbusy Hlen. exfalso.
      rewrite Forall_forall in Hbusy.
      pose proof (Hbusy m' (list_elem_of_lookup_2 _ _ _ Hl)) as Hb.
      destruct Hm' as [Hfree|Hlast]; [congruence|lia].
    + split; [lia|]. split.
      { intros Hex. exfalso. apply Exists_exists in Hex as (m' & Hin & Hfree).
        rewrite Forall_forall in Hall. specialize (Hall m' Hin). congruence. }
      split; [done|]. intros Hfin. congruence.
  - assert (sync_run
              (console_log "SIGTERM received. Performing graceful shutdown...";;
               GetFlag (λ running,
                 when running
                   (console_log "Waiting for current job to complete...";;
                    MonolithServer.wait_for_job fuel 0));;
               mret 0%Z) None m0
            = mkTask [EvLog LOG "SIGTERM received. Performing graceful shutdown..."]
                None m0 (Ret 0%Z)) as ->.
    { simpl. by rewrite Hm0. }
    destruct (wake_ups_returned
                [EvLog LOG "SIGTERM received. Performing graceful shutdown..."]
                None m0 0%Z states) as (m' & ->).
    exists 0. simpl. split; [done|]. split; [lia|]. split; [lia|].
    by repeat split.
Qed.

Lemma sigterm_waits_at_most_five_minutes_witness :
  let t0 := @sync_run nat Worlds.cooperative Z
              (MonolithServer.on_SIGTERM 300) None Worlds.busy in
  let t := @wake_ups nat Worlds.cooperative Z t0
             [Worlds.busy; Worlds.busy; Worlds.idle; Worlds.busy] in
  300 ≤ 300 ∧ task_code t = Ret 0%Z ∧
  ∃ k, omap delay (task_events t) = replicate k 1000%Z ∧ k ≤ 4.
Proof.
  assert (300 ≤ 300) as Hfuel by lia.
  destruct (@sigterm_waits_at_most_five_minutes nat Worlds.cooperative 300
              Worlds.busy [Worlds.busy; Worlds.busy; Worlds.idle; Worlds.busy]
              Hfuel)
    as (k & Hev & _ & Hk & _ & _ & Hfree & _).
  split; [exact Hfuel|]. split.
  - apply Hfree. do 2 apply Exists_cons_tl. by apply Exists_cons_hd.
  - exists k. split; [exact Hev|exact Hk].
Defined.

(** ** The environment check at startup *)

Lemma env_or_configured (env : gmap string string) (key : string) :
  truthy_string (Server.env_or env key "") = true ↔ configured env key.
Proof.
  unfold Server.env_or, configured.
  destruct (env !! key) as [v|]; simpl.
  - unfold truthy_string. destruct (String.eqb_spec v "") as [->|Hv]; simpl.
    + split; [done|]. by intros (value & Hne & [= <-]).
    + destruct (String.eqb_spec v "") as [->|_]; [done|]. simpl.
      split; [|done]. intros _. by exists v.
  - split; [done|]. by intros (value & _ & ?).
Qed.

(** X20. The startup check and the middleware. The check lets the module
    go on, silently, only when [BROWSERBASE_API_KEY],
    [BROWSERBASE_PROJECT_ID] and [API_KEY] are all set and not empty;
    otherwise the process exits with code 1 after one error line, which
    names the first of the three that is missing. On a server that has
    passed the check, the middleware lets a request through exactly when
    its [x-api-key] header is the configured key. *)
Theorem startup_check_requires_keys
    {W : Type} `{World W} env fr (m : Machine W) :
  let o := exec (Startup.validate_environment env) fr m in
  (result o = Ok None ∧ emitted o = [] ∧
   configured env "BROWSERBASE_API_KEY" ∧
   configured env "BROWSERBASE_PROJECT_ID" ∧
   configured env "API_KEY" ∧
   ∀ req, Server.apiKeyAuth env req = true ↔
          Server.headers req !! "x-api-key" = Some (Server.API_KEY env)) ∨
  (result o = Ok (Some 1%Z) ∧
   ∃ before key after,
     ["BROWSERBASE_API_KEY"; "BROWSERBASE_PROJECT_ID"; "API_KEY"]
     = before ++ key :: after ∧
     Forall (configured env) before ∧
     ¬ configured env key ∧
     emitted o = [missing_line key]).
Proof.
  intros o. subst o. unfold Startup.validate_environment.
  unfold Startup.BROWSERBASE_API_KEY, Startup.BROWSERBASE_PROJECT_ID,
    Server.API_KEY.
  pose proof (env_or_configured env "BROWSERBASE_API_KEY") as H1.
  pose proof (env_or_configured env "BROWSERBASE_PROJECT_ID") as H2.
  pose proof (env_or_configured env "API_KEY") as H3.
  destruct (truthy_string (Server.env_or env "BROWSERBASE_API_KEY" "")) eqn:E1;
    cbn [negb].
  2: { right. split; [done|].
       exists [], "BROWSERBASE_API_KEY", ["BROWSERBASE_PROJECT_ID"; "API_KEY"].
       split; [done|]. split; [done|]. split; [|done].
       intros Hc. apply H1 in Hc. done. }
  destruct (truthy_string (Server.env_or env "BROWSERBASE_PROJECT_ID" "")) eqn:E2;
    cbn [negb].
  2: { right. split; [done|].
       exists ["BROWSERBASE_API_KEY"], "BROWSERBASE_PROJECT_ID", ["API_KEY"].
       split; [done|]. split; [constructor; [by apply H1|done]|].
       split; [|done]. intros Hc. apply H2 in Hc. done. }
  destruct (truthy_string (Server.env_or env "API_KEY" "")) eqn:E3; cbn [negb].
  2: { right. split; [done|].
       exists ["BROWSERBASE_API_KEY"; "BROWSERBASE_PROJECT_ID"], "API_KEY", [].
       split; [done|].
       split; [constructor; [by apply H1|constructor; [by apply H2|done]]|].
       split; [|done]. intros Hc. apply H3 in Hc. done. }
  left. split; [done|]. split; [done|].
  split; [by apply H1|]. split; [by apply H2|]. split; [by apply H3|].
  intros req. unfold Server.apiKeyAuth, Server.API_KEY.
  destruct (Server.headers req !! "x-api-key") as [k|]; [|done].
  destruct (String.eqb_spec k (Server.env_or env "API_KEY" "")) as [->|Hne].
  - rewrite E3. done.
  - rewrite andb_false_r. split; [done|]. intros [= ->]. done.
Qed.

(** ** Sessions acquired and released by a batch *)

Lemma balanced_app (a b : list Event) :
  balanced a → balanced b → balanced (a ++ b).
Proof.
  unfold balanced, release_attempts. intros Ha Hb.
  by rewrite omap_app, !flat_map_app, Ha, Hb.
Qed.

Lemma balanced_silent (evs : list Event) :
  Forall (λ ev, released ev = [] ∧ acquired ev = None) evs →
  balanced evs ∧ omap acquired evs = [].
Proof.
  unfold balanced, release_attempts.
  induction 1 as [|ev evs [Hr Ha] _ [IH1 IH2]]; [done|].
  simpl. by rewrite Hr, Ha.
Qed.

Section Accounting.
Context {W : Type} `{World W}.
Variable env : gmap string string.
Variable bb : Provider.

Lemma runSession_balanced n total dom fr (m : Machine W) :
  let o := exec (Helpers.runSession env n total bb dom) fr m in
  balanced (emitted o) ∧ length (omap acquired (emitted o)) ≤ 1.
Proof.
  intros o.
  destruct (runSession_sessions env n total bb dom fr m) as [Hacq Hrel].
  fold o in Hacq, Hrel. unfold balanced. rewrite Hrel, Hacq.
  destruct (frame o) as [s|]; simpl; [|split; [done|lia]].
  unfold releasable. rewrite app_nil_r. split; [done|lia].
Qed.

Lemma iteration_balanced i N results fr (m : Machine W) :
  let o := exec (Server.iteration env bb i N results) fr m in
  balanced (emitted o) ∧ length (omap acquired (emitted o)) ≤ 1.
Proof.
  intros o. subst o. unfold Server.iteration.
  rewrite exec_mbind.
  match goal with
  | |- context [exec (try_catch ?body ?h) fr m] =>
      assert (∃ rs, result (exec (try_catch body h) fr m) = Ok rs ∧
                    balanced (emitted (exec (try_catch body h) fr m)) ∧
                    length (omap acquired (emitted (exec (try_catch body h) fr m)))
                    ≤ 1)
        as (rs & Hres & Hbal & Hlen);
      [|set (t := exec (try_catch body h) fr m) in *; clearbody t]
  end.
  { rewrite exec_try_catch, exec_mbind.
    destruct (runSession_marks env bb i N (Server.BASE_DOMAIN env) fr m)
      as (outcome & Hr & _).
    destruct (runSession_balanced i N (Server.BASE_DOMAIN env) fr m)
      as [Hbal Hlen].
    set (o := exec (Helpers.runSession _ _ _ _ _) fr m) in *. clearbody o.
    rewrite Hr.
    destruct outcome as [[]|v e]; simpl; eexists; (split; [reflexivity|]).
    - split.
      + apply balanced_app; [done|]. apply balanced_silent. by repeat constructor.
      + by rewrite omap_app, length_app, Nat.add_0_r.
    - by rewrite app_nil_r.
    - split.
      + apply balanced_app; [done|]. apply balanced_silent. by repeat constructor.
      + by rewrite omap_app, length_app, Nat.add_0_r. }
  rewrite Hres. cbv beta iota zeta.
  match goal with
  | |- context [exec (_ ≫= λ r, sleep (r + 2000) ≫= ?f) ?fr' ?m'] =>
      destruct (exec_delay_then f fr' m') as (d & Hd & ->)
  end.
  simpl. split.
  - apply balanced_app; [done|]. apply balanced_silent. by repeat constructor.
  - by rewrite omap_app, length_app, Nat.add_0_r.
Qed.

Lemma session_loop_balanced k i N results fr (m : Machine W) :
  let o := exec (Server.session_loop env bb k i N results) fr m in
  balanced (emitted o) ∧ length (omap acquired (emitted o)) ≤ k.
Proof.
  revert i results fr m.
  induction k as [|k IH]; intros i results fr m; [done|].
  cbn [Server.session_loop]. cbv zeta. rewrite exec_mbind.
  destruct (iteration_spec env bb i N results fr m) as (outcome & Hr & _).
  destruct (iteration_balanced i N results fr m) as [Hbal Hlen].
  set (o := exec (Server.iteration env bb i N results) fr m) in *. clearbody o.
  rewrite Hr.
  destruct (IH (i + 1)%Z (results ++ results_of [outcome]) (frame o) (machine o))
    as [Hbal' Hlen'].
  set (o' := exec (Server.session_loop _ _ _ _ _ _) _ _) in *. clearbody o'.
  cbn [emit emitted]. split; [by apply balanced_app|].
  rewrite omap_app, length_app. lia.
Qed.

End Accounting.

(** X21. A batch releases every session it acquires. In a batch of [N]
    runs at most [N] remote sessions are acquired, and the release
    attempts of the batch are exactly the identifiers of the acquired
    sessions, in the order of acquisition (a session without identifier
    apart): no session is left without a release attempt, none is released
    twice, and nothing else is released. *)
Theorem batch_releases_every_session
    {W : Type} `{World W} env bb type options fr (m : Machine W) :
  isJobRunning m = false →
  let o := exec (Server.runScheduledSessions env bb type options) fr m in
  let N := effective_count options (draw (world m)).2 in
  release_attempts (emitted o) = flat_map releasable (omap acquired (emitted o)) ∧
  length (omap acquired (emitted o)) ≤ Z.to_nat N.
Proof.
  intros Hidle o N.
  destruct (runScheduledSessions_trace env bb type options fr m Hidle)
    as (m1 & s0 & l1 & l2 & outcomes & _ & He).
  fold o in He. fold N in He. cbv zeta in He.
  destruct (session_loop_balanced env bb (Z.to_nat N) 1 N [] fr m1)
    as [Hbal Hlen].
  set (loop := exec (Server.session_loop env bb (Z.to_nat N) 1 N []) fr m1) in *.
  clearbody loop.
  assert (emitted o =
          [EvFlag true; EvStats s0; EvLog LOG l1; EvLog LOG l2]
          ++ emitted loop
          ++ [summary_line (Server.successCount outcomes) N; EvFlag false])
    as -> by done.
  split.
  - apply balanced_app; [apply balanced_silent; by repeat constructor|].
    apply balanced_app; [done|]. apply balanced_silent. by repeat constructor.
  - rewrite !omap_app, !length_app. simpl. lia.
Qed.

Lemma batch_releases_every_session_witness :
  let o := @exec nat Worlds.cooperative bool
             (Server.runScheduledSessions Worlds.deployment (ProviderH 0)
                "on-demand" (Server.mkOptions (Some 2%Z) None))
             None Worlds.idle in
  isJobRunning Worlds.idle = false ∧
  release_attempts (emitted o) = flat_map releasable (omap acquired (emitted o)) ∧
  length (omap acquired (emitted o)) ≤ 2.
Proof.
  split; [reflexivity|].
  exact (@batch_releases_every_session nat Worlds.cooperative
           Worlds.deployment (ProviderH 0) "on-demand"
           (Server.mkOptions (Some 2%Z) None) None Worlds.idle eq_refl).
Defined.

(** X22. The UTM object of a generated user obeys the rule of
    [generateUtm], which [generateUser] calls: [utm_source], [utm_medium]
    and [utm_campaign] are entries of their tables, and [utm_term] is set,
    to a search term of the table, exactly when the medium is
    ["search"]. *)
Theorem generateUser_utm_params
    {W : Type} `{World W} fr (m : Machine W) :
  ∃ user source medium campaign,
    result (exec Helpers.generateUser fr m) = Ok user ∧
    utmParams user !! "utm_source" = Some source ∧
    source ∈ Helpers.sources ∧
    utmParams user !! "utm_medium" = Some medium ∧
    medium ∈ Helpers.mediums ∧
    utmParams user !! "utm_campaign" = Some campaign ∧
    campaign ∈ Helpers.campaigns ∧
    (is_Some (utmParams user !! "utm_term") ↔ medium = "search") ∧
    (∀ term, utmParams user !! "utm_term" = Some term →
             term ∈ Helpers.searchTerms).
Proof.
  destruct (exec_generateUser fr m)
    as (adj & first & second & suffix & dom & pw & src & med & cam & term & w
        & -> & _ & _ & _ & _ & _ & _ & Hsrc & Hmed & Hcam & Hterm).
  destruct (utm_object_lookup src med cam term) as (Ls & Lm & Lc & Lt).
  eexists _, src, med, cam. split; [reflexivity|].
  cbn [utmParams]. rewrite Ls, Lm, Lc, Lt.
  repeat (split; [done|]). split.
  - destruct term as [t|].
    + destruct Hterm as [-> _]. split; [done|]. by eexists.
    + split; [by intros [? [=]]|done].
  - intros t ->. by destruct Hterm.
Qed.

(** ** A successful run *)

Section SuccessFacts.
Context {W : Type} `{World W}.

(** Without a session object the journey fails before it connects. *)
Lemma drive_without_session n dom fr (m : Machine W) :
  ∃ e, result (exec (Helpers.drive None n dom) fr m) = Err e.
Proof.
  unfold Helpers.drive. cbv zeta. rewrite exec_mbind.
  unfold await. cbn [exec]. destruct (answer RandomizeBrowser (world m)) as [w [choice|e]].
  - cbn [settle exec emit result emitted frame machine].
    rewrite exec_log_then. rewrite exec_mbind. cbn [on exec result emit].
    by eexists.
  - cbn [settle exec emit result emitted frame machine]. by eexists.
Qed.

Lemma runSession_try_success env n total bb dom (m : Machine W) :
  let t := exec (Helpers.runSession_try env n total bb dom) None m in
  result t = Ok true → ∃ s, frame t = Some s.
Proof.
  intros t. subst t. unfold Helpers.runSession_try, Helpers.journey.
  rewrite exec_log_then, exec_mbind.
  pose proof (acquire_spec (env !! "BROWSERBASE_PROJECT_ID") bb None m)
    as (_ & _ & _ & _ & _ & Ha).
  cbv zeta in Ha.
  set (a := exec (Helpers.acquire _ bb) None m) in *. clearbody a.
  destruct (result a) as [created|e]; [|done].
  destruct Ha as [Hfr _].
  pose proof (drive_spec created n dom (frame a) (machine a)) as (Hfd & _).
  cbv zeta in Hfd. cbn [emit result frame]. rewrite Hfd, Hfr.
  destruct created as [s|]; [by exists s|].
  destruct (drive_without_session n dom None (machine a)) as (e & ->).
  done.
Qed.

End SuccessFacts.

Section SuccessTheorem.
Context {W : Type} `{World W}.

Lemma runSession_frame_on_success env n total bb dom fr (m : Machine W) :
  let o := exec (Helpers.runSession env n total bb dom) fr m in
  result (exec (Helpers.runSession_try env n total bb dom) None m) = Ok true →
  ∃ s, frame o = Some s.
Proof.
  intros o Htry. subst o.
  destruct (runSession_try_success env n total bb dom m Htry) as (s & Hs).
  exists s. unfold Helpers.runSession, try_catch_finally.
  cbn [exec emit frame].
  rewrite exec_try_finally, exec_try_catch, Htry. cbv zeta.
  cbn [frame].
  match goal with
  | |- frame (exec (Helpers.runSession_finally ?pid bb) ?fr' ?m') = _ =>
      destruct (finally_spec pid bb fr' m') as (-> & _)
  end.
  exact Hs.
Qed.

End SuccessTheorem.

(** X23. A run that returns [true] has held exactly one remote session:
    it acquired one session, no other, and its only release attempt is for
    that session (none if the session has no identifier); its verdict is
    the completion line. A run that acquires no session cannot succeed. *)
Theorem successful_run_holds_one_session
    {W : Type} `{World W} env n total bb dom fr (m : Machine W) :
  let o := exec (Helpers.runSession env n total bb dom) fr m in
  result o = Ok true →
  ∃ s,
    omap acquired (emitted o) = [s] ∧
    release_attempts (emitted o) = releasable s ∧
    ∃ verdict, verdict ∈ emitted o ∧ completion_line verdict.
Proof.
  intros o Hres.
  destruct (runSession_spec env n total bb dom fr m)
    as (pre & lines & fin & escaped & Hr & He & _ & _ & _ & _ & Hv & _).
  fold o in Hr, He. rewrite Hres in Hr.
  assert (result (exec (Helpers.runSession_try env n total bb dom) None m)
          = Ok true) as Htry.
  { destruct escaped; [done|]. cbn [from_option] in Hr.
    destruct (result (exec _ None m)) as [v|[e|k]]; [|done..].
    destruct Hv as [-> _]. done. }
  rewrite Htry in Hv. destruct Hv as (_ & line & -> & Hline).
  destruct (runSession_frame_on_success env n total bb dom fr m Htry)
    as (s & Hs).
  destruct (runSession_sessions env n total bb dom fr m) as [Hacq Hrel].
  cbv zeta in *. fold o in Hs, Hacq, Hrel.
  rewrite Hs in Hacq, Hrel. exists s. split; [exact Hacq|].
  split; [exact Hrel|].
  exists line. split; [|done]. rewrite He.
  do 2 (apply elem_of_cons; right). apply elem_of_app. right.
  by apply elem_of_cons; left.
Qed.

Lemma successful_run_holds_one_session_witness :
  let o := @exec nat Worlds.cooperative bool
             (Helpers.runSession ∅ 1 1 (ProviderH 0) "https://demo/")
             None Worlds.idle in
  result o = Ok true ∧
  omap acquired (emitted o) = [Worlds.session1] ∧
  release_attempts (emitted o) = ["5f1c2d9e"].
Proof.
  assert (result (@exec nat Worlds.cooperative bool
                    (Helpers.runSession ∅ 1 1 (ProviderH 0) "https://demo/")
                    None Worlds.idle) = Ok true) as Hres
    by (vm_compute; reflexivity).
  destruct (@successful_run_holds_one_session nat Worlds.cooperative ∅ 1 1
              (ProviderH 0) "https://demo/" None Worlds.idle Hres)
    as (s & Hacq & Hrel & _).
  split; [exact Hres|].
  assert (omap acquired
            (emitted (@exec nat Worlds.cooperative bool
                        (Helpers.runSession ∅ 1 1 (ProviderH 0) "https://demo/")
                        None Worlds.idle)) = [Worlds.session1]) as Hone
    by (vm_compute; reflexivity).
  split; [exact Hone|].
  rewrite Hone in Hacq. injection Hacq as <-. exact Hrel.
Defined.

(** ** The tools of the serverless handler *)

Lemma round53_exact (x : Z) : (Z.abs x ≤ 2 ^ 53)%Z → round53 x = x.
Proof.
  intros Hx.
  destruct (Z.eq_dec (Z.abs x) (2 ^ 53)%Z) as [Heq|Hne].
  - destruct (Z.abs_eq_or_opp x) as [Habs|Habs]; rewrite Habs in Heq.
    + by subst x.
    + assert (x = - 2 ^ 53)%Z as -> by lia. done.
  - apply round53_small. lia.
Qed.

(** On integers that binary64 holds exactly, only the product is rounded,
    and the result stays between the bounds. *)
Lemma scaled_within (r lo hi : Z) :
  (0 ≤ r < Helpers.RANDOM_DENOM)%Z →
  (- 2 ^ 53 ≤ lo)%Z → (lo ≤ hi)%Z → (hi ≤ 2 ^ 53)%Z → (hi - lo < 2 ^ 53)%Z →
  Handler.scaled r lo hi
  = (round53 (r * (hi - lo + 1)) / Helpers.RANDOM_DENOM + lo)%Z ∧
  (lo ≤ Handler.scaled r lo hi ≤ hi)%Z.
Proof.
  intros Hr Hlo Hle Hhi Hwidth. unfold Handler.scaled. cbv zeta.
  rewrite (round53_exact (hi - lo)) by lia.
  rewrite (round53_exact (hi - lo + 1)) by lia.
  pose proof (scaled_range r (hi - lo + 1) Hr
                ltac:(unfold Helpers.RANDOM_DENOM; lia)) as Hs.
  rewrite round53_exact by lia. split; [done|lia].
Qed.

Section HandlerToolFacts.
Context {W : Type} `{World W}.

Lemma exec_randomNumber lo hi fr (m : Machine W) :
  exec (Handler.randomNumber lo hi) fr m =
  mkRun [] fr (set_world m (draw (world m)).1)
    (Ok match lo, hi with
        | Some a, Some b =>
            Some (Handler.scaled (unit_interval (draw (world m)).2) a b)
        | _, _ => None
        end).
Proof. unfold Handler.randomNumber. simpl. by destruct (draw (world m)). Qed.

End HandlerToolFacts.

(** X24. [randomNumber(min, max)] on integers [min <= max] that binary64
    holds exactly (from [-2^53] to [2^53], and less than [2^53] apart)
    returns an integer between [min] and [max], both included. Each of
    these values is returned for an interval of the random number of the
    same width, up to the rounding of the product: [2^j] units of [2^-53]
    at either end when the bounds are at most [2^(j+1) - 1] apart. It draws
    one random number and does nothing else. *)
Theorem randomNumber_within_bounds
    {W : Type} `{World W} (lo hi : Z) fr (m : Machine W) :
  (- 2 ^ 53 ≤ lo)%Z → (lo ≤ hi)%Z → (hi ≤ 2 ^ 53)%Z → (hi - lo < 2 ^ 53)%Z →
  ∃ n, exec (Handler.randomNumber (Some lo) (Some hi)) fr m =
         mkRun [] fr (set_world m (draw (world m)).1) (Ok (Some n)) ∧
       (lo ≤ n ≤ hi)%Z ∧
       ∀ j k, (0 ≤ j)%Z → (hi - lo + 1 ≤ 2 ^ (j + 1))%Z →
         (n = k →
          ((k - lo) * Helpers.RANDOM_DENOM - 2 ^ j
           ≤ (hi - lo + 1) * unit_interval (draw (world m)).2
           < (k - lo + 1) * Helpers.RANDOM_DENOM + 2 ^ j)%Z) ∧
         (((k - lo) * Helpers.RANDOM_DENOM + 2 ^ j
           ≤ (hi - lo + 1) * unit_interval (draw (world m)).2
           < (k - lo + 1) * Helpers.RANDOM_DENOM - 2 ^ j)%Z →
          n = k).
Proof.
  intros Hlo Hle Hhi Hwidth. rewrite exec_randomNumber.
  eexists. split; [reflexivity|].
  pose proof (unit_interval_range (draw (world m)).2) as Hr.
  set (r := unit_interval (draw (world m)).2) in *. clearbody r.
  destruct (scaled_within r lo hi Hr Hlo Hle Hhi Hwidth) as [-> Hin].
  split; [exact Hin|]. intros j k Hj Hspan.
  unfold Helpers.RANDOM_DENOM in *.
  assert (0 < 2 ^ j)%Z as Hpj by (apply Z.pow_pos_nonneg; lia).
  assert (2 ^ (54 + j) = 2 ^ 53 * 2 ^ (j + 1))%Z as Hpow.
  { rewrite <-Z.pow_add_r by lia. f_equal. lia. }
  pose proof (round53_near (r * (hi - lo + 1)) j Hj ltac:(nia)) as Hnear.
  set (y := round53 (r * (hi - lo + 1))) in *. clearbody y.
  pose proof (Z.div_mod y (2 ^ 53) ltac:(lia)) as Hdm.
  pose proof (Z.mod_pos_bound y (2 ^ 53) ltac:(lia)) as Hmod.
  split; intros Hk.
  - subst k. nia.
  - assert (y / 2 ^ 53 = k - lo)%Z; [|lia].
    symmetry. apply (Z.div_unique _ _ _ (y - (k - lo) * 2 ^ 53)); nia.
Qed.

Lemma randomNumber_within_bounds_witness :
  (- 2 ^ 53 ≤ -50)%Z ∧ (-50 ≤ 50)%Z ∧ (50 ≤ 2 ^ 53)%Z ∧
  (50 - -50 < 2 ^ 53)%Z ∧
  ∃ n, result (@exec nat Worlds.cooperative (option Z)
                 (Handler.randomNumber (Some (-50)%Z) (Some 50%Z))
                 None Worlds.idle) = Ok (Some n) ∧
       (-50 ≤ n ≤ 50)%Z.
Proof.
  assert (- 2 ^ 53 ≤ -50)%Z as Hlo by lia.
  assert (-50 ≤ 50)%Z as Hle by lia.
  assert (50 ≤ 2 ^ 53)%Z as Hhi by lia.
  assert (50 - -50 < 2 ^ 53)%Z as Hwidth by lia.
  destruct (@randomNumber_within_bounds nat Worlds.cooperative (-50) 50 None
              Worlds.idle Hlo Hle Hhi Hwidth) as (n & Hrun & Hn & _).
  split; [exact Hlo|]. split; [exact Hle|]. split; [exact Hhi|].
  split; [exact Hwidth|].
  exists n. split; [by rewrite Hrun|exact Hn].
Defined.

(** The product is rounded before the floor is taken: at a draw just
    below the boundary between two values, [randomNumber(1000, 2000)]
    returns the upper one. Beyond [2^53] the sum is rounded as well. *)
Example randomNumber_at_boundary :
  Handler.scaled 206958624234808 1000 2000 = 1023%Z ∧
  (206958624234808 * (2000 - 1000 + 1) / Helpers.RANDOM_DENOM + 1000 = 1022)%Z ∧
  Handler.scaled (2 ^ 52) (2 ^ 53) (2 ^ 53 + 2) = (2 ^ 53)%Z.
Proof. by vm_compute. Qed.

(** X25. [randomizeBrowser] always returns a browser of type [chromium],
    a device type of the table and the profile that belongs to it, never
    [undefined]: the desktop profile, the tablet profile, or for a mobile
    device the iPhone or the Android profile. The profile is a mobile one
    exactly when the device is not a desktop, and it carries a user agent
    exactly when the device is mobile. *)
Theorem randomizeBrowser_profile_matches_type
    {W : Type} `{World W} fr (m : Machine W) :
  ∃ choice profile,
    result (exec Handler.randomizeBrowser fr m) = Ok choice ∧
    emitted (exec Handler.randomizeBrowser fr m) = [] ∧
    Handler.browserType choice = "chromium" ∧
    Handler.deviceType choice ∈ Handler.deviceTypes ∧
    Handler.deviceConfig choice = Some profile ∧
    (Handler.deviceType choice = "desktop" ∧ profile = Handler.desktop ∨
     Handler.deviceType choice = "tablet" ∧ profile = Handler.tablet ∨
     Handler.deviceType choice = "mobile" ∧
     (profile = Handler.iphone ∨ profile = Handler.android)) ∧
    Handler.isMobile profile
    = negb (String.eqb (Handler.deviceType choice) "desktop") ∧
    (is_Some (Handler.userAgent profile)
     ↔ Handler.deviceType choice = "mobile").
Proof.
  unfold Handler.randomizeBrowser.
  rewrite exec_mbind.
  destruct (exec_pick_in "undefined" Handler.deviceTypes fr m
              ltac:(done) ltac:(by vm_compute))
    as (type & -> & Htype).
  cbn [result emitted frame machine]. rewrite emit_nil, exec_mbind.
  unfold Handler.deviceTypes in Htype.
  apply elem_of_cons in Htype as [->|Htype];
    [|apply elem_of_cons in Htype as [->|Htype];
      [|apply elem_of_cons in Htype as [->|Htype];
        [|by apply elem_of_nil in Htype]]].
  - eexists _, Handler.desktop. simpl.
    repeat split; try done; try (by intros [? [=]]);
      try (by left);
      try (by repeat first [apply elem_of_cons; by left | apply elem_of_cons; right]).
  - eexists _, Handler.tablet. simpl.
    repeat split; try done; try (by intros [? [=]]);
      try (by right; left);
      try (by repeat first [apply elem_of_cons; by left | apply elem_of_cons; right]).
  - cbn [String.eqb Ascii.eqb Bool.eqb andb]. cbv zeta. rewrite exec_mbind.
    match goal with
    | |- context [exec (Helpers.pick "undefined" ?arr) ?f ?m'] =>
        destruct (exec_pick_in "undefined" arr f m'
                    ltac:(done) ltac:(by vm_compute))
          as (mobile & -> & Hmobile)
    end.
    apply elem_of_cons in Hmobile as [->|Hmobile];
      [|apply elem_of_cons in Hmobile as [->|Hmobile];
        [|by apply elem_of_nil in Hmobile]].
    + eexists _, Handler.iphone. simpl.
      repeat split; try done; try (by eexists);
        try (by right; right; split; [|left]);
        try (by repeat first [apply elem_of_cons; by left | apply elem_of_cons; right]).
    + eexists _, Handler.android. simpl.
      repeat split; try done; try (by eexists);
        try (by right; right; split; [|right]);
        try (by repeat first [apply elem_of_cons; by left | apply elem_of_cons; right]).
Qed.


(** A medium pause with a lower bound of its own; and a pause whose type
    names an inherited member, which waits for [NaN] milliseconds. *)
Example humanPause_delay_cases :
  (∃ n, result (@exec nat Worlds.cooperative (option Z)
                  (Handler.humanPause_delay "MEDIUM"
                     (Handler.mkPauseOptions (Some 500%Z) None))
                  None Worlds.idle) = Ok (Some n) ∧
        (500 ≤ n ≤ 2000)%Z) ∧
  result (@exec nat Worlds.cooperative (option Z)
            (Handler.humanPause_delay "constructor"
               (Handler.mkPauseOptions None None))
            None Worlds.idle) = Ok None ∧
  result (@exec nat Worlds.cooperative (option Z)
            (Handler.humanPause_delay "constructor"
               (Handler.mkPauseOptions (Some 500%Z) None))
            None Worlds.idle) = Ok None.
Proof.
  split; [|by vm_compute].
  eexists. split; [by vm_compute|]. lia.
Qed.
